(** * Service monitor: aggregation, thresholds, alert cooldown, retention

    A shallow embedding of [step4_monitoring/src/monitor.py]
    (class [ServiceMonitor]) together with the parts of [config.py] and
    [logger.py] it consumes.

    Conventions of the embedding.
    - Python [int] is [Z].  A Python [float] is a rational that binary64
      represents ([Py.float]); the result of a float operation is the exact
      result rounded to nearest, ties to even ([Py.round64]), and is carried
      as a [Q].  Infinities and NaN are not modelled: the operations modelled
      here stay within the range of their operands.
    - [datetime] is a [Z] count of microseconds, [timedelta] a [Z] number of
      microseconds; both are exact integers in Python as well.  A
      [timedelta] of more than 999999999 days does not exist: building one
      raises [OverflowError].
    - An exception is a value: a method that can raise returns a
      [Py.result] next to the monitor it leaves behind.
    - The dictionary [last_alert_time] is a [gmap string Z].
    - [self] is threaded explicitly: a method that mutates the monitor
      returns the new monitor next to its result.
    - The logger is the list of records it has been handed, oldest first.
    - The network and the clock are inputs: a method that performs a request
      or reads [datetime.now()] takes the outcome as an argument. *)

From Stdlib Require Import ZArith QArith Qabs Qround Qpower List Bool Lia Lqa String Ascii.
From Stdlib Require Import Sorting.Sorted Sorting.Permutation.
From stdpp Require Import base gmap strings.

Import ListNotations.
Local Open Scope string_scope.
Local Open Scope list_scope.
Local Open Scope Z_scope.

(** ** Python numbers *)

Module Py.

(** [x > y] and [x < y] on floats. *)
Definition gt (x y : Q) : bool := negb (Qle_bool x y).
Definition lt (x y : Q) : bool := negb (Qle_bool y x).

(** [int(x)]: truncation towards zero. *)
Definition int (x : Q) : Z :=
  if Qle_bool 0 x then Qfloor x else Qceiling x.

(** [len(l)] as a Python integer. *)
Definition len {A} (l : list A) : Z := Z.of_nat (List.length l).

(** *** Binary64 rounding

    [ilog2 x] is the integer [k] with [2^k <= x < 2^(k+1)] for a positive
    [x]; a binary64 number near [x] is a multiple of [2^e] with
    [e = max (k - 52) (-1074)] (53 significant bits, subnormals below
    [2^-1022]). *)
Definition ilog2 (x : Q) : Z :=
  let l := Z.log2 (Qnum x) - Z.log2 (Zpos (Qden x)) in
  if Qle_bool (2 ^ l) x then l else l - 1.

(** Rounding to the nearest integer, ties to the even one. *)
Definition rne (q : Q) : Z :=
  let f := Qfloor q in
  match Qcompare (q - inject_Z f) (1 # 2) with
  | Lt => f
  | Gt => f + 1
  | Eq => if Z.even f then f else f + 1
  end.

Definition round_pos (x : Q) : Q :=
  let e := Z.max (ilog2 x - 52) (-1074) in
  (inject_Z (rne (x / 2 ^ e)) * 2 ^ e)%Q.

(** The binary64 number nearest to [x], ties to even.  Overflow to an
    infinity is not modelled: every use below rounds a value that lies
    between two floats (a mean of floats, a quotient [k / n] with
    [0 <= k <= n], a hundred times such a quotient). *)
Definition round64 (x : Q) : Q :=
  match Qcompare x 0 with
  | Eq => 0%Q
  | Gt => round_pos x
  | Lt => (- round_pos (- x))%Q
  end.

(** The largest binary64 number. *)
Definition max_float : Q := inject_Z (2 ^ 1024 - 2 ^ 971).

(** The rationals that are finite binary64 numbers. *)
Definition representable (x : Q) : bool :=
  Qeq_bool (round64 x) x && Qle_bool (Qabs x) max_float.

(** A finite Python [float]. *)
Record float := {
  val : Q;
  is_float : representable val = true
}.

(** [a / b] on two integers (true division), [b] non-zero: the quotient,
    correctly rounded. *)
Definition truediv (a b : Z) : Q := round64 (inject_Z a / inject_Z b).

(** [x * y] on floats. *)
Definition fmul (x y : Q) : Q := round64 (x * y).

(** A value that Python code stores either as an [int] or as a [float]. *)
Inductive number : Type :=
| Int (z : Z)
| Float (q : Q).

(** Exceptions the modelled code can raise. *)
Inductive exn : Type :=
| IndexError
| ZeroDivisionError
| AttributeError
| OverflowError.

Inductive result (A : Type) : Type :=
| Ok (a : A)
| Raise (e : exn).
Arguments Ok {A} a.
Arguments Raise {A} e.

(** [l[i]]: a negative index counts from the end, an index out of range
    raises. *)
Definition getitem {A} (l : list A) (i : Z) : result A :=
  let j := if i <? 0 then i + len l else i in
  if j <? 0 then Raise IndexError
  else match nth_error l (Z.to_nat j) with
       | Some x => Ok x
       | None => Raise IndexError
       end.

(** [sorted(l)] on floats: a stable sort that only uses [<]. *)
Fixpoint insert (x : Q) (l : list Q) : list Q :=
  match l with
  | [] => [x]
  | y :: ys => if lt y x then y :: insert x ys else x :: y :: ys
  end.

Definition sorted (l : list Q) : list Q := fold_right insert [] l.

(** The exact sum of floats. *)
Definition sum (l : list Q) : Q := fold_right Qplus 0%Q l.

(** [statistics.mean(l)] for a non-empty [l] of floats: the exact sum
    divided by the length, rounded once. *)
Definition mean (l : list Q) : Q := round64 (sum l / inject_Z (len l)).

End Py.

Coercion Py.val : Py.float >-> Q.

(** ** Data model ([monitor.py], the two dataclasses)

    A field whose name is also a field of another record carries a prefix
    ([m_] for snapshots, [a_] for alerts, [th_] for thresholds). *)

Record RequestMetrics := {
  endpoint : string;
  response_time : Py.float;
  status_code : Z;
  success : bool;
  timestamp : Z
}.

Record ServiceMetrics := {
  m_timestamp : Z;
  response_time_avg : Q;
  response_time_p95 : Q;
  error_rate : Q;
  total_requests : Z;
  successful_requests : Z;
  failed_requests : Z;
  m_consecutive_failures : Z;
  m_health_status : bool
}.

(** ** Configuration ([config.py]) *)

(** A threshold dictionary [{"warning": w, "critical": c}]. *)
Record Thresholds (A : Type) := {
  warning : A;
  critical : A
}.
Arguments warning {A} _.
Arguments critical {A} _.

Record Endpoints := {
  ep_health : string;
  ep_predict : string
}.

Record ServiceConfig := {
  base_url : string;
  endpoints : Endpoints
}.

Record MonitoringSettings := {
  check_interval_seconds : Z;
  samples_per_check : Z;
  request_timeout_seconds : Z;
  inference_test_interval_minutes : Z
}.

Record ThresholdsConfig := {
  response_time_ms : Thresholds Q;
  p95_latency_ms : Thresholds Q;
  error_rate_percent : Thresholds Q;
  th_consecutive_failures : Thresholds Z
}.

Record AlertsConfig := {
  alerts_enabled : bool;
  cooldown_minutes : Z
}.

Record InferenceTestConfig := {
  inference_enabled : bool;
  expected_fields : list string
}.

Record MonitoringConfig := {
  service : ServiceConfig;
  monitoring : MonitoringSettings;
  thresholds : ThresholdsConfig;
  alerts : AlertsConfig;
  inference_test : InferenceTestConfig
}.

(** The defaults of [config.py]. *)
Definition default_config : MonitoringConfig := {|
  service := {| base_url := "http://localhost:8000";
                endpoints := {| ep_health := "/health"; ep_predict := "/predict" |} |};
  monitoring := {| check_interval_seconds := 30; samples_per_check := 3;
                   request_timeout_seconds := 10;
                   inference_test_interval_minutes := 5 |};
  thresholds := {| response_time_ms := {| warning := 2000%Q; critical := 5000%Q |};
                   p95_latency_ms := {| warning := 3000%Q; critical := 6000%Q |};
                   error_rate_percent := {| warning := 10%Q; critical := 25%Q |};
                   th_consecutive_failures := {| warning := 3; critical := 5 |} |};
  alerts := {| alerts_enabled := true; cooldown_minutes := 5 |};
  inference_test := {| inference_enabled := true;
                       expected_fields := ["filename"; "result"; "status_code"] |}
|}.

(** ** Logger ([logger.py], class [MonitoringLogger])

    The logger is a collaborator: what matters here is which records it is
    handed and in which order.  The [extra] dictionaries and the console
    colouring are not modelled. *)

(** An f-string: literal pieces and formatted holes. *)
Inductive fragment : Type :=
| Lit (s : string)
| Fixed2 (x : Q)          (* {x:.2f} *)
| Plain (n : Py.number)   (* {x} *)
| Strftime (t : Z).       (* {t.strftime(...)} *)

Definition text : Type := list fragment.

Inductive LogRecord : Type :=
| Message (level : string) (message : text)
| Metric (metric : string) (value : Py.number) (status : string)
| AlertRecord (alert_type : string) (message : text) (level : string)
              (value threshold : Py.number).

(** [str.upper()] on ASCII text. *)
Definition upper_ascii (c : ascii) : ascii :=
  let n := nat_of_ascii c in
  if (97 <=? n)%nat && (n <=? 122)%nat then ascii_of_nat (n - 32) else c.

Fixpoint upper (s : string) : string :=
  match s with
  | EmptyString => EmptyString
  | String c s' => String (upper_ascii c) (upper s')
  end.

Definition Logger : Type := list LogRecord.

Definition log_info (lg : Logger) (message : text) : Logger :=
  lg ++ [Message "INFO" message].
Definition log_warning (lg : Logger) (message : text) : Logger :=
  lg ++ [Message "WARNING" message].
Definition log_error (lg : Logger) (message : text) : Logger :=
  lg ++ [Message "ERROR" message].
Definition log_success (lg : Logger) (message : text) : Logger :=
  lg ++ [Message "INFO" (Lit "✅ " :: message)].

Definition log_metric (lg : Logger) (metric_name : string) (value : Py.number)
    (status : string) : Logger :=
  lg ++ [Metric metric_name value status].

(** [MonitoringLogger.alert]: the alert itself, then a metric [alert_<type>]. *)
Definition log_alert (lg : Logger) (alert_type : string) (message : text)
    (level : string) (value threshold : Py.number) : Logger :=
  let lg := lg ++ [AlertRecord alert_type message (upper level) value threshold] in
  log_metric lg ("alert_" +:+ alert_type)
    (Py.Float (if String.eqb (upper level) "WARNING" || String.eqb (upper level) "CRITICAL"
               then 1.0 else 0.0)%Q)
    level.

(** ** The monitor ([monitor.py], class [ServiceMonitor]) *)

Record ServiceMonitor := {
  config : MonitoringConfig;
  logger : Logger;
  request_history : list RequestMetrics;
  metrics_history : list ServiceMetrics;
  consecutive_failures : Z;
  last_alert_time : gmap string Z;
  health_status : bool
}.

(** [ServiceMonitor.__init__] (the test image is a file on disk and is not
    part of the state). *)
Definition init (cfg : MonitoringConfig) (lg : Logger) : ServiceMonitor := {|
  config := cfg;
  logger := lg;
  request_history := [];
  metrics_history := [];
  consecutive_failures := 0;
  last_alert_time := ∅;
  health_status := false
|}.

(** Attribute assignments [self.x = v]. *)
Definition set_logger (self : ServiceMonitor) (v : Logger) : ServiceMonitor :=
  {| config := config self; logger := v;
     request_history := request_history self;
     metrics_history := metrics_history self;
     consecutive_failures := consecutive_failures self;
     last_alert_time := last_alert_time self;
     health_status := health_status self |}.

Definition set_request_history (self : ServiceMonitor) (v : list RequestMetrics)
    : ServiceMonitor :=
  {| config := config self; logger := logger self;
     request_history := v;
     metrics_history := metrics_history self;
     consecutive_failures := consecutive_failures self;
     last_alert_time := last_alert_time self;
     health_status := health_status self |}.

Definition set_metrics_history (self : ServiceMonitor) (v : list ServiceMetrics)
    : ServiceMonitor :=
  {| config := config self; logger := logger self;
     request_history := request_history self;
     metrics_history := v;
     consecutive_failures := consecutive_failures self;
     last_alert_time := last_alert_time self;
     health_status := health_status self |}.

Definition set_consecutive_failures (self : ServiceMonitor) (v : Z) : ServiceMonitor :=
  {| config := config self; logger := logger self;
     request_history := request_history self;
     metrics_history := metrics_history self;
     consecutive_failures := v;
     last_alert_time := last_alert_time self;
     health_status := health_status self |}.

Definition set_last_alert_time (self : ServiceMonitor) (v : gmap string Z)
    : ServiceMonitor :=
  {| config := config self; logger := logger self;
     request_history := request_history self;
     metrics_history := metrics_history self;
     consecutive_failures := consecutive_failures self;
     last_alert_time := v;
     health_status := health_status self |}.

Definition set_health_status (self : ServiceMonitor) (v : bool) : ServiceMonitor :=
  {| config := config self; logger := logger self;
     request_history := request_history self;
     metrics_history := metrics_history self;
     consecutive_failures := consecutive_failures self;
     last_alert_time := last_alert_time self;
     health_status := v |}.

(** *** The outside world seen by one outbound call *)

(** What [aiohttp] hands back: a response, or an exception (connection
    refused, timeout, ...).  [json] is the set of members of the parsed body,
    [None] when [response.json()] raises. *)
Record Response := {
  status : Z;
  json : option (list string);
  body_text : string
}.

Inductive HttpOutcome : Type :=
| Responded (r : Response)
| TransportError (message : string).

(** One call: its outcome, [(time.time() - start_time) * 1000], and the
    [datetime.now()] read when the sample is built. *)
Record Exchange := {
  outcome : HttpOutcome;
  elapsed_ms : Py.float;
  finished_at : Z
}.

(** *** [check_health] *)

Definition check_health (self : ServiceMonitor) (x : Exchange)
    : (bool * Py.float) * ServiceMonitor :=
  match outcome x with
  | Responded r =>
      if status r =? 200 then
        match json r with
        | Some _ => ((true, elapsed_ms x), self)
        | None =>
            ((false, elapsed_ms x),
             set_logger self
               (log_error (logger self) [Lit "Health check error: "; Lit "invalid JSON"]))
        end
      else
        ((false, elapsed_ms x),
         set_logger self
           (log_warning (logger self)
              [Lit "Health check failed: "; Plain (Py.Int (status r))]))
  | TransportError e =>
      ((false, elapsed_ms x),
       set_logger self (log_error (logger self) [Lit "Health check error: "; Lit e]))
  end.

(** *** [test_inference] *)

Definition has_field (members : list string) (field : string) : bool :=
  existsb (String.eqb field) members.

Definition test_inference (self : ServiceMonitor) (image_exists : bool) (x : Exchange)
    : (bool * Q * option (list string)) * ServiceMonitor :=
  if negb image_exists then
    ((false, 0%Q, None),
     set_logger self (log_error (logger self) [Lit "Test image not found: "]))
  else
    match outcome x with
    | Responded r =>
        if status r =? 200 then
          match json r with
          | Some result =>
              if forallb (has_field result) (expected_fields (inference_test (config self)))
              then
                ((true, Py.val (elapsed_ms x), Some result),
                 set_logger self
                   (log_success (logger self)
                      [Lit "Inference test passed: "; Fixed2 (elapsed_ms x); Lit "ms"]))
              else
                ((false, Py.val (elapsed_ms x), Some result),
                 set_logger self
                   (log_warning (logger self) [Lit "Inference response missing fields"]))
          | None =>
              ((false, Py.val (elapsed_ms x), None),
               set_logger self
                 (log_error (logger self) [Lit "Inference test error: "; Lit "invalid JSON"]))
          end
        else
          ((false, Py.val (elapsed_ms x), None),
           set_logger self
             (log_error (logger self)
                [Lit "Inference test failed: "; Plain (Py.Int (status r))]))
    | TransportError e =>
        ((false, Py.val (elapsed_ms x), None),
         set_logger self (log_error (logger self) [Lit "Inference test error: "; Lit e]))
    end.

(** *** [perform_request]

    The result is [None] when the Python function falls off its end, which
    returns Python's [None] instead of a [RequestMetrics].  [data] is the
    optional dictionary; a missing or empty dictionary is falsy. *)

Definition truthy {A} (data : option (list A)) : bool :=
  match data with
  | Some (_ :: _) => true
  | _ => false
  end.

(** The body that the [GET] and the [POST] branch share, followed by the
    [except Exception] handler. *)
Definition request_sample (self : ServiceMonitor) (endpoint : string) (x : Exchange)
    : option RequestMetrics * ServiceMonitor :=
  match outcome x with
  | Responded r =>
      (Some {| endpoint := endpoint;
               response_time := elapsed_ms x;
               status_code := status r;
               success := status r <? 400;
               timestamp := finished_at x |},
       self)
  | TransportError e =>
      (Some {| endpoint := endpoint;
               response_time := elapsed_ms x;
               status_code := 0;
               success := false;
               timestamp := finished_at x |},
       set_logger self
         (log_error (logger self)
            [Lit "Request failed: "; Lit endpoint; Lit " - "; Lit e]))
  end.

Definition perform_request (self : ServiceMonitor) (endpoint method : string)
    (data : option (list (string * string))) (x : Exchange)
    : option RequestMetrics * ServiceMonitor :=
  if String.eqb (upper method) "GET" then
    request_sample self endpoint x
  else if String.eqb (upper method) "POST" && truthy data then
    request_sample self endpoint x
  else
    (None, self).

(** *** [calculate_metrics] *)

Definition failed (r : RequestMetrics) : bool := negb (success r).

Definition nonempty {A} (l : list A) : bool :=
  match l with
  | [] => false
  | _ :: _ => true
  end.

Definition calculate_metrics (self : ServiceMonitor) (now : Z)
    (requests : list RequestMetrics) : Py.result ServiceMetrics * ServiceMonitor :=
  if negb (nonempty requests) then
    (Py.Ok {| m_timestamp := now;
              response_time_avg := 0;
              response_time_p95 := 0;
              error_rate := 100;
              total_requests := 0;
              successful_requests := 0;
              failed_requests := 0;
              m_consecutive_failures := consecutive_failures self;
              m_health_status := health_status self |},
     self)
  else
    let response_times :=
      List.map (fun r => Py.val (response_time r)) (List.filter success requests) in
    let successful_requests := List.filter success requests in
    let failed_requests := List.filter failed requests in
    let total_requests := Py.len requests in
    let successful_count := Py.len successful_requests in
    let failed_count := Py.len failed_requests in
    let avg_response_time :=
      if nonempty response_times then Py.mean response_times else 0%Q in
    let p95 :=
      if nonempty response_times then
        let sorted_times := Py.sorted response_times in
        (* the product is taken exactly; [p95_index_binary64] compares it
           with the binary64 product *)
        let p95_index := Py.int (0.95 * inject_Z (Py.len sorted_times))%Q in
        Py.getitem sorted_times p95_index
      else Py.Ok 0%Q in
    match p95 with
    | Py.Raise e => (Py.Raise e, self)
    | Py.Ok p95_latency =>
        let error_rate :=
          if total_requests >? 0
          then Py.fmul (Py.truediv failed_count total_requests) 100
          else 100%Q in
        let self :=
          if failed_count >? 0
          then set_consecutive_failures self (consecutive_failures self + failed_count)
          else set_consecutive_failures self 0 in
        (Py.Ok {| m_timestamp := now;
                  response_time_avg := avg_response_time;
                  response_time_p95 := p95_latency;
                  error_rate := error_rate;
                  total_requests := total_requests;
                  successful_requests := successful_count;
                  failed_requests := failed_count;
                  m_consecutive_failures := consecutive_failures self;
                  m_health_status := health_status self |},
         self)
    end.

(** *** [check_thresholds] *)

(** The alert dictionaries [{'type', 'level', 'message', 'value', 'threshold'}]. *)
Record Alert := {
  a_type : string;
  a_level : string;
  a_message : text;
  a_value : Py.number;
  a_threshold : Py.number
}.

Definition check_thresholds (self : ServiceMonitor) (metrics : ServiceMetrics)
    : list Alert :=
  let th := thresholds (config self) in
  let alerts := [] in
  (* response time *)
  let alerts :=
    if Py.gt (response_time_avg metrics) (critical (response_time_ms th)) then
      alerts ++ [{| a_type := "response_time"; a_level := "critical";
                    a_message := [Lit "Критическое время ответа: ";
                                  Fixed2 (response_time_avg metrics); Lit "ms"];
                    a_value := Py.Float (response_time_avg metrics);
                    a_threshold := Py.Float (critical (response_time_ms th)) |}]
    else if Py.gt (response_time_avg metrics) (warning (response_time_ms th)) then
      alerts ++ [{| a_type := "response_time"; a_level := "warning";
                    a_message := [Lit "Высокое время ответа: ";
                                  Fixed2 (response_time_avg metrics); Lit "ms"];
                    a_value := Py.Float (response_time_avg metrics);
                    a_threshold := Py.Float (warning (response_time_ms th)) |}]
    else alerts in
  (* P95 latency *)
  let alerts :=
    if Py.gt (response_time_p95 metrics) (critical (p95_latency_ms th)) then
      alerts ++ [{| a_type := "p95_latency"; a_level := "critical";
                    a_message := [Lit "Критическая P95 латенси: ";
                                  Fixed2 (response_time_p95 metrics); Lit "ms"];
                    a_value := Py.Float (response_time_p95 metrics);
                    a_threshold := Py.Float (critical (p95_latency_ms th)) |}]
    else if Py.gt (response_time_p95 metrics) (warning (p95_latency_ms th)) then
      alerts ++ [{| a_type := "p95_latency"; a_level := "warning";
                    a_message := [Lit "Высокая P95 латенси: ";
                                  Fixed2 (response_time_p95 metrics); Lit "ms"];
                    a_value := Py.Float (response_time_p95 metrics);
                    a_threshold := Py.Float (warning (p95_latency_ms th)) |}]
    else alerts in
  (* error rate *)
  let alerts :=
    if Py.gt (error_rate metrics) (critical (error_rate_percent th)) then
      alerts ++ [{| a_type := "error_rate"; a_level := "critical";
                    a_message := [Lit "Критический error rate: ";
                                  Fixed2 (error_rate metrics); Lit "%"];
                    a_value := Py.Float (error_rate metrics);
                    a_threshold := Py.Float (critical (error_rate_percent th)) |}]
    else if Py.gt (error_rate metrics) (warning (error_rate_percent th)) then
      alerts ++ [{| a_type := "error_rate"; a_level := "warning";
                    a_message := [Lit "Высокий error rate: ";
                                  Fixed2 (error_rate metrics); Lit "%"];
                    a_value := Py.Float (error_rate metrics);
                    a_threshold := Py.Float (warning (error_rate_percent th)) |}]
    else alerts in
  (* consecutive failures *)
  let alerts :=
    if m_consecutive_failures metrics >=? critical (th_consecutive_failures th) then
      alerts ++ [{| a_type := "consecutive_failures"; a_level := "critical";
                    a_message := [Lit "Критическое количество последовательных ошибок: ";
                                  Plain (Py.Int (m_consecutive_failures metrics))];
                    a_value := Py.Int (m_consecutive_failures metrics);
                    a_threshold := Py.Int (critical (th_consecutive_failures th)) |}]
    else if m_consecutive_failures metrics >=? warning (th_consecutive_failures th) then
      alerts ++ [{| a_type := "consecutive_failures"; a_level := "warning";
                    a_message := [Lit "Много последовательных ошибок: ";
                                  Plain (Py.Int (m_consecutive_failures metrics))];
                    a_value := Py.Int (m_consecutive_failures metrics);
                    a_threshold := Py.Int (warning (th_consecutive_failures th)) |}]
    else alerts in
  (* health status *)
  let alerts :=
    if negb (m_health_status metrics) then
      alerts ++ [{| a_type := "health_status"; a_level := "critical";
                    a_message := [Lit "Сервис недоступен"];
                    a_value := Py.Int 0;
                    a_threshold := Py.Int 1 |}]
    else alerts in
  alerts.

(** *** [should_alert] *)

(** [timedelta(minutes=m)] in microseconds.  A [timedelta] holds at most
    999999999 days in either direction; beyond that the constructor raises
    [OverflowError]. *)
Definition timedelta_minutes (m : Z) : Py.result Z :=
  let days := m / 1440 in
  if (-999999999 <=? days) && (days <=? 999999999)
  then Py.Ok (m * 60 * 1000000)
  else Py.Raise Py.OverflowError.

(** [timedelta(hours=h)] in microseconds. *)
Definition timedelta_hours (h : Z) : Z := h * 3600 * 1000000.

Definition alert_key (alert_type level : string) : string :=
  alert_type +:+ "_" +:+ level.

Definition should_alert (self : ServiceMonitor) (now : Z) (alert_type level : string)
    : Py.result bool * ServiceMonitor :=
  if negb (alerts_enabled (alerts (config self))) then (Py.Ok false, self)
  else
    let alert_key := alert_key alert_type level in
    let fire :=
      (Py.Ok true,
       set_last_alert_time self (<[alert_key := now]> (last_alert_time self))) in
    match last_alert_time self !! alert_key with
    | Some last =>
        let time_since_last_alert := now - last in
        match timedelta_minutes (cooldown_minutes (alerts (config self))) with
        | Py.Raise e => (Py.Raise e, self)
        | Py.Ok cooldown =>
            if time_since_last_alert <? cooldown then (Py.Ok false, self) else fire
        end
    | None => fire
    end.

(** *** [log_metrics] *)

(** The [if]/[elif] chain that opens [log_metrics]. *)
Definition overall_status (self : ServiceMonitor) (metrics : ServiceMetrics) : string :=
  let th := thresholds (config self) in
  if Py.gt (error_rate metrics) (critical (error_rate_percent th)) then "critical"
  else if Py.gt (response_time_avg metrics) (critical (response_time_ms th))
          || (m_consecutive_failures metrics >=? critical (th_consecutive_failures th))
       then "critical"
  else if Py.gt (error_rate metrics) (warning (error_rate_percent th)) then "warning"
  else if Py.gt (response_time_avg metrics) (warning (response_time_ms th))
          || (m_consecutive_failures metrics >=? warning (th_consecutive_failures th))
       then "warning"
  else "normal".

(** [status_color.get(overall_status, '⚪')]. *)
Definition status_color (s : string) : string :=
  if String.eqb s "normal" then "🟢"
  else if String.eqb s "warning" then "🟡"
  else if String.eqb s "critical" then "🔴"
  else "⚪".

Definition log_metrics (self : ServiceMonitor) (metrics : ServiceMetrics)
    : ServiceMonitor :=
  let overall_status := overall_status self metrics in
  let lg := logger self in
  let lg := log_metric lg "response_time_avg"
              (Py.Float (response_time_avg metrics)) overall_status in
  let lg := log_metric lg "response_time_p95"
              (Py.Float (response_time_p95 metrics)) overall_status in
  let lg := log_metric lg "error_rate"
              (Py.Float (error_rate metrics)) overall_status in
  let lg := log_metric lg "consecutive_failures"
              (Py.Int (m_consecutive_failures metrics)) overall_status in
  let lg := log_metric lg "health_status"
              (Py.Float (if m_health_status metrics then 1.0 else 0.0)%Q)
              (if m_health_status metrics then "normal" else "critical") in
  let lg := log_info lg
              [Lit (status_color overall_status); Lit " ";
               Lit "Metrics: RT="; Fixed2 (response_time_avg metrics); Lit "ms, ";
               Lit "P95="; Fixed2 (response_time_p95 metrics); Lit "ms, ";
               Lit "ER="; Fixed2 (error_rate metrics); Lit "%, ";
               Lit "CF="; Plain (Py.Int (m_consecutive_failures metrics)); Lit ", ";
               Lit "Health="; Lit (if m_health_status metrics then "✅" else "❌")] in
  set_logger self lg.

(** *** [_cleanup_old_data] *)

Definition _cleanup_old_data (self : ServiceMonitor) (now : Z) : ServiceMonitor :=
  let cutoff_time := now - timedelta_hours 1 in
  let self :=
    set_request_history self
      (List.filter (fun r => timestamp r >? cutoff_time) (request_history self)) in
  let self :=
    set_metrics_history self
      (List.filter (fun m => m_timestamp m >? cutoff_time) (metrics_history self)) in
  self.

(** *** [monitoring_cycle] *)

(** Everything one cycle observes from outside: the outbound calls in the
    order they are made and the clock readings in the order they are taken. *)
Record CycleInputs := {
  started_at : Z;
  health_exchange : Exchange;
  sample_exchanges : nat -> Exchange;
  aggregated_at : Z;
  alert_clock : nat -> Z;
  current_minute : Z;
  image_exists : bool;
  inference_exchange : Exchange;
  cleanup_at : Z
}.

(** [for _ in range(n): requests.append(await self.perform_request(endpoint))],
    [i] counting the calls already made.  An entry is [None] where
    [perform_request] returned Python's [None]. *)
Fixpoint collect_samples (self : ServiceMonitor) (endpoint : string)
    (xs : nat -> Exchange) (i n : nat) (requests : list (option RequestMetrics))
    : list (option RequestMetrics) * ServiceMonitor :=
  match n with
  | O => (requests, self)
  | S n' =>
      let '(req_metrics, self) := perform_request self endpoint "GET" None (xs i) in
      collect_samples self endpoint xs (S i) n' (requests ++ [req_metrics])
  end.

(** [r.success] on every element: an [AttributeError] on a [None] entry. *)
Fixpoint all_samples (requests : list (option RequestMetrics))
    : Py.result (list RequestMetrics) :=
  match requests with
  | [] => Py.Ok []
  | None :: _ => Py.Raise Py.AttributeError
  | Some r :: rest =>
      match all_samples rest with
      | Py.Ok rs => Py.Ok (r :: rs)
      | Py.Raise e => Py.Raise e
      end
  end.

(** [for alert in alerts: if self.should_alert(...): self.logger.alert(...)],
    [i] counting the calls to [should_alert] already made.  An exception
    raised by [should_alert] leaves the loop. *)
Fixpoint emit_alerts (self : ServiceMonitor) (clock : nat -> Z) (i : nat)
    (alerts : list Alert) : Py.result unit * ServiceMonitor :=
  match alerts with
  | [] => (Py.Ok tt, self)
  | alert :: rest =>
      match should_alert self (clock i) (a_type alert) (a_level alert) with
      | (Py.Raise e, self) => (Py.Raise e, self)
      | (Py.Ok fire, self) =>
          let self :=
            if fire then
              set_logger self
                (log_alert (logger self) (a_type alert) (a_message alert) (a_level alert)
                   (a_value alert) (a_threshold alert))
            else self in
          emit_alerts self clock (S i) rest
      end
  end.

(** The periodic inference test at the end of a cycle. *)
Definition inference_step (self : ServiceMonitor) (inp : CycleInputs)
    : Py.result unit * ServiceMonitor :=
  if negb (inference_enabled (inference_test (config self))) then (Py.Ok tt, self)
  else
    let interval := inference_test_interval_minutes (monitoring (config self)) in
    if interval =? 0 then (Py.Raise Py.ZeroDivisionError, self)
    else if current_minute inp mod interval =? 0 then
      let self := set_logger self (log_info (logger self) [Lit "Запуск тестирования инференса..."]) in
      let '((inference_ok, inference_time, _), self) :=
        test_inference self (image_exists inp) (inference_exchange inp) in
      if inference_ok then
        (Py.Ok tt,
         set_logger self (log_metric (logger self) "inference_time"
                            (Py.Float inference_time) "normal"))
      else
        (Py.Ok tt,
         set_logger self (log_metric (logger self) "inference_failure"
                            (Py.Float 1.0%Q) "critical"))
    else (Py.Ok tt, self).

Definition monitoring_cycle (self : ServiceMonitor) (inp : CycleInputs)
    : Py.result unit * ServiceMonitor :=
  let self :=
    set_logger self
      (log_info (logger self) [Lit "Начало цикла мониторинга: "; Strftime (started_at inp)]) in
  let requests := [] in
  (* health endpoint *)
  let '((health_ok, health_response_time), self) :=
    check_health self (health_exchange inp) in
  let self := set_health_status self health_ok in
  let requests :=
    requests ++ [Some {| endpoint := ep_health (endpoints (service (config self)));
                         response_time := health_response_time;
                         status_code := if health_ok then 200 else 500;
                         success := health_ok;
                         timestamp := finished_at (health_exchange inp) |}] in
  (* further samples *)
  let '(requests, self) :=
    collect_samples self (ep_health (endpoints (service (config self))))
      (sample_exchanges inp) 0
      (Z.to_nat (samples_per_check (monitoring (config self)) - 1)) requests in
  (* aggregation *)
  match all_samples requests with
  | Py.Raise e => (Py.Raise e, self)
  | Py.Ok requests =>
      match calculate_metrics self (aggregated_at inp) requests with
      | (Py.Raise e, self) => (Py.Raise e, self)
      | (Py.Ok metrics, self) =>
          let self := set_metrics_history self (metrics_history self ++ [metrics]) in
          (* thresholds and alerts *)
          let alerts := check_thresholds self metrics in
          match emit_alerts self (alert_clock inp) 0 alerts with
          | (Py.Raise e, self) => (Py.Raise e, self)
          | (Py.Ok _, self) =>
              (* metrics *)
              let self := log_metrics self metrics in
              (* inference test *)
              match inference_step self inp with
              | (Py.Raise e, self) => (Py.Raise e, self)
              | (Py.Ok _, self) =>
                  (* retention *)
                  (Py.Ok tt, _cleanup_old_data self (cleanup_at inp))
              end
          end
      end
  end.

(** *** [start_monitoring]

    The [while True] loop over the cycles of a run, one [CycleInputs] per
    cycle; the list is the part of the run that has happened so far.  An
    exception that leaves a cycle is logged and ends the loop. *)
Fixpoint monitoring_loop (self : ServiceMonitor) (run : list CycleInputs)
    : ServiceMonitor :=
  match run with
  | [] => self
  | inp :: rest =>
      match monitoring_cycle self inp with
      | (Py.Ok _, self) => monitoring_loop self rest
      | (Py.Raise e, self) =>
          set_logger self (log_error (logger self) [Lit "Ошибка в мониторинге: "])
      end
  end.

Definition start_monitoring (self : ServiceMonitor) (run : list CycleInputs)
    : ServiceMonitor :=
  let self :=
    set_logger self
      (log_success (logger self)
         [Lit "Запуск мониторинга сервиса: "; Lit (base_url (service (config self)))]) in
  let self :=
    set_logger self
      (log_info (logger self)
         [Lit "Интервал проверки: ";
          Plain (Py.Int (check_interval_seconds (monitoring (config self))));
          Lit " сек"]) in
  monitoring_loop self run.

(** * Configuration loading ([config.py], class [ConfigLoader])

    YAML data and the objects built from it are untyped values.  A dataclass
    is its name and its fields in declaration order, each with its default
    or [None] when it has none.  The file system is an input: [load] takes
    the parsed content of the file, or [None] when the file does not exist.
    Dictionary keys are strings. *)

Module Config.

Local Set Warnings "-register-all".

Inductive value : Type :=
| VNone
| VBool (b : bool)
| VInt (z : Z)
| VFloat (q : Q)
| VStr (s : string)
| VList (l : list value)
| VDict (d : list (string * value))
| VObj (cls : string) (attrs : list (string * value)).

Inductive error : Type :=
| TypeError
| AttributeError
| FileNotFoundError.

Inductive outcome (A : Type) : Type :=
| Ok (a : A)
| Raise (e : error).
Arguments Ok {A} a.
Arguments Raise {A} e.

Definition bind {A B} (x : outcome A) (f : A -> outcome B) : outcome B :=
  match x with
  | Ok a => f a
  | Raise e => Raise e
  end.

(** [d[k]] when present. *)
Fixpoint lookup (k : string) (d : list (string * value)) : option value :=
  match d with
  | [] => None
  | (k', v) :: rest => if String.eqb k k' then Some v else lookup k rest
  end.

Record dataclass := {
  cls_name : string;
  cls_fields : list (string * option value)
}.

(** The generated [__init__] called with keyword arguments only: an unknown
    keyword or a missing field without default is a [TypeError]. *)
Definition known (c : dataclass) (k : string) : bool :=
  existsb (String.eqb k) (List.map fst (cls_fields c)).

Fixpoint fill (fields : list (string * option value)) (kwargs : list (string * value))
    : option (list (string * value)) :=
  match fields with
  | [] => Some []
  | (f, default) :: rest =>
      match (match lookup f kwargs with Some v => Some v | None => default end),
            fill rest kwargs with
      | Some v, Some vs => Some ((f, v) :: vs)
      | _, _ => None
      end
  end.

Definition construct (c : dataclass) (kwargs : list (string * value)) : outcome value :=
  if forallb (fun kv => known c (fst kv)) kwargs then
    match fill (cls_fields c) kwargs with
    | Some attrs => Ok (VObj (cls_name c) attrs)
    | None => Raise TypeError
    end
  else Raise TypeError.

(** [**v]: the value must be a mapping. *)
Definition kwargs_of (v : value) : outcome (list (string * value)) :=
  match v with
  | VDict d => Ok d
  | _ => Raise TypeError
  end.

(** [data.get(name, {})]. *)
Definition get (data : list (string * value)) (name : string) : value :=
  match lookup name data with
  | Some v => v
  | None => VDict []
  end.

Definition ServiceConfig : dataclass := {|
  cls_name := "ServiceConfig";
  cls_fields :=
    [("host", Some (VStr "localhost"));
     ("port", Some (VInt 8000));
     ("base_url", Some (VStr "http://localhost:8000"));
     ("endpoints", Some (VDict [("health", VStr "/health"); ("predict", VStr "/predict")]))]
|}.

(** The first class named [MonitoringConfig].  The second class statement of
    that name rebinds the name, so no call in [ConfigLoader] reaches this
    one. *)
Definition MonitoringConfig_settings : dataclass := {|
  cls_name := "MonitoringConfig";
  cls_fields :=
    [("check_interval_seconds", Some (VInt 30));
     ("samples_per_check", Some (VInt 3));
     ("request_timeout_seconds", Some (VInt 10));
     ("inference_test_interval_minutes", Some (VInt 5))]
|}.

Definition ThresholdsConfig : dataclass := {|
  cls_name := "ThresholdsConfig";
  cls_fields :=
    [("response_time_ms", Some (VDict [("warning", VInt 2000); ("critical", VInt 5000)]));
     ("p95_latency_ms", Some (VDict [("warning", VInt 3000); ("critical", VInt 6000)]));
     ("error_rate_percent", Some (VDict [("warning", VInt 10); ("critical", VInt 25)]));
     ("consecutive_failures", Some (VDict [("warning", VInt 3); ("critical", VInt 5)]))]
|}.

Definition AlertsConfig : dataclass := {|
  cls_name := "AlertsConfig";
  cls_fields :=
    [("enabled", Some (VBool true));
     ("cooldown_minutes", Some (VInt 5));
     ("notify_on", Some (VList [VStr "response_time"; VStr "error_rate";
                                VStr "consecutive_failures"; VStr "health_status"]))]
|}.

Definition LoggingConfig : dataclass := {|
  cls_name := "LoggingConfig";
  cls_fields :=
    [("console_colors", Some (VBool true));
     ("log_level", Some (VStr "INFO"));
     ("log_file", Some (VStr "logs/monitoring.log"));
     ("metrics_file", Some (VStr "logs/metrics.jsonl"));
     ("max_log_size_mb", Some (VInt 10));
     ("backup_count", Some (VInt 5))]
|}.

Definition InferenceTestConfig : dataclass := {|
  cls_name := "InferenceTestConfig";
  cls_fields :=
    [("enabled", Some (VBool true));
     ("test_image_path", Some (VStr "test_images/sample.jpg"));
     ("expected_fields", Some (VList [VStr "filename"; VStr "result"; VStr "status_code"]))]
|}.

(** The second class named [MonitoringConfig]: the binding in force when
    [ConfigLoader] runs.  None of its fields has a default. *)
Definition MonitoringConfig : dataclass := {|
  cls_name := "MonitoringConfig";
  cls_fields :=
    [("service", None); ("monitoring", None); ("thresholds", None);
     ("alerts", None); ("logging", None); ("inference_test", None)]
|}.

(** [ConfigLoader._create_config]; the keyword arguments are evaluated in
    the order they are written. *)
Definition _create_config (data : value) : outcome value :=
  match data with
  | VDict data =>
      bind (bind (kwargs_of (get data "service")) (construct ServiceConfig))
        (fun service =>
      bind (bind (kwargs_of (get data "monitoring")) (construct MonitoringConfig))
        (fun monitoring =>
      bind (bind (kwargs_of (get data "thresholds")) (construct ThresholdsConfig))
        (fun thresholds =>
      bind (bind (kwargs_of (get data "alerts")) (construct AlertsConfig))
        (fun alerts =>
      bind (bind (kwargs_of (get data "logging")) (construct LoggingConfig))
        (fun logging =>
      bind (bind (kwargs_of (get data "inference_test")) (construct InferenceTestConfig))
        (fun inference_test =>
      construct MonitoringConfig
        [("service", service); ("monitoring", monitoring); ("thresholds", thresholds);
         ("alerts", alerts); ("logging", logging); ("inference_test", inference_test)]))))))
  | _ => Raise AttributeError
  end.

(** [ConfigLoader.load]: [file] is the parsed content of the configuration
    file, [None] when the path does not exist. *)
Definition load (file : option value) : outcome value :=
  match file with
  | None => Raise FileNotFoundError
  | Some data => _create_config data
  end.

(** The names of the fields of a dataclass. *)
Definition field_names (c : dataclass) : list string := List.map fst (cls_fields c).

(** A configuration file with the sections and keys of the defaults. *)
Definition usual_file : value :=
  VDict [("service", VDict [("base_url", VStr "http://localhost:8000")]);
         ("monitoring", VDict [("check_interval_seconds", VInt 30);
                               ("samples_per_check", VInt 3)]);
         ("alerts", VDict [("enabled", VBool true)])].

(** A file whose [monitoring] section names the six sections themselves. *)
Definition nested_file : value :=
  VDict [("monitoring",
          VDict [("service", VNone); ("monitoring", VNone); ("thresholds", VNone);
                 ("alerts", VNone); ("logging", VNone); ("inference_test", VNone)])].

End Config.

(** * Vocabulary of the statements *)

(** The latencies of the successful samples of a batch, in batch order. *)
Definition latencies (requests : list RequestMetrics) : list Q :=
  List.map (fun r => Py.val (response_time r)) (List.filter success requests).

(** The number of failed samples of a batch. *)
Definition failure_count (requests : list RequestMetrics) : Z :=
  Py.len (List.filter failed requests).

(** Cumulative add on a cycle with failures, reset on a clean one. *)
Definition counter_rule (prior failures : Z) : Z :=
  if failures >? 0 then prior + failures else 0.

(** A sample of the health endpoint, successful or failed. *)
Definition sample (ok : bool) : RequestMetrics :=
  {| endpoint := "/health";
     response_time := {| Py.val := 10; Py.is_float := eq_refl |};
     status_code := if ok then 200 else 0;
     success := ok; timestamp := 0 |}.

(** Three successful samples with latencies 100, 200 and 9000. *)
Definition batch_100_200_9000 : list RequestMetrics :=
  List.map (fun rt => {| endpoint := "/health"; response_time := rt; status_code := 200;
                         success := true; timestamp := 0 |})
    [{| Py.val := 100; Py.is_float := eq_refl |};
     {| Py.val := 200; Py.is_float := eq_refl |};
     {| Py.val := 9000; Py.is_float := eq_refl |}].

(** Three successful samples with latencies 1, 2 and 2. *)
Definition batch_1_2_2 : list RequestMetrics :=
  List.map (fun rt => {| endpoint := "/health"; response_time := rt; status_code := 200;
                         success := true; timestamp := 0 |})
    [{| Py.val := 1; Py.is_float := eq_refl |};
     {| Py.val := 2; Py.is_float := eq_refl |};
     {| Py.val := 2; Py.is_float := eq_refl |}].

(** [int(0.95 * n)] with the literal and the product rounded to binary64. *)
Definition p95_index_rounded (n : Z) : Z :=
  Py.int (Py.fmul (Py.round64 0.95) (inject_Z n)).

(** Twenty-five samples of which the first seven failed. *)
Definition batch_7_of_25 : list RequestMetrics :=
  repeat (sample false) 7 ++ repeat (sample true) 18.

(** The alerts of one dimension, in the order they were emitted. *)
Definition alerts_of (dimension : string) (alerts : list Alert) : list Alert :=
  List.filter (fun a => String.eqb (a_type a) dimension) alerts.

(** Severity, observed value and threshold of an alert. *)
Definition summary (a : Alert) : string * Py.number * Py.number :=
  (a_level a, a_value a, a_threshold a).

(** What a dimension with a warning/critical pair emits: the critical alert
    alone, else the warning alert alone, else nothing. *)
Definition graded (over_critical over_warning : bool) (value critical warning : Py.number)
    : list (string * Py.number * Py.number) :=
  if over_critical then [("critical", value, critical)]
  else if over_warning then [("warning", value, warning)]
  else [].

(** Strict comparison of rationals and inclusive comparison of integers as
    booleans, from their decision procedures. *)
Definition exceeds (value threshold : Q) : bool :=
  if Qlt_le_dec threshold value then true else false.

Definition reaches (value threshold : Z) : bool :=
  if Z_le_dec threshold value then true else false.

(** The alerts of one dimension as [check_thresholds] builds them. *)
Definition dimension_alerts (over_critical over_warning : bool)
    (critical_alert warning_alert : Alert) : list Alert :=
  if over_critical then [critical_alert]
  else if over_warning then [warning_alert]
  else [].

(** The default configuration with alerting switched off. *)
Definition alerts_off_config : MonitoringConfig := {|
  service := service default_config;
  monitoring := monitoring default_config;
  thresholds := thresholds default_config;
  alerts := {| alerts_enabled := false; cooldown_minutes := 5 |};
  inference_test := inference_test default_config
|}.

(** The overall status of a cycle in the words of the specification:
    critical if average latency, error rate or the consecutive-failure count
    crosses its critical threshold, else warning if one of them crosses its
    warning threshold, else normal. *)
Definition cycle_status (th : ThresholdsConfig) (m : ServiceMetrics) : string :=
  if exceeds (response_time_avg m) (critical (response_time_ms th))
     || exceeds (error_rate m) (critical (error_rate_percent th))
     || reaches (m_consecutive_failures m) (critical (th_consecutive_failures th))
  then "critical"
  else if exceeds (response_time_avg m) (warning (response_time_ms th))
          || exceeds (error_rate m) (warning (error_rate_percent th))
          || reaches (m_consecutive_failures m) (warning (th_consecutive_failures th))
  then "warning"
  else "normal".

(** The status tags of the metric records of a log, oldest first. *)
Definition metric_tags (lg : Logger) : list string :=
  flat_map (fun r => match r with Metric _ _ st => [st] | _ => [] end) lg.

(** A snapshot of a clean cycle. *)
Definition quiet_snapshot (healthy : bool) : ServiceMetrics := {|
  m_timestamp := 0;
  response_time_avg := 100;
  response_time_p95 := 100;
  error_rate := 0;
  total_requests := 3;
  successful_requests := 3;
  failed_requests := 0;
  m_consecutive_failures := 0;
  m_health_status := healthy
|}.

(** A snapshot observed at a given time. *)
Definition snapshot_at (t : Z) : ServiceMetrics := {|
  m_timestamp := t;
  response_time_avg := 100;
  response_time_p95 := 100;
  error_rate := 0;
  total_requests := 3;
  successful_requests := 3;
  failed_requests := 0;
  m_consecutive_failures := 0;
  m_health_status := true
|}.

(** The raw-sample history and the snapshot history of a monitor. *)
Definition histories (self : ServiceMonitor)
    : list RequestMetrics * list ServiceMetrics :=
  (request_history self, metrics_history self).

(** [_cleanup_old_data] on the pair of histories. *)
Definition prune (now : Z) (h : list RequestMetrics * list ServiceMetrics)
    : list RequestMetrics * list ServiceMetrics :=
  (List.filter (fun r => timestamp r >? now - timedelta_hours 1) (fst h),
   List.filter (fun m => m_timestamp m >? now - timedelta_hours 1) (snd h)).

(** [self.metrics_history.append(metrics)] on the pair of histories. *)
Definition record_snapshot (m : ServiceMetrics)
    (h : list RequestMetrics * list ServiceMetrics)
    : list RequestMetrics * list ServiceMetrics :=
  (fst h, snd h ++ [m]).

(** A request is made exactly for [GET] and for [POST] with a non-empty
    body, in any letter case of the method. *)
Definition makes_request (method : string) (data : option (list (string * string)))
    : bool :=
  String.eqb (upper method) "GET" || (String.eqb (upper method) "POST" && truthy data).

(** A cycle at time [t] whose three probes all answer 200, after 100, 200
    and 9000 milliseconds, outside the minutes of the inference test. *)
Definition slow_probe_cycle (t : Z) : CycleInputs :=
  let answered (ms : Py.float) :=
    {| outcome := Responded {| status := 200; json := Some []; body_text := "" |};
       elapsed_ms := ms; finished_at := t |} in
  {| started_at := t;
     health_exchange := answered {| Py.val := 100; Py.is_float := eq_refl |};
     sample_exchanges :=
       fun i => match i with
                | O => answered {| Py.val := 200; Py.is_float := eq_refl |}
                | _ => answered {| Py.val := 9000; Py.is_float := eq_refl |}
                end;
     aggregated_at := t;
     alert_clock := fun _ => t;
     current_minute := 3;
     image_exists := true;
     inference_exchange := answered {| Py.val := 50; Py.is_float := eq_refl |};
     cleanup_at := t |}.

(** The alerts a logger was handed: dimension and severity, oldest first. *)
Definition alerts_logged (lg : Logger) : list (string * string) :=
  flat_map (fun r => match r with
                     | AlertRecord d _ severity _ _ => [(d, severity)]
                     | _ => []
                     end) lg.

(** How many of the values are at most, respectively at least, a bound. *)
Definition count_at_most (bound : Q) (l : list Q) : Z :=
  Py.len (List.filter (fun x => Qle_bool x bound) l).

Definition count_at_least (bound : Q) (l : list Q) : Z :=
  Py.len (List.filter (fun x => Qle_bool bound x) l).

(** The dimensions in the order [check_thresholds] visits them. *)
Definition dimensions : list string :=
  ["response_time"; "p95_latency"; "error_rate"; "consecutive_failures"; "health_status"].

(** The alerts of the dimensions that [log_metrics] looks at. *)
Definition status_alerts (alerts : list Alert) : list Alert :=
  List.filter (fun a => String.eqb (a_type a) "response_time"
                        || String.eqb (a_type a) "error_rate"
                        || String.eqb (a_type a) "consecutive_failures") alerts.

(** The worst severity among some alerts, [normal] when there is none. *)
Definition worst_level (alerts : list Alert) : string :=
  if existsb (fun a => String.eqb (a_level a) "critical") alerts then "critical"
  else if existsb (fun a => String.eqb (a_level a) "warning") alerts then "warning"
  else "normal".

(** The cooldown key of a candidate alert, and the (dimension, severity)
    pair under which the logger records it. *)
Definition key_of (a : Alert) : string := alert_key (a_type a) (a_level a).

Definition logged_as (a : Alert) : string * string := (a_type a, upper (a_level a)).

(** The keys [check_thresholds] can produce, in its order. *)
Definition threshold_keys : list string :=
  ["response_time_critical"; "response_time_warning";
   "p95_latency_critical"; "p95_latency_warning";
   "error_rate_critical"; "error_rate_warning";
   "consecutive_failures_critical"; "consecutive_failures_warning";
   "health_status_critical"].

(** The configured cooldown in microseconds. *)
Definition cooldown_of (self : ServiceMonitor) : Z :=
  cooldown_minutes (alerts (config self)) * 60 * 1000000.

(** The values of [cooldown_minutes] that [timedelta(minutes=...)] accepts. *)
Definition cooldown_in_range (self : ServiceMonitor) : Prop :=
  -1439999998560 <= cooldown_minutes (alerts (config self)) <= 1439999999999.

(** The default configuration with a cooldown of 1440000000000 minutes, the
    least positive number of minutes that [timedelta] rejects. *)
Definition huge_cooldown_config : MonitoringConfig := {|
  service := service default_config;
  monitoring := monitoring default_config;
  thresholds := thresholds default_config;
  alerts := {| alerts_enabled := true; cooldown_minutes := 1440000000000 |};
  inference_test := inference_test default_config
|}.

(** [cooldown_in_range] as a boolean. *)
Definition cooldown_accepted (self : ServiceMonitor) : bool :=
  (-1439999998560 <=? cooldown_minutes (alerts (config self)))
  && (cooldown_minutes (alerts (config self)) <=? 1439999999999).

(** Whether the key of a candidate alert has fired before. *)
Definition timer_running (self : ServiceMonitor) (a : Alert) : bool :=
  match last_alert_time self !! key_of a with
  | Some _ => true
  | None => false
  end.

(** The situation in which the loop over the candidates builds a
    [timedelta] that does not exist: alerting is enabled, the cooldown is
    out of range and a candidate has fired before. *)
Definition loop_overflows (self : ServiceMonitor) (candidates : list Alert) : bool :=
  alerts_enabled (alerts (config self))
  && negb (cooldown_accepted self)
  && existsb (timer_running self) candidates.

(** An unhealthy snapshot that crosses no threshold, and a monitor that has
    fired a health alert at time 0. *)
Definition unhealthy_alerts : list Alert :=
  check_thresholds (init default_config []) (quiet_snapshot false).

Definition fired_health_at_0 : ServiceMonitor :=
  set_last_alert_time (init default_config [])
    (<[alert_key "health_status" "critical" := 0]> ∅).

(** Whether the health probe counts as healthy: status 200 and a body that
    parses. *)
Definition probe_healthy (x : Exchange) : bool :=
  match outcome x with
  | Responded r =>
      (status r =? 200) && match json r with Some _ => true | None => false end
  | TransportError _ => false
  end.

(** The sample [perform_request] builds from one exchange. *)
Definition sample_of (ep : string) (x : Exchange) : RequestMetrics :=
  match outcome x with
  | Responded r =>
      {| endpoint := ep; response_time := elapsed_ms x; status_code := status r;
         success := status r <? 400; timestamp := finished_at x |}
  | TransportError _ =>
      {| endpoint := ep; response_time := elapsed_ms x; status_code := 0;
         success := false; timestamp := finished_at x |}
  end.

(** The number of [perform_request] calls of a cycle. *)
Definition extra_samples (self : ServiceMonitor) : nat :=
  Z.to_nat (samples_per_check (monitoring (config self)) - 1).

(** The batch a cycle aggregates: the health probe, then the samples. *)
Definition cycle_batch (self : ServiceMonitor) (inp : CycleInputs)
    : list RequestMetrics :=
  let ep := ep_health (endpoints (service (config self))) in
  {| endpoint := ep;
     response_time := elapsed_ms (health_exchange inp);
     status_code := if probe_healthy (health_exchange inp) then 200 else 500;
     success := probe_healthy (health_exchange inp);
     timestamp := finished_at (health_exchange inp) |}
  :: List.map (fun k => sample_of ep (sample_exchanges inp k))
       (seq 0 (extra_samples self)).

(** The configurations on which the inference step divides by zero. *)
Definition inference_raises (self : ServiceMonitor) : bool :=
  inference_enabled (inference_test (config self))
  && (inference_test_interval_minutes (monitoring (config self)) =? 0).

(** Log records that are not alerts. *)
Definition quiet (extra : Logger) : Prop := alerts_logged extra = [].

(** The default configuration with the inference test every 0 minutes. *)
Definition zero_interval_config : MonitoringConfig := {|
  service := service default_config;
  monitoring := {| check_interval_seconds := 30; samples_per_check := 3;
                   request_timeout_seconds := 10;
                   inference_test_interval_minutes := 0 |};
  thresholds := thresholds default_config;
  alerts := alerts default_config;
  inference_test := inference_test default_config
|}.

(** What a method logged: the records after those it started with. *)
Definition logged_since (before after : ServiceMonitor) : Logger :=
  skipn (List.length (logger before)) (logger after).

(** An exchange answered with a status and a body that parses, and one that
    died in transport. *)
Definition answered (code : Z) : Exchange :=
  {| outcome := Responded {| status := code; json := Some ["status"]; body_text := "" |};
     elapsed_ms := {| Py.val := 12; Py.is_float := eq_refl |}; finished_at := 7 |}.


Definition refused : Exchange :=
  {| outcome := TransportError "connection refused";
     elapsed_ms := {| Py.val := 3; Py.is_float := eq_refl |}; finished_at := 7 |}.

(** * Properties *)

(** ** Python numbers *)

Lemma gt_spec (x y : Q) : Py.gt x y = true <-> (y < x)%Q.
Proof.
  unfold Py.gt. rewrite negb_true_iff, <- not_true_iff_false, Qle_bool_iff.
  split; [apply Qnot_le_lt | apply Qlt_not_le].
Qed.

Lemma lt_spec (x y : Q) : Py.lt x y = true <-> (x < y)%Q.
Proof.
  unfold Py.lt. rewrite negb_true_iff, <- not_true_iff_false, Qle_bool_iff.
  split; [apply Qnot_le_lt | apply Qlt_not_le].
Qed.

Lemma lt_false (x y : Q) : Py.lt x y = false <-> (y <= x)%Q.
Proof.
  unfold Py.lt. rewrite negb_false_iff. apply Qle_bool_iff.
Qed.

Lemma len_nonneg {A} (l : list A) : 0 <= Py.len l.
Proof. unfold Py.len. lia. Qed.

Lemma len_pos {A} (l : list A) : nonempty l = true -> 0 < Py.len l.
Proof. destruct l; [discriminate | unfold Py.len; simpl; lia]. Qed.

Lemma len_zero {A} (l : list A) : nonempty l = false -> l = [].
Proof. destruct l; [reflexivity | discriminate]. Qed.

(** *** Binary64 rounding *)

Section Rounding.
Local Open Scope Q_scope.

Lemma two_pos (e : Z) : 0 < 2 ^ e.
Proof. apply Qpower_0_lt. reflexivity. Qed.

Lemma two_plus (a b : Z) : 2 ^ (a + b) == 2 ^ a * 2 ^ b.
Proof. apply Qpower_plus. discriminate. Qed.

Lemma two_le (a b : Z) : (a <= b)%Z -> 2 ^ a <= 2 ^ b.
Proof. intros H. apply Qpower_le_compat_l; [exact H | discriminate]. Qed.

Lemma two_lt_inv (a b : Z) : 2 ^ a < 2 ^ b -> (a < b)%Z.
Proof. intros H. apply (Qpower_lt_compat_l_inv 2); [exact H | reflexivity]. Qed.

Lemma two_Z (n : Z) : (0 <= n)%Z -> inject_Z (2 ^ n) == 2 ^ n.
Proof. intros H. apply (Zpower_Qpower 2 n H). Qed.

Lemma ilog2_spec (x : Q) :
  0 < x -> 2 ^ Py.ilog2 x <= x /\ x < 2 ^ (Py.ilog2 x + 1).
Proof.
  intros Hx. destruct x as [a d]. unfold Py.ilog2. cbn [Qnum Qden].
  assert (Ha : (0 < a)%Z) by (unfold Qlt in Hx; simpl in Hx; lia).
  set (la := Z.log2 a). set (ld := Z.log2 (Z.pos d)).
  destruct (Z.log2_spec a Ha) as [A1 A2]. fold la in A1, A2.
  destruct (Z.log2_spec (Z.pos d) ltac:(lia)) as [D1 D2]. fold ld in D1, D2.
  assert (Hla : (0 <= la)%Z) by apply Z.log2_nonneg.
  assert (Hld : (0 <= ld)%Z) by apply Z.log2_nonneg.
  assert (Hupper : a # d < 2 ^ (la - ld + 1)).
  { rewrite (Qmake_Qdiv a d). apply Qlt_shift_div_r; [reflexivity |].
    apply Qlt_le_trans with (2 ^ (la + 1)).
    - rewrite <- two_Z by lia. rewrite <- Zlt_Qlt.
      replace (la + 1)%Z with (Z.succ la) by lia. exact A2.
    - replace (la + 1)%Z with ((la - ld + 1) + ld)%Z by lia. rewrite two_plus.
      apply Qmult_le_l; [apply two_pos |].
      rewrite <- two_Z by lia. rewrite <- Zle_Qle. exact D1. }
  assert (Hlower : 2 ^ (la - ld - 1) <= a # d).
  { rewrite (Qmake_Qdiv a d). apply Qle_shift_div_l; [reflexivity |].
    apply Qle_trans with (2 ^ la).
    - replace la with ((la - ld - 1) + (ld + 1))%Z at 2 by lia. rewrite two_plus.
      apply Qmult_le_l; [apply two_pos |].
      rewrite <- two_Z by lia. rewrite <- Zle_Qle.
      replace (ld + 1)%Z with (Z.succ ld) by lia. lia.
    - rewrite <- two_Z by lia. rewrite <- Zle_Qle. exact A1. }
  destruct (Qle_bool (2 ^ (la - ld)) (a # d)) eqn:E.
  - apply Qle_bool_iff in E. split; assumption.
  - split; [exact Hlower |].
    replace (la - ld - 1 + 1)%Z with (la - ld)%Z by lia.
    apply Qnot_le_lt. intros H. apply Qle_bool_iff in H. congruence.
Qed.

Lemma ilog2_mono (x y : Q) : 0 < x -> x <= y -> (Py.ilog2 x <= Py.ilog2 y)%Z.
Proof.
  intros Hx Hxy. assert (Hy : 0 < y) by (eapply Qlt_le_trans; eauto).
  destruct (ilog2_spec x Hx) as [X1 _]. destruct (ilog2_spec y Hy) as [_ Y2].
  assert (H : 2 ^ Py.ilog2 x < 2 ^ (Py.ilog2 y + 1)).
  { eapply Qle_lt_trans; [exact X1 |]. eapply Qle_lt_trans; eauto. }
  apply two_lt_inv in H. lia.
Qed.

Lemma rne_Z (z : Z) : Py.rne (inject_Z z) = z.
Proof.
  unfold Py.rne. rewrite Qfloor_Z.
  replace (inject_Z z - inject_Z z ?= 1 # 2) with Lt; [reflexivity |].
  symmetry. apply Qlt_alt.
  assert (E : inject_Z z - inject_Z z == 0) by ring. rewrite E. reflexivity.
Qed.

Lemma rne_bounds (q : Q) : (Qfloor q <= Py.rne q <= Qfloor q + 1)%Z.
Proof.
  unfold Py.rne. destruct (_ ?= _); [destruct (Z.even _) | |]; lia.
Qed.

Ltac compare_facts :=
  repeat match goal with
         | H : (_ ?= _) = Lt |- _ => apply Qlt_alt in H
         | H : (_ ?= _) = Eq |- _ => apply Qeq_alt in H
         | H : (_ ?= _) = Gt |- _ => apply Qgt_alt in H
         end.

Lemma rne_mono (p q : Q) : p <= q -> (Py.rne p <= Py.rne q)%Z.
Proof.
  intros Hpq. pose proof (Qfloor_resp_le _ _ Hpq) as Hf.
  pose proof (rne_bounds p) as [_ Hp]. pose proof (rne_bounds q) as [Hq _].
  destruct (Z.eq_dec (Qfloor p) (Qfloor q)) as [E | NE]; [| lia].
  unfold Py.rne. rewrite E.
  destruct (p - inject_Z (Qfloor q) ?= 1 # 2) eqn:Cp;
    destruct (q - inject_Z (Qfloor q) ?= 1 # 2) eqn:Cq;
    try (destruct (Z.even (Qfloor q))); try lia;
    exfalso; compare_facts; lra.
Qed.

Lemma round_pos_ge (y : Q) (z e : Z) :
  inject_Z z * 2 ^ e <= y ->
  inject_Z z * 2 ^ e <= inject_Z (Py.rne (y / 2 ^ e)) * 2 ^ e.
Proof.
  intros H. apply Qmult_le_compat_r; [| apply Qlt_le_weak, two_pos].
  rewrite <- Zle_Qle. apply Z.le_trans with (Py.rne (inject_Z z)); [rewrite rne_Z; lia |].
  apply rne_mono. apply Qle_shift_div_l; [apply two_pos | exact H].
Qed.

Lemma round_pos_le (x : Q) (z e : Z) :
  x <= inject_Z z * 2 ^ e ->
  inject_Z (Py.rne (x / 2 ^ e)) * 2 ^ e <= inject_Z z * 2 ^ e.
Proof.
  intros H. apply Qmult_le_compat_r; [| apply Qlt_le_weak, two_pos].
  rewrite <- Zle_Qle. apply Z.le_trans with (Py.rne (inject_Z z)); [| rewrite rne_Z; lia].
  apply rne_mono. apply Qle_shift_div_r; [apply two_pos | exact H].
Qed.

Lemma round_pos_nonneg (x : Q) : 0 <= x -> 0 <= Py.round_pos x.
Proof.
  intros Hx. unfold Py.round_pos. cbv zeta.
  assert (E : 0 == inject_Z 0 * 2 ^ Z.max (Py.ilog2 x - 52) (-1074)) by ring.
  rewrite E at 1. apply round_pos_ge. rewrite <- E. exact Hx.
Qed.

Lemma round_pos_mono (x y : Q) : 0 < x -> x <= y -> Py.round_pos x <= Py.round_pos y.
Proof.
  intros Hx Hxy. assert (Hy : 0 < y) by (eapply Qlt_le_trans; eauto).
  pose proof (ilog2_mono x y Hx Hxy) as Hk.
  destruct (ilog2_spec x Hx) as [_ X2]. destruct (ilog2_spec y Hy) as [Y1 _].
  unfold Py.round_pos. cbv zeta.
  set (ex := Z.max (Py.ilog2 x - 52) (-1074)).
  set (ey := Z.max (Py.ilog2 y - 52) (-1074)).
  destruct (Z.eq_dec ex ey) as [E | NE].
  - rewrite <- E. apply Qmult_le_compat_r; [| apply Qlt_le_weak, two_pos].
    rewrite <- Zle_Qle. apply rne_mono.
    apply Qmult_le_compat_r; [exact Hxy |].
    apply Qlt_le_weak, Qinv_lt_0_compat, two_pos.
  - assert (Hlt : (ex < ey)%Z) by lia.
    assert (Hey : ey = (Py.ilog2 y - 52)%Z) by lia.
    apply Qle_trans with (inject_Z (2 ^ 52) * 2 ^ ey).
    + apply Qle_trans with (inject_Z (2 ^ 53) * 2 ^ ex).
      * apply round_pos_le. rewrite two_Z by lia. rewrite <- two_plus.
        apply Qlt_le_weak. eapply Qlt_le_trans; [exact X2 |]. apply two_le. lia.
      * rewrite !two_Z by lia. rewrite <- !two_plus. apply two_le. lia.
    + apply round_pos_ge. rewrite two_Z by lia. rewrite <- two_plus.
      eapply Qle_trans; [| exact Y1]. apply two_le. lia.
Qed.

(** Rounding is monotone, and so respects equality of rationals. *)
Lemma round64_mono (x y : Q) : x <= y -> Py.round64 x <= Py.round64 y.
Proof.
  intros Hxy. unfold Py.round64.
  destruct (x ?= 0) eqn:Cx; destruct (y ?= 0) eqn:Cy; compare_facts.
  - apply Qle_refl.
  - exfalso. lra.
  - apply round_pos_nonneg. lra.
  - assert (H : 0 <= Py.round_pos (- x)) by (apply round_pos_nonneg; lra). lra.
  - assert (H : Py.round_pos (- y) <= Py.round_pos (- x)) by (apply round_pos_mono; lra).
    lra.
  - assert (H1 : 0 <= Py.round_pos (- x)) by (apply round_pos_nonneg; lra).
    assert (H2 : 0 <= Py.round_pos y) by (apply round_pos_nonneg; lra). lra.
  - exfalso. lra.
  - exfalso. lra.
  - apply round_pos_mono; lra.
Qed.

Lemma round64_comp (x y : Q) : x == y -> Py.round64 x == Py.round64 y.
Proof.
  intros H. apply Qle_antisym; apply round64_mono; rewrite H; apply Qle_refl.
Qed.

(** Rounding to the nearest integer moves a number by at most a half. *)
Lemma rne_error (q : Q) :
  q - (1 # 2) <= inject_Z (Py.rne q) <= q + (1 # 2).
Proof.
  pose proof (Qfloor_le q) as Hlo. pose proof (Qlt_floor q) as Hhi.
  rewrite inject_Z_plus in Hhi. change (inject_Z 1) with 1 in Hhi.
  unfold Py.rne.
  destruct (q - inject_Z (Qfloor q) ?= 1 # 2) eqn:C; compare_facts.
  - destruct (Z.even (Qfloor q)); [lra |].
    rewrite inject_Z_plus. change (inject_Z 1) with 1. lra.
  - lra.
  - rewrite inject_Z_plus. change (inject_Z 1) with 1. lra.
Qed.

(** Rounding a positive number below [2^(k+1)] moves it by at most
    [2^(k-53)], as long as [k] is not below the normal range. *)
Lemma round_pos_error (x : Q) (k : Z) :
  (-1022 <= k)%Z -> 0 < x -> x < 2 ^ (k + 1) ->
  x - 2 ^ (k - 53) <= Py.round_pos x <= x + 2 ^ (k - 53).
Proof.
  intros Hk Hx Hlt. destruct (ilog2_spec x Hx) as [Hlo _].
  assert (Hi : (Py.ilog2 x <= k)%Z).
  { assert (H : 2 ^ Py.ilog2 x < 2 ^ (k + 1)) by (eapply Qle_lt_trans; eauto).
    apply two_lt_inv in H. lia. }
  unfold Py.round_pos. cbv zeta.
  set (e := Z.max (Py.ilog2 x - 52) (-1074)).
  assert (He : (e <= k - 52)%Z) by lia.
  pose proof (two_pos e) as Hpos.
  pose proof (rne_error (x / 2 ^ e)) as [H1 H2].
  set (r := inject_Z (Py.rne (x / 2 ^ e))) in *.
  assert (Ex : x / 2 ^ e * 2 ^ e == x).
  { field. intros H0. rewrite H0 in Hpos. discriminate Hpos. }
  assert (Hhalf : 2 ^ e * (1 # 2) <= 2 ^ (k - 53)).
  { apply Qle_trans with (2 ^ (k - 52) * (1 # 2)).
    - apply Qmult_le_compat_r; [apply two_le, He | discriminate].
    - replace (k - 52)%Z with ((k - 53) + 1)%Z by lia. rewrite two_plus.
      change (2 ^ 1) with 2. pose proof (two_pos (k - 53)). lra. }
  assert (M1 : (x / 2 ^ e - (1 # 2)) * 2 ^ e <= r * 2 ^ e)
    by (apply Qmult_le_compat_r; [exact H1 | apply Qlt_le_weak, Hpos]).
  assert (M2 : r * 2 ^ e <= (x / 2 ^ e + (1 # 2)) * 2 ^ e)
    by (apply Qmult_le_compat_r; [exact H2 | apply Qlt_le_weak, Hpos]).
  assert (E1 : (x / 2 ^ e - (1 # 2)) * 2 ^ e == x - 2 ^ e * (1 # 2))
    by (rewrite <- Ex at 2; ring).
  assert (E2 : (x / 2 ^ e + (1 # 2)) * 2 ^ e == x + 2 ^ e * (1 # 2))
    by (rewrite <- Ex at 2; ring).
  rewrite E1 in M1. rewrite E2 in M2. lra.
Qed.

Lemma round64_error (x : Q) (k : Z) :
  (-1022 <= k)%Z -> 0 <= x -> x < 2 ^ (k + 1) ->
  x - 2 ^ (k - 53) <= Py.round64 x <= x + 2 ^ (k - 53).
Proof.
  intros Hk Hx Hlt. pose proof (two_pos (k - 53)) as Hpos. unfold Py.round64.
  destruct (x ?= 0) eqn:C; compare_facts.
  - lra.
  - exfalso. lra.
  - apply round_pos_error; assumption.
Qed.

(** The values Python prints for [1/3], [0.1] and [5/3], a tie that goes to
    the even neighbour, and the least subnormal number. *)
Example round64_values :
  Py.round64 (1 # 3) == 6004799503160661 # 18014398509481984 /\
  Py.round64 (1 # 10) == 3602879701896397 # 36028797018963968 /\
  Py.round64 (5 # 3) == 7505999378950827 # 4503599627370496 /\
  Py.round64 (inject_Z (2 ^ 53 + 1)) == inject_Z (2 ^ 53) /\
  Py.round64 (inject_Z (2 ^ 53 + 3)) == inject_Z (2 ^ 53 + 4) /\
  Py.round64 (2 ^ (-1074)) == 2 ^ (-1074) /\
  Py.round64 (2 ^ (-1075)) == 0.
Proof. vm_compute. repeat split. Qed.

(** A float is left alone by rounding. *)
Lemma round64_float (x : Py.float) : Py.round64 x == x.
Proof.
  pose proof (Py.is_float x) as H. unfold Py.representable in H.
  apply andb_true_iff in H. destruct H as [H _]. apply Qeq_bool_iff in H. exact H.
Qed.

(** The result of rounding lies between any two floats that enclose the
    argument. *)
Lemma round64_between (lo hi : Py.float) (x : Q) :
  lo <= x <= hi -> lo <= Py.round64 x <= hi.
Proof.
  intros [H1 H2]. split.
  - rewrite <- (round64_float lo). apply round64_mono. exact H1.
  - rewrite <- (round64_float hi). apply round64_mono. exact H2.
Qed.

End Rounding.

(** *** [sorted] returns the ascending rearrangement of its argument *)

Lemma insert_perm (x : Q) (l : list Q) : Permutation (x :: l) (Py.insert x l).
Proof.
  induction l as [| y ys IH]; simpl.
  - apply Permutation_refl.
  - destruct (Py.lt y x).
    + eapply Permutation_trans; [apply perm_swap | apply perm_skip, IH].
    + apply Permutation_refl.
Qed.

Lemma insert_hdrel (a x : Q) (l : list Q) :
  (a <= x)%Q -> HdRel Qle a l -> HdRel Qle a (Py.insert x l).
Proof.
  intros Hax Hal. destruct l as [| y ys]; simpl.
  - constructor. exact Hax.
  - destruct (Py.lt y x); constructor.
    + inversion Hal; assumption.
    + exact Hax.
Qed.

Lemma insert_sorted (x : Q) (l : list Q) :
  Sorted Qle l -> Sorted Qle (Py.insert x l).
Proof.
  induction 1 as [| y ys Hs IH Hhd]; simpl.
  - repeat constructor.
  - destruct (Py.lt y x) eqn:E.
    + constructor; [exact IH |].
      apply insert_hdrel; [| exact Hhd].
      apply Qlt_le_weak, lt_spec, E.
    + constructor; [constructor; assumption |].
      constructor. apply lt_false, E.
Qed.

Lemma sorted_perm (l : list Q) : Permutation l (Py.sorted l).
Proof.
  induction l as [| x xs IH]; simpl.
  - apply Permutation_refl.
  - eapply Permutation_trans; [apply perm_skip, IH | apply insert_perm].
Qed.

Lemma sorted_sorted (l : list Q) : Sorted Qle (Py.sorted l).
Proof.
  induction l as [| x xs IH]; simpl; [constructor | apply insert_sorted, IH].
Qed.

Lemma sorted_length (l : list Q) : List.length (Py.sorted l) = List.length l.
Proof. symmetry. apply Permutation_length, sorted_perm. Qed.

Lemma sorted_len (l : list Q) : Py.len (Py.sorted l) = Py.len l.
Proof. unfold Py.len. now rewrite sorted_length. Qed.

(** *** The 95th-percentile index *)

Lemma p95_index_floor (n : Z) :
  0 <= n -> Py.int (0.95 * inject_Z n)%Q = 95 * n / 100.
Proof.
  intros Hn. unfold Py.int, Qle_bool, Qfloor, Qmult, inject_Z. simpl.
  change (Z.pos (100 * 1)) with 100.
  replace (0 * 100 <=? 95 * n * 1) with true by (symmetry; apply Z.leb_le; lia).
  reflexivity.
Qed.

(** For lists of up to 2000 elements the index computed in binary64 is the
    index computed exactly. *)
Example p95_index_binary64 :
  forallb (fun n => p95_index_rounded n =? Py.int (0.95 * inject_Z n)%Q)
    (List.map Z.of_nat (seq 1 2000)) = true.
Proof. vm_compute. reflexivity. Qed.

Lemma p95_index_in_range (n : Z) :
  0 < n -> 0 <= Py.int (0.95 * inject_Z n)%Q < n.
Proof.
  intros Hn. rewrite p95_index_floor by lia. split.
  - apply Z.div_pos; lia.
  - apply Z.div_lt_upper_bound; lia.
Qed.

Lemma getitem_in_range {A} (l : list A) (i : Z) (d : A) :
  0 <= i < Py.len l -> Py.getitem l i = Py.Ok (nth (Z.to_nat i) l d).
Proof.
  intros [H0 Hi]. unfold Py.getitem.
  replace (i <? 0) with false by (symmetry; apply Z.ltb_ge; lia). cbv zeta.
  replace (i <? 0) with false by (symmetry; apply Z.ltb_ge; lia).
  assert (Hlt : (Z.to_nat i < List.length l)%nat) by (unfold Py.len in Hi; lia).
  rewrite (nth_error_nth' l d Hlt). reflexivity.
Qed.

(** [sorted_times[int(0.95 * len(sorted_times))]] never raises. *)
Lemma p95_lookup (l : list Q) :
  nonempty l = true ->
  Py.getitem (Py.sorted l) (Py.int (0.95 * inject_Z (Py.len (Py.sorted l)))%Q)
  = Py.Ok (nth (Z.to_nat (95 * Py.len l / 100)) (Py.sorted l) 0%Q).
Proof.
  intros Hne. pose proof (len_pos l Hne) as Hpos.
  rewrite sorted_len.
  rewrite (getitem_in_range _ _ 0%Q).
  - now rewrite p95_index_floor by lia.
  - rewrite sorted_len. apply p95_index_in_range, Hpos.
Qed.

(** ** Aggregation *)

Lemma calculate_metrics_empty (self : ServiceMonitor) (now : Z) :
  calculate_metrics self now [] =
  (Py.Ok {| m_timestamp := now;
            response_time_avg := 0;
            response_time_p95 := 0;
            error_rate := 100;
            total_requests := 0;
            successful_requests := 0;
            failed_requests := 0;
            m_consecutive_failures := consecutive_failures self;
            m_health_status := health_status self |},
   self).
Proof. reflexivity. Qed.

(** On a non-empty batch the percentile lookup succeeds and the snapshot and
    the new monitor are the following. *)
Lemma calculate_metrics_nonempty (self : ServiceMonitor) (now : Z)
    (requests : list RequestMetrics) :
  nonempty requests = true ->
  calculate_metrics self now requests =
  (Py.Ok {| m_timestamp := now;
            response_time_avg :=
              if nonempty (latencies requests) then Py.mean (latencies requests) else 0;
            response_time_p95 :=
              if nonempty (latencies requests)
              then nth (Z.to_nat (95 * Py.len (latencies requests) / 100))
                       (Py.sorted (latencies requests)) 0%Q
              else 0;
            error_rate :=
              Py.fmul (Py.truediv (failure_count requests) (Py.len requests)) 100;
            total_requests := Py.len requests;
            successful_requests := Py.len (List.filter success requests);
            failed_requests := failure_count requests;
            m_consecutive_failures :=
              counter_rule (consecutive_failures self) (failure_count requests);
            m_health_status := health_status self |},
   set_consecutive_failures self
     (counter_rule (consecutive_failures self) (failure_count requests))).
Proof.
  intros Hne. unfold calculate_metrics. rewrite Hne. simpl negb. cbv iota zeta.
  fold (latencies requests). fold (failure_count requests).
  replace (Py.len requests >? 0) with true
    by (symmetry; apply Z.gtb_lt, len_pos, Hne).
  unfold counter_rule.
  destruct (nonempty (latencies requests)) eqn:Hlat.
  - rewrite (p95_lookup _ Hlat).
    destruct (failure_count requests >? 0); reflexivity.
  - destruct (failure_count requests >? 0); reflexivity.
Qed.

(** [calculate_metrics] always returns a snapshot. *)
Lemma calculate_metrics_total (self : ServiceMonitor) (now : Z)
    (requests : list RequestMetrics) :
  exists m, fst (calculate_metrics self now requests) = Py.Ok m.
Proof.
  destruct (nonempty requests) eqn:Hne.
  - rewrite (calculate_metrics_nonempty _ _ _ Hne). eexists. reflexivity.
  - rewrite (len_zero _ Hne), calculate_metrics_empty. eexists. reflexivity.
Qed.

(** The counter after three cycles with 2, 0 and 3 failed samples. *)
Example counter_sequence_2_0_3 :
  let s0 := init default_config [] in
  let s1 := snd (calculate_metrics s0 0 [sample false; sample true; sample false]) in
  let s2 := snd (calculate_metrics s1 0 [sample true; sample true; sample true]) in
  let s3 := snd (calculate_metrics s2 0 [sample false; sample false; sample false]) in
  List.map consecutive_failures [s1; s2; s3] = [2; 0; 3].
Proof. reflexivity. Qed.

(** The counter keeps adding across cycles that each have a failure. *)
Example counter_accumulates :
  let s0 := init default_config [] in
  let s1 := snd (calculate_metrics s0 0 [sample false; sample true; sample false]) in
  let s2 := snd (calculate_metrics s1 0 [sample true; sample false; sample true]) in
  List.map consecutive_failures [s1; s2] = [2; 3].
Proof. reflexivity. Qed.

(** C1, as stated, fails on the empty batch: the early return of
    [calculate_metrics] leaves the counter at its prior value 3, while an
    empty batch has no failure and the rule asks for 0. *)
Lemma calculate_metrics_empty_batch_counter :
  let self := set_consecutive_failures (init default_config []) 3 in
  failure_count [] = 0 /\
  counter_rule (consecutive_failures self) (failure_count []) = 0 /\
  consecutive_failures (snd (calculate_metrics self 0 [])) = 3 /\
  consecutive_failures (snd (calculate_metrics self 0 []))
    <> counter_rule (consecutive_failures self) (failure_count []).
Proof. repeat split; try reflexivity. discriminate. Qed.

(** C1 (amended).  For every batch and every prior value of the counter:
    on a non-empty batch the new counter is the prior value plus the number
    of failed samples when that number is positive and 0 otherwise; on an
    empty batch the counter keeps its prior value.  A snapshot is always
    returned and its [consecutive_failures] field is the new counter. *)
Theorem calculate_metrics_consecutive_failures (self : ServiceMonitor) (now : Z)
    (requests : list RequestMetrics) :
  let new :=
    if nonempty requests
    then counter_rule (consecutive_failures self) (failure_count requests)
    else consecutive_failures self in
  consecutive_failures (snd (calculate_metrics self now requests)) = new /\
  exists m, fst (calculate_metrics self now requests) = Py.Ok m /\
            m_consecutive_failures m = new.
Proof.
  destruct (nonempty requests) eqn:Hne; cbv zeta.
  - rewrite (calculate_metrics_nonempty _ _ _ Hne). simpl.
    split; [reflexivity | eexists; split; reflexivity].
  - rewrite (len_zero _ Hne), calculate_metrics_empty. simpl.
    split; [reflexivity | eexists; split; reflexivity].
Qed.

(** No successful sample in the batch. *)
Lemma latencies_nil_nonempty (requests : list RequestMetrics) :
  latencies requests = [] -> nonempty (latencies requests) = false.
Proof. intros ->. reflexivity. Qed.

Lemma latencies_cons_nonempty (requests : list RequestMetrics) :
  latencies requests <> [] -> nonempty (latencies requests) = true.
Proof. destruct (latencies requests); [congruence | reflexivity]. Qed.

(** The clamp to the last index never fires: [floor(0.95 * n) <= n - 1]. *)
Lemma p95_index_clamp (n : Z) :
  0 < n -> Z.min (Qfloor (0.95 * inject_Z n)%Q) (n - 1) = 95 * n / 100.
Proof.
  intros Hn.
  assert (Hf : Qfloor (0.95 * inject_Z n)%Q = 95 * n / 100).
  { rewrite <- (p95_index_floor n) by lia. unfold Py.int.
    replace (Qle_bool 0 (0.95 * inject_Z n)%Q) with true; [reflexivity |].
    symmetry. apply Qle_bool_iff. unfold Qle, Qmult, inject_Z. simpl. lia. }
  rewrite Hf. apply Z.min_l.
  assert (95 * n / 100 < n) by (apply Z.div_lt_upper_bound; lia). lia.
Qed.

(** C3.  A snapshot is always returned.  With no successful sample its p95
    and average latency are both 0.  Otherwise, for the [n] successful
    latencies, the p95 latency is the element at index [floor(0.95 * n)],
    clamped to [n - 1], of their ascending rearrangement, and the average is
    their arithmetic mean as a float: the exact sum divided by [n], rounded
    once to the nearest binary64 number. *)
Theorem calculate_metrics_latency (self : ServiceMonitor) (now : Z)
    (requests : list RequestMetrics) :
  let lat := latencies requests in
  let n := Py.len lat in
  exists m,
    fst (calculate_metrics self now requests) = Py.Ok m /\
    (lat = [] -> response_time_p95 m = 0%Q /\ response_time_avg m = 0%Q) /\
    (lat <> [] ->
       Sorted Qle (Py.sorted lat) /\
       Permutation lat (Py.sorted lat) /\
       nth_error (Py.sorted lat)
         (Z.to_nat (Z.min (Qfloor (0.95 * inject_Z n)%Q) (n - 1)))
       = Some (response_time_p95 m) /\
       response_time_avg m = Py.round64 (Py.sum lat / inject_Z n)%Q).
Proof.
  cbv zeta. destruct (nonempty requests) eqn:Hne.
  - rewrite (calculate_metrics_nonempty _ _ _ Hne). eexists.
    split; [reflexivity |]. cbn [response_time_p95 response_time_avg]. split.
    + intros Hnil. now rewrite (latencies_nil_nonempty _ Hnil).
    + intros Hcons. pose proof (latencies_cons_nonempty _ Hcons) as Hlat.
      rewrite Hlat. pose proof (len_pos _ Hlat) as Hpos.
      split; [apply sorted_sorted |]. split; [apply sorted_perm |].
      split; [| reflexivity].
      rewrite (p95_index_clamp _ Hpos).
      apply nth_error_nth'. rewrite sorted_length.
      assert (95 * Py.len (latencies requests) / 100 < Py.len (latencies requests))
        by (apply Z.div_lt_upper_bound; lia).
      assert (0 <= 95 * Py.len (latencies requests) / 100)
        by (apply Z.div_pos; lia).
      unfold Py.len in *. lia.
  - rewrite (len_zero _ Hne), calculate_metrics_empty. eexists.
    split; [reflexivity |]. cbn [response_time_p95 response_time_avg].
    split; [auto |]. intros Hcons. exfalso. apply Hcons. reflexivity.
Qed.

Lemma calculate_metrics_latency_witness :
  exists m,
    fst (calculate_metrics (init default_config []) 0 batch_100_200_9000) = Py.Ok m /\
    response_time_p95 m = 9000%Q /\
    (response_time_avg m == 3100)%Q.
Proof.
  destruct (calculate_metrics_latency (init default_config []) 0 batch_100_200_9000)
    as (m & Hm & _ & Hcons).
  exists m. split; [exact Hm |].
  destruct Hcons as (_ & _ & Hp95 & Havg); [discriminate |].
  split.
  - injection Hp95 as Hp95. symmetry. exact Hp95.
  - rewrite Havg. vm_compute. reflexivity.
Defined.

(** The average of the latencies 1, 2 and 2 is the float
    1.6666666666666667, not the rational 5/3. *)
Example average_1_2_2 :
  exists m,
    fst (calculate_metrics (init default_config []) 0 batch_1_2_2) = Py.Ok m /\
    (response_time_avg m == 7505999378950827 # 4503599627370496)%Q /\
    ~ (response_time_avg m == 5 # 3)%Q /\
    response_time_p95 m = 2%Q.
Proof.
  eexists. split; [reflexivity |]. split; [vm_compute; reflexivity |].
  split; [vm_compute; discriminate | reflexivity].
Qed.

(** *** The error rate *)

Lemma filter_split_length {A} (f : A -> bool) (l : list A) :
  (List.length (List.filter f l) + List.length (List.filter (fun x => negb (f x)) l)
   = List.length l)%nat.
Proof.
  induction l as [| x xs IH]; simpl; [reflexivity |].
  destruct (f x); simpl; lia.
Qed.

Lemma len_successes_failures (requests : list RequestMetrics) :
  Py.len requests = Py.len (List.filter success requests) + failure_count requests.
Proof.
  unfold failure_count, Py.len, failed.
  pose proof (filter_split_length success requests). lia.
Qed.

Lemma failure_count_range (requests : list RequestMetrics) :
  0 <= failure_count requests <= Py.len requests.
Proof.
  pose proof (len_successes_failures requests).
  pose proof (len_nonneg (List.filter success requests)).
  unfold failure_count in *. pose proof (len_nonneg (List.filter failed requests)). lia.
Qed.

(** A quotient of integers against a rational bound. *)
Lemma quotient_ge (k n : Z) (c : Q) :
  0 < n -> (c * inject_Z n <= inject_Z k)%Q -> (c <= inject_Z k / inject_Z n)%Q.
Proof.
  intros Hn H. apply Qle_shift_div_l; [| exact H].
  unfold Qlt, inject_Z. simpl. lia.
Qed.

Lemma quotient_le (k n : Z) (c : Q) :
  0 < n -> (inject_Z k <= c * inject_Z n)%Q -> (inject_Z k / inject_Z n <= c)%Q.
Proof.
  intros Hn H. apply Qle_shift_div_r; [| exact H].
  unfold Qlt, inject_Z. simpl. lia.
Qed.

(** [k / n * 100] in floats, for [0 <= k <= n]: a number from 0 to 100,
    which is 0 for [k = 0] and 100 for [k = n], and neither of them for
    another [k] as long as [n] is at most [2^53]. *)
Lemma percent_bounds (k n : Z) :
  0 < n -> 0 <= k <= n ->
  let e := Py.fmul (Py.truediv k n) 100 in
  (0 <= e <= 100)%Q /\
  (k = 0 -> (e == 0)%Q) /\
  (k = n -> (e == 100)%Q) /\
  (n <= 2 ^ 53 -> 0 < k -> (0 < e)%Q) /\
  (n <= 2 ^ 53 -> k < n -> (e < 100)%Q).
Proof.
  intros Hn [Hk0 Hkn]. cbv zeta. unfold Py.fmul, Py.truediv.
  set (q := (inject_Z k / inject_Z n)%Q).
  assert (Hq0 : (0 <= q)%Q).
  { apply quotient_ge; [exact Hn |]. rewrite Qmult_0_l. unfold Qle, inject_Z. simpl. lia. }
  assert (Hq1 : (q <= 1)%Q).
  { apply quotient_le; [exact Hn |]. rewrite Qmult_1_l, <- Zle_Qle. exact Hkn. }
  pose proof (round64_mono _ _ Hq0) as Ht0.
  pose proof (round64_mono _ _ Hq1) as Ht1.
  change (Py.round64 0) with 0%Q in Ht0.
  assert (E1 : (Py.round64 1 == 1)%Q) by (vm_compute; reflexivity).
  assert (E100 : (Py.round64 100 == 100)%Q) by (vm_compute; reflexivity).
  rewrite E1 in Ht1. set (t := Py.round64 q) in *.
  split; [| split; [| split; [| split]]].
  - split.
    + change 0%Q with (Py.round64 0). apply round64_mono. lra.
    + apply Qle_trans with (Py.round64 100); [apply round64_mono; lra |].
      rewrite E100. apply Qle_refl.
  - intros ->. assert (Et : (t == 0)%Q).
    { apply Qle_antisym; [| exact Ht0].
      apply Qle_trans with (Py.round64 0); [| apply Qle_refl].
      unfold t. apply round64_mono.
      apply quotient_le; [exact Hn |]. rewrite Qmult_0_l. apply Qle_refl. }
    assert (E : (t * 100 == 0)%Q) by (rewrite Et; ring).
    rewrite (round64_comp _ _ E). reflexivity.
  - intros ->. assert (Et : (t == 1)%Q).
    { apply Qle_antisym; [exact Ht1 |].
      apply Qle_trans with (Py.round64 1); [rewrite E1; apply Qle_refl |].
      unfold t. apply round64_mono.
      apply quotient_ge; [exact Hn |]. rewrite Qmult_1_l. apply Qle_refl. }
    assert (E : (t * 100 == 100)%Q) by (rewrite Et; ring).
    rewrite (round64_comp _ _ E). exact E100.
  - intros Hbig Hpos.
    assert (Hq : ((1 # 9007199254740992) <= q)%Q).
    { apply quotient_ge; [exact Hn |].
      unfold Qle, Qmult, inject_Z. cbn [Qnum Qden]. change (2 ^ 53) with 9007199254740992 in Hbig.
      lia. }
    pose proof (round64_mono _ _ Hq) as Ht. fold t in Ht.
    assert (Es : (Py.round64 (1 # 9007199254740992) == 1 # 9007199254740992)%Q)
      by (vm_compute; reflexivity).
    rewrite Es in Ht.
    assert (Hm : ((100 # 9007199254740992) <= t * 100)%Q) by lra.
    pose proof (round64_mono _ _ Hm) as He.
    eapply Qlt_le_trans; [| exact He]. vm_compute. reflexivity.
  - intros Hbig Hlt.
    assert (Hq : (q <= 9007199254740991 # 9007199254740992)%Q).
    { apply quotient_le; [exact Hn |].
      unfold Qle, Qmult, inject_Z. cbn [Qnum Qden]. change (2 ^ 53) with 9007199254740992 in Hbig.
      lia. }
    pose proof (round64_mono _ _ Hq) as Ht. fold t in Ht.
    assert (Es : (Py.round64 (9007199254740991 # 9007199254740992)
                  == 9007199254740991 # 9007199254740992)%Q)
      by (vm_compute; reflexivity).
    rewrite Es in Ht.
    assert (Hm : (t * 100 <= (9007199254740991 # 9007199254740992) * 100)%Q) by lra.
    pose proof (round64_mono _ _ Hm) as He.
    eapply Qle_lt_trans; [exact He |]. vm_compute. reflexivity.
Qed.

(** The two roundings of [k / n * 100] move it by at most [41 / 2^51] from
    the exact percentage. *)
Lemma percent_error (k n : Z) :
  0 < n -> 0 <= k <= n ->
  let exact := (inject_Z (k * 100) / inject_Z n)%Q in
  (exact - (41 # 2251799813685248) <= Py.fmul (Py.truediv k n) 100
   <= exact + (41 # 2251799813685248))%Q.
Proof.
  intros Hn [Hk0 Hkn]. cbv zeta. unfold Py.fmul, Py.truediv.
  assert (Hn0 : ~ (inject_Z n == 0)%Q).
  { intros H0. unfold Qeq, inject_Z in H0. simpl in H0. lia. }
  assert (Ex : (inject_Z (k * 100) / inject_Z n == inject_Z k / inject_Z n * 100)%Q).
  { rewrite inject_Z_mult. change (inject_Z 100) with 100%Q. field. exact Hn0. }
  rewrite Ex. set (q := (inject_Z k / inject_Z n)%Q).
  assert (Hq0 : (0 <= q)%Q).
  { apply quotient_ge; [exact Hn |]. rewrite Qmult_0_l. unfold Qle, inject_Z. simpl. lia. }
  assert (Hq1 : (q <= 1)%Q).
  { apply quotient_le; [exact Hn |]. rewrite Qmult_1_l, <- Zle_Qle. exact Hkn. }
  assert (Hq2 : (q < 2 ^ (0 + 1))%Q) by (change (2 ^ (0 + 1))%Q with 2%Q; lra).
  pose proof (round64_error q 0 ltac:(lia) Hq0 Hq2) as [Ht1 Ht2].
  change (2 ^ (0 - 53))%Q with (1 # 9007199254740992)%Q in Ht1, Ht2.
  pose proof (round64_mono _ _ Hq0) as Ht0.
  pose proof (round64_mono _ _ Hq1) as Ht3.
  change (Py.round64 0) with 0%Q in Ht0.
  assert (E1 : (Py.round64 1 == 1)%Q) by (vm_compute; reflexivity).
  rewrite E1 in Ht3. set (t := Py.round64 q) in *.
  assert (Hp0 : (0 <= t * 100)%Q) by lra.
  assert (Hp1 : (t * 100 < 2 ^ (6 + 1))%Q) by (change (2 ^ (6 + 1))%Q with 128%Q; lra).
  pose proof (round64_error (t * 100) 6 ltac:(lia) Hp0 Hp1) as [He1 He2].
  change (2 ^ (6 - 53))%Q with (1 # 140737488355328)%Q in He1, He2.
  lra.
Qed.

(** C4, as stated, fails on a batch of 25 samples of which 7 failed: the
    two float operations of [failed / total * 100] give
    28.000000000000004, which is neither the rational [7 / 25 * 100 = 28]
    nor the float nearest to it. *)
Lemma calculate_metrics_error_rate_rounding :
  exists m,
    fst (calculate_metrics (init default_config []) 0 batch_7_of_25) = Py.Ok m /\
    total_requests m = 25 /\
    failed_requests m = 7 /\
    (error_rate m == 7881299347898369 # 281474976710656)%Q /\
    ~ (error_rate m == inject_Z (failed_requests m) / inject_Z (total_requests m) * 100)%Q /\
    ~ (error_rate m == Py.round64 (inject_Z (failed_requests m * 100)
                                   / inject_Z (total_requests m)))%Q.
Proof.
  eexists. split; [reflexivity |]. split; [reflexivity |]. split; [reflexivity |].
  split; [vm_compute; reflexivity |]. split; vm_compute; discriminate.
Qed.

(** C4 (amended).  A snapshot is always returned; it carries the size of
    the batch and its number of failed samples; its error rate is 100 on an
    empty batch and otherwise the float [failed / total * 100]: the quotient
    rounded to the nearest binary64 number, times 100, rounded again, which
    lies within [41 / 2^51] of the exact percentage [failed * 100 / total]. *)
Theorem calculate_metrics_error_rate (self : ServiceMonitor) (now : Z)
    (requests : list RequestMetrics) :
  exists m,
    fst (calculate_metrics self now requests) = Py.Ok m /\
    total_requests m = Py.len requests /\
    failed_requests m = failure_count requests /\
    (Py.len requests = 0 -> error_rate m = 100%Q) /\
    (Py.len requests > 0 ->
       let exact :=
         (inject_Z (failure_count requests * 100) / inject_Z (Py.len requests))%Q in
       error_rate m =
       Py.round64
         (Py.round64 (inject_Z (failure_count requests) / inject_Z (Py.len requests))
          * 100)%Q /\
       (exact - (41 # 2251799813685248) <= error_rate m
        <= exact + (41 # 2251799813685248))%Q).
Proof.
  destruct (nonempty requests) eqn:Hne.
  - rewrite (calculate_metrics_nonempty _ _ _ Hne). eexists.
    split; [reflexivity |].
    cbn [total_requests failed_requests error_rate].
    pose proof (len_pos _ Hne) as Hpos.
    split; [reflexivity |]. split; [reflexivity |]. split; [lia |].
    intros _. cbv zeta. split; [reflexivity |].
    apply percent_error; [exact Hpos | apply failure_count_range].
  - rewrite (len_zero _ Hne), calculate_metrics_empty. eexists.
    split; [reflexivity |].
    cbn [total_requests failed_requests error_rate].
    split; [reflexivity |]. split; [reflexivity |]. split; [reflexivity |].
    unfold Py.len. simpl. lia.
Qed.

Lemma calculate_metrics_error_rate_witness :
  exists m,
    fst (calculate_metrics (init default_config []) 0
           [sample false; sample true; sample true; sample true]) = Py.Ok m /\
    (error_rate m == 25)%Q /\
  exists m0,
    fst (calculate_metrics (init default_config []) 0 []) = Py.Ok m0 /\
    error_rate m0 = 100%Q.
Proof.
  destruct (calculate_metrics_error_rate (init default_config []) 0
              [sample false; sample true; sample true; sample true])
    as (m & Hm & _ & _ & _ & Hpos).
  exists m. split; [exact Hm |].
  destruct (Hpos eq_refl) as [Hrate _].
  split; [rewrite Hrate; vm_compute; reflexivity |].
  destruct (calculate_metrics_error_rate (init default_config []) 0 [])
    as (m0 & Hm0 & _ & _ & Hzero & _).
  exists m0. split; [exact Hm0 | apply Hzero; reflexivity].
Defined.

(** ** Threshold evaluation *)

Lemma gt_exceeds (x y : Q) : Py.gt x y = exceeds x y.
Proof.
  unfold exceeds. destruct (Qlt_le_dec y x) as [H | H].
  - apply gt_spec, H.
  - apply not_true_iff_false. rewrite gt_spec. apply Qle_not_lt, H.
Qed.

Lemma geb_reaches (x y : Z) : (x >=? y) = reaches x y.
Proof.
  unfold reaches. destruct (Z_le_dec y x) as [H | H].
  - rewrite Z.geb_leb. apply Z.leb_le, H.
  - rewrite Z.geb_leb. apply Z.leb_gt. lia.
Qed.

Lemma exceeds_true (x y : Q) : exceeds x y = true <-> (y < x)%Q.
Proof. rewrite <- gt_exceeds. apply gt_spec. Qed.

Lemma reaches_true (x y : Z) : reaches x y = true <-> y <= x.
Proof.
  unfold reaches. destruct (Z_le_dec y x); split; intros; try assumption;
    try reflexivity; try discriminate; contradiction.
Qed.

Lemma dimension_step (l : list Alert) (oc ow : bool) (c w : Alert) :
  (if oc then l ++ [c] else if ow then l ++ [w] else l) = l ++ dimension_alerts oc ow c w.
Proof. destruct oc, ow; simpl; now rewrite ?app_nil_r. Qed.

Lemma health_step (l : list Alert) (healthy : bool) (a : Alert) :
  (if negb healthy then l ++ [a] else l) = l ++ (if healthy then [] else [a]).
Proof. destruct healthy; simpl; now rewrite ?app_nil_r. Qed.

(** [check_thresholds] is the concatenation of what its five dimensions
    emit, in the order average latency, p95 latency, error rate, consecutive
    failures, health status. *)
Lemma check_thresholds_dimensions (self : ServiceMonitor) (metrics : ServiceMetrics) :
  let th := thresholds (config self) in
  check_thresholds self metrics =
  dimension_alerts
    (Py.gt (response_time_avg metrics) (critical (response_time_ms th)))
    (Py.gt (response_time_avg metrics) (warning (response_time_ms th)))
    {| a_type := "response_time"; a_level := "critical";
       a_message := [Lit "Критическое время ответа: ";
                     Fixed2 (response_time_avg metrics); Lit "ms"];
       a_value := Py.Float (response_time_avg metrics);
       a_threshold := Py.Float (critical (response_time_ms th)) |}
    {| a_type := "response_time"; a_level := "warning";
       a_message := [Lit "Высокое время ответа: ";
                     Fixed2 (response_time_avg metrics); Lit "ms"];
       a_value := Py.Float (response_time_avg metrics);
       a_threshold := Py.Float (warning (response_time_ms th)) |} ++
  dimension_alerts
    (Py.gt (response_time_p95 metrics) (critical (p95_latency_ms th)))
    (Py.gt (response_time_p95 metrics) (warning (p95_latency_ms th)))
    {| a_type := "p95_latency"; a_level := "critical";
       a_message := [Lit "Критическая P95 латенси: ";
                     Fixed2 (response_time_p95 metrics); Lit "ms"];
       a_value := Py.Float (response_time_p95 metrics);
       a_threshold := Py.Float (critical (p95_latency_ms th)) |}
    {| a_type := "p95_latency"; a_level := "warning";
       a_message := [Lit "Высокая P95 латенси: ";
                     Fixed2 (response_time_p95 metrics); Lit "ms"];
       a_value := Py.Float (response_time_p95 metrics);
       a_threshold := Py.Float (warning (p95_latency_ms th)) |} ++
  dimension_alerts
    (Py.gt (error_rate metrics) (critical (error_rate_percent th)))
    (Py.gt (error_rate metrics) (warning (error_rate_percent th)))
    {| a_type := "error_rate"; a_level := "critical";
       a_message := [Lit "Критический error rate: ";
                     Fixed2 (error_rate metrics); Lit "%"];
       a_value := Py.Float (error_rate metrics);
       a_threshold := Py.Float (critical (error_rate_percent th)) |}
    {| a_type := "error_rate"; a_level := "warning";
       a_message := [Lit "Высокий error rate: ";
                     Fixed2 (error_rate metrics); Lit "%"];
       a_value := Py.Float (error_rate metrics);
       a_threshold := Py.Float (warning (error_rate_percent th)) |} ++
  dimension_alerts
    (m_consecutive_failures metrics >=? critical (th_consecutive_failures th))
    (m_consecutive_failures metrics >=? warning (th_consecutive_failures th))
    {| a_type := "consecutive_failures"; a_level := "critical";
       a_message := [Lit "Критическое количество последовательных ошибок: ";
                     Plain (Py.Int (m_consecutive_failures metrics))];
       a_value := Py.Int (m_consecutive_failures metrics);
       a_threshold := Py.Int (critical (th_consecutive_failures th)) |}
    {| a_type := "consecutive_failures"; a_level := "warning";
       a_message := [Lit "Много последовательных ошибок: ";
                     Plain (Py.Int (m_consecutive_failures metrics))];
       a_value := Py.Int (m_consecutive_failures metrics);
       a_threshold := Py.Int (warning (th_consecutive_failures th)) |} ++
  (if m_health_status metrics then []
   else [{| a_type := "health_status"; a_level := "critical";
            a_message := [Lit "Сервис недоступен"];
            a_value := Py.Int 0; a_threshold := Py.Int 1 |}]).
Proof.
  cbv zeta. unfold check_thresholds. cbv zeta.
  rewrite !dimension_step, health_step, <- !app_assoc. reflexivity.
Qed.

Lemma alerts_of_app (d : string) (l1 l2 : list Alert) :
  alerts_of d (l1 ++ l2) = alerts_of d l1 ++ alerts_of d l2.
Proof. apply List.filter_app. Qed.

Lemma alerts_of_dimension_same (d : string) (oc ow : bool) (c w : Alert) :
  String.eqb (a_type c) d = true -> String.eqb (a_type w) d = true ->
  alerts_of d (dimension_alerts oc ow c w) = dimension_alerts oc ow c w.
Proof. intros Hc Hw. destruct oc, ow; simpl; now rewrite ?Hc, ?Hw. Qed.

Lemma alerts_of_dimension_other (d : string) (oc ow : bool) (c w : Alert) :
  String.eqb (a_type c) d = false -> String.eqb (a_type w) d = false ->
  alerts_of d (dimension_alerts oc ow c w) = [].
Proof. intros Hc Hw. destruct oc, ow; simpl; now rewrite ?Hc, ?Hw. Qed.

Lemma summary_dimension (oc ow : bool) (c w : Alert) :
  a_level c = "critical" -> a_level w = "warning" -> a_value w = a_value c ->
  List.map summary (dimension_alerts oc ow c w) =
  graded oc ow (a_value c) (a_threshold c) (a_threshold w).
Proof.
  intros Hc Hw Hv. destruct oc, ow; simpl; unfold summary;
    now rewrite ?Hc, ?Hw, ?Hv.
Qed.

(** Keep the alerts of the dimension asked for and drop the others. *)
Ltac select_dimension :=
  rewrite !alerts_of_app;
  repeat first [ rewrite alerts_of_dimension_same by reflexivity
               | rewrite alerts_of_dimension_other by reflexivity ].

(** C2.  For every snapshot and threshold configuration, each of the four
    numeric dimensions contributes the critical alert alone when its value
    crosses the critical threshold, else the warning alert alone when it
    crosses the warning threshold, else nothing; average latency, p95 latency
    and error rate cross a threshold when strictly above it, the
    consecutive-failure count when at or above it. *)
Theorem check_thresholds_numeric (self : ServiceMonitor) (metrics : ServiceMetrics) :
  let th := thresholds (config self) in
  let alerts := check_thresholds self metrics in
  List.map summary (alerts_of "response_time" alerts) =
    graded (exceeds (response_time_avg metrics) (critical (response_time_ms th)))
           (exceeds (response_time_avg metrics) (warning (response_time_ms th)))
           (Py.Float (response_time_avg metrics))
           (Py.Float (critical (response_time_ms th)))
           (Py.Float (warning (response_time_ms th))) /\
  List.map summary (alerts_of "p95_latency" alerts) =
    graded (exceeds (response_time_p95 metrics) (critical (p95_latency_ms th)))
           (exceeds (response_time_p95 metrics) (warning (p95_latency_ms th)))
           (Py.Float (response_time_p95 metrics))
           (Py.Float (critical (p95_latency_ms th)))
           (Py.Float (warning (p95_latency_ms th))) /\
  List.map summary (alerts_of "error_rate" alerts) =
    graded (exceeds (error_rate metrics) (critical (error_rate_percent th)))
           (exceeds (error_rate metrics) (warning (error_rate_percent th)))
           (Py.Float (error_rate metrics))
           (Py.Float (critical (error_rate_percent th)))
           (Py.Float (warning (error_rate_percent th))) /\
  List.map summary (alerts_of "consecutive_failures" alerts) =
    graded (reaches (m_consecutive_failures metrics) (critical (th_consecutive_failures th)))
           (reaches (m_consecutive_failures metrics) (warning (th_consecutive_failures th)))
           (Py.Int (m_consecutive_failures metrics))
           (Py.Int (critical (th_consecutive_failures th)))
           (Py.Int (warning (th_consecutive_failures th))).
Proof.
  cbv zeta. rewrite check_thresholds_dimensions. cbv zeta.
  rewrite <- !gt_exceeds, <- !geb_reaches.
  repeat split; select_dimension;
    (destruct (m_health_status metrics); cbn [alerts_of List.filter a_type String.eqb];
     rewrite ?app_nil_l, ?app_nil_r;
     apply summary_dimension; reflexivity).
Qed.

(** C6.  For every snapshot and configuration, threshold evaluation emits
    for the health-status dimension exactly one alert, critical, with
    observed value 0 and threshold 1, when the snapshot is unhealthy, and no
    alert when it is healthy. *)
Theorem check_thresholds_health_status (self : ServiceMonitor) (metrics : ServiceMetrics) :
  alerts_of "health_status" (check_thresholds self metrics) =
  if m_health_status metrics then []
  else [{| a_type := "health_status"; a_level := "critical";
           a_message := [Lit "Сервис недоступен"];
           a_value := Py.Int 0; a_threshold := Py.Int 1 |}].
Proof.
  rewrite check_thresholds_dimensions. cbv zeta.
  select_dimension. destruct (m_health_status metrics); reflexivity.
Qed.

(** ** The alert gate *)

Lemma append_inj_r (p s1 s2 : string) : p +:+ s1 = p +:+ s2 -> s1 = s2.
Proof.
  induction p as [| c p IH]; simpl; intros H; [exact H |].
  injection H as H. apply IH, H.
Qed.

(** Two severities of one dimension have different keys. *)
Lemma alert_key_severity (dimension s1 s2 : string) :
  s1 <> s2 -> alert_key dimension s1 <> alert_key dimension s2.
Proof.
  intros Hne Heq. apply Hne. unfold alert_key in Heq.
  apply append_inj_r in Heq. apply (append_inj_r "_") in Heq. exact Heq.
Qed.

(** [timedelta(minutes=m)] is built for exactly the following [m]. *)
Lemma timedelta_minutes_ok (m : Z) :
  -1439999998560 <= m <= 1439999999999 ->
  timedelta_minutes m = Py.Ok (m * 60 * 1000000).
Proof.
  intros Hm. unfold timedelta_minutes. cbv zeta.
  pose proof (Z.div_mod m 1440 ltac:(lia)) as Hd.
  pose proof (Z.mod_pos_bound m 1440 ltac:(lia)) as Hr.
  replace (-999999999 <=? m / 1440) with true by (symmetry; apply Z.leb_le; lia).
  replace (m / 1440 <=? 999999999) with true by (symmetry; apply Z.leb_le; lia).
  reflexivity.
Qed.

Lemma timedelta_minutes_overflow (m : Z) :
  ~ -1439999998560 <= m <= 1439999999999 ->
  timedelta_minutes m = Py.Raise Py.OverflowError.
Proof.
  intros Hm. unfold timedelta_minutes. cbv zeta.
  pose proof (Z.div_mod m 1440 ltac:(lia)) as Hd.
  pose proof (Z.mod_pos_bound m 1440 ltac:(lia)) as Hr.
  destruct (-999999999 <=? m / 1440) eqn:E1; [| reflexivity].
  destruct (m / 1440 <=? 999999999) eqn:E2; [| reflexivity].
  apply Z.leb_le in E1, E2. exfalso. apply Hm. lia.
Qed.

Lemma should_alert_disabled (self : ServiceMonitor) (now : Z) (dimension severity : string) :
  alerts_enabled (alerts (config self)) = false ->
  should_alert self now dimension severity = (Py.Ok false, self).
Proof. intros H. unfold should_alert. now rewrite H. Qed.

Lemma should_alert_fresh (self : ServiceMonitor) (now : Z) (dimension severity : string) :
  alerts_enabled (alerts (config self)) = true ->
  last_alert_time self !! alert_key dimension severity = None ->
  should_alert self now dimension severity =
  (Py.Ok true, set_last_alert_time self
                 (<[alert_key dimension severity := now]> (last_alert_time self))).
Proof. intros He Hl. unfold should_alert. rewrite He. cbv zeta. now rewrite Hl. Qed.

Lemma should_alert_cooling (self : ServiceMonitor) (now last : Z)
    (dimension severity : string) :
  alerts_enabled (alerts (config self)) = true ->
  last_alert_time self !! alert_key dimension severity = Some last ->
  cooldown_in_range self ->
  now - last < cooldown_of self ->
  should_alert self now dimension severity = (Py.Ok false, self).
Proof.
  intros He Hl Hr Hlt. unfold should_alert. rewrite He. cbv zeta. rewrite Hl.
  rewrite (timedelta_minutes_ok _ Hr).
  apply Z.ltb_lt in Hlt. unfold cooldown_of in Hlt. now rewrite Hlt.
Qed.

Lemma should_alert_expired (self : ServiceMonitor) (now last : Z)
    (dimension severity : string) :
  alerts_enabled (alerts (config self)) = true ->
  last_alert_time self !! alert_key dimension severity = Some last ->
  cooldown_in_range self ->
  cooldown_of self <= now - last ->
  should_alert self now dimension severity =
  (Py.Ok true, set_last_alert_time self
                 (<[alert_key dimension severity := now]> (last_alert_time self))).
Proof.
  intros He Hl Hr Hge. unfold should_alert. rewrite He. cbv zeta. rewrite Hl.
  rewrite (timedelta_minutes_ok _ Hr).
  apply Z.ltb_ge in Hge. unfold cooldown_of in Hge. now rewrite Hge.
Qed.

(** With a cooldown that [timedelta] rejects, a call for a key that has
    fired before raises, whatever the clock says. *)
Lemma should_alert_overflow (self : ServiceMonitor) (now last : Z)
    (dimension severity : string) :
  alerts_enabled (alerts (config self)) = true ->
  last_alert_time self !! alert_key dimension severity = Some last ->
  ~ cooldown_in_range self ->
  should_alert self now dimension severity = (Py.Raise Py.OverflowError, self).
Proof.
  intros He Hl Hr. unfold should_alert. rewrite He. cbv zeta. rewrite Hl.
  now rewrite (timedelta_minutes_overflow _ Hr).
Qed.

(** A call changes at most the entry of its own key. *)
Lemma should_alert_other_key (self : ServiceMonitor) (now : Z)
    (dimension severity : string) (key : string) :
  key <> alert_key dimension severity ->
  last_alert_time (snd (should_alert self now dimension severity)) !! key
  = last_alert_time self !! key.
Proof.
  intros Hne. unfold should_alert.
  destruct (alerts_enabled (alerts (config self))); simpl; [| reflexivity].
  destruct (last_alert_time self !! alert_key dimension severity) as [last |].
  - destruct (timedelta_minutes _) as [cooldown | e]; [| reflexivity].
    destruct (now - last <? cooldown); simpl; [reflexivity |].
    now rewrite lookup_insert_ne by congruence.
  - simpl. now rewrite lookup_insert_ne by congruence.
Qed.

(** The pairs that [check_thresholds] produces have pairwise different
    keys. *)
Lemma threshold_pairs_keys (d1 s1 d2 s2 : string) :
  In d1 dimensions -> In d2 dimensions ->
  In s1 ["critical"; "warning"] -> In s2 ["critical"; "warning"] ->
  d1 +:+ "_" +:+ s1 = d2 +:+ "_" +:+ s2 -> d1 = d2 /\ s1 = s2.
Proof.
  unfold dimensions. simpl. intros H1 H2 H3 H4.
  repeat match goal with
         | H : _ \/ _ |- _ => destruct H as [H | H]
         | H : False |- _ => destruct H
         end; subst; simpl; intros E; first [discriminate E | split; reflexivity].
Qed.

(** C5, as stated, fails in two ways.  The timer is kept per string
    [dimension_severity], not per pair: after the pair (a_b, c) has fired,
    the first call ever made for the pair (a, b_c) is suppressed.  And with
    a cooldown of 1440000000000 minutes, which [timedelta] rejects, the call
    within the cooldown window raises [OverflowError] instead of returning
    false. *)
Lemma should_alert_shared_timer :
  let s0 := init default_config [] in
  let s1 := snd (should_alert s0 1000 "a_b" "c") in
  let h0 := init huge_cooldown_config [] in
  let h1 := snd (should_alert h0 1000 "p95_latency" "critical") in
  ("a_b", "c") <> ("a", "b_c") /\
  should_alert s0 1000 "a_b" "c" = (Py.Ok true, s1) /\
  should_alert s1 2000 "a" "b_c" = (Py.Ok false, s1) /\
  should_alert s0 2000 "a" "b_c" <> (Py.Ok false, s0) /\
  fst (should_alert h0 1000 "p95_latency" "critical") = Py.Ok true /\
  2000 - 1000 < cooldown_of h1 /\
  should_alert h1 2000 "p95_latency" "critical" = (Py.Raise Py.OverflowError, h1).
Proof.
  cbv zeta. split; [discriminate |]. split; [reflexivity |]. split; [reflexivity |].
  split; [discriminate |]. split; [reflexivity |]. split; reflexivity.
Qed.

(** C5 (amended).  The timers are keyed by the string
    [dimension_severity].  For every monitor state, clock reading, dimension
    and severity, one call of the gate behaves as follows.  With alerting
    disabled it returns false and leaves the state as it was.  With alerting
    enabled: on a key never fired it returns true and records the clock
    reading under the key; on a key fired before, when the configured
    cooldown is one that [timedelta] accepts, it returns false and leaves the
    state as it was if the last firing is less than the cooldown ago, and
    returns true and records the clock reading otherwise; when the cooldown
    is outside that range it raises [OverflowError] and leaves the state as
    it was.  In every case the recorded time of every other key is
    untouched; the key of the same dimension at another severity is another
    key, and so are the keys of any two different pairs of a dimension of
    [check_thresholds] and a severity critical or warning. *)
Theorem should_alert_gate (self : ServiceMonitor) (now : Z) (dimension severity : string) :
  let key := dimension +:+ "_" +:+ severity in
  let minutes := cooldown_minutes (alerts (config self)) in
  let cooldown := minutes * 60 * 1000000 in
  let accepted := -1439999998560 <= minutes <= 1439999999999 in
  let enabled := alerts_enabled (alerts (config self)) in
  let r := should_alert self now dimension severity in
  let fired := set_last_alert_time self (<[key := now]> (last_alert_time self)) in
  (enabled = false -> r = (Py.Ok false, self)) /\
  (enabled = true -> last_alert_time self !! key = None -> r = (Py.Ok true, fired)) /\
  (enabled = true -> forall last, last_alert_time self !! key = Some last ->
     accepted -> now - last < cooldown -> r = (Py.Ok false, self)) /\
  (enabled = true -> forall last, last_alert_time self !! key = Some last ->
     accepted -> cooldown <= now - last -> r = (Py.Ok true, fired)) /\
  (enabled = true -> forall last, last_alert_time self !! key = Some last ->
     ~ accepted -> r = (Py.Raise Py.OverflowError, self)) /\
  (forall other, other <> key ->
     last_alert_time (snd r) !! other = last_alert_time self !! other) /\
  (forall other, other <> severity -> dimension +:+ "_" +:+ other <> key) /\
  (forall d1 s1 d2 s2,
     In d1 dimensions -> In d2 dimensions ->
     In s1 ["critical"; "warning"] -> In s2 ["critical"; "warning"] ->
     (d1, s1) <> (d2, s2) -> d1 +:+ "_" +:+ s1 <> d2 +:+ "_" +:+ s2).
Proof.
  cbv zeta. split; [| split; [| split; [| split; [| split; [| split; [| split]]]]]].
  - apply should_alert_disabled.
  - intros He Hl. apply should_alert_fresh; assumption.
  - intros He last Hl Hr Hlt. apply (should_alert_cooling _ _ last); assumption.
  - intros He last Hl Hr Hge. apply (should_alert_expired _ _ last); assumption.
  - intros He last Hl Hr. apply (should_alert_overflow _ _ last); assumption.
  - intros other Hne. apply should_alert_other_key. exact Hne.
  - intros other Hne. apply (alert_key_severity dimension other severity Hne).
  - intros d1 s1 d2 s2 H1 H2 H3 H4 Hne E. apply Hne.
    destruct (threshold_pairs_keys d1 s1 d2 s2 H1 H2 H3 H4 E) as [-> ->]. reflexivity.
Qed.

Lemma should_alert_gate_witness :
  let off := init alerts_off_config [] in
  let s0 := init default_config [] in
  let s1 := snd (should_alert s0 1000 "p95_latency" "critical") in
  let h1 := snd (should_alert (init huge_cooldown_config []) 1000 "p95_latency" "critical") in
  should_alert off 1000 "p95_latency" "critical" = (Py.Ok false, off) /\
  fst (should_alert s0 1000 "p95_latency" "critical") = Py.Ok true /\
  last_alert_time s1 !! "p95_latency_critical" = Some 1000 /\
  should_alert s1 (1000 + 299999999) "p95_latency" "critical" = (Py.Ok false, s1) /\
  fst (should_alert s1 (1000 + 300000000) "p95_latency" "critical") = Py.Ok true /\
  should_alert h1 2000 "p95_latency" "critical" = (Py.Raise Py.OverflowError, h1) /\
  last_alert_time s1 !! "p95_latency_warning" = None /\
  last_alert_time s1 !! "response_time_critical" = None /\
  "p95_latency_warning" <> "p95_latency_critical" /\
  "response_time_critical" <> "p95_latency_critical".
Proof.
  cbv zeta.
  destruct (should_alert_gate (init alerts_off_config []) 1000 "p95_latency" "critical")
    as (Hoff & _).
  destruct (should_alert_gate (init default_config []) 1000 "p95_latency" "critical")
    as (_ & Hfresh & _ & _ & _ & Hother & Hsev & Hpairs).
  pose proof (Hfresh eq_refl (lookup_empty _)) as Hfire.
  destruct (should_alert_gate
              (snd (should_alert (init default_config []) 1000 "p95_latency" "critical"))
              (1000 + 299999999) "p95_latency" "critical")
    as (_ & _ & Hcool & _).
  destruct (should_alert_gate
              (snd (should_alert (init default_config []) 1000 "p95_latency" "critical"))
              (1000 + 300000000) "p95_latency" "critical")
    as (_ & _ & _ & Hexp & _).
  destruct (should_alert_gate
              (snd (should_alert (init huge_cooldown_config []) 1000
                      "p95_latency" "critical"))
              2000 "p95_latency" "critical")
    as (_ & _ & _ & _ & Hover & _).
  split; [apply Hoff; reflexivity |].
  split; [rewrite Hfire; reflexivity |].
  split; [reflexivity |].
  split; [apply (Hcool eq_refl 1000 eq_refl);
            [split; vm_compute; discriminate | reflexivity] |].
  split; [rewrite (Hexp eq_refl 1000 eq_refl);
            [reflexivity | split; vm_compute; discriminate | discriminate] |].
  split; [apply (Hover eq_refl 1000 eq_refl); intros [_ H]; apply H; reflexivity |].
  split; [rewrite (Hother "p95_latency_warning") by discriminate; apply lookup_empty |].
  split; [rewrite (Hother "response_time_critical") by discriminate; apply lookup_empty |].
  split; [apply (Hsev "warning"); discriminate |].
  apply (Hpairs "response_time" "critical" "p95_latency" "critical");
    simpl; auto; discriminate.
Defined.

(** Two cycles one second apart with the same slow probes: the second cycle
    emits the same metric tags and no further alert. *)
Example repeat_cycle_within_cooldown :
  let one := start_monitoring (init default_config []) [slow_probe_cycle 1000000] in
  let two := start_monitoring (init default_config [])
               [slow_probe_cycle 1000000; slow_probe_cycle 2000000] in
  alerts_logged (logger one) = [("response_time", "WARNING"); ("p95_latency", "CRITICAL")] /\
  alerts_logged (logger two) = alerts_logged (logger one) /\
  List.map response_time_p95 (metrics_history two) = [9000; 9000]%Q.
Proof. vm_compute. repeat split. Qed.

(** ** Metric emission *)

(** The [if]/[elif] chain of [log_metrics] computes the overall status. *)
Lemma overall_status_cycle_status (self : ServiceMonitor) (m : ServiceMetrics) :
  overall_status self m = cycle_status (thresholds (config self)) m.
Proof.
  unfold overall_status, cycle_status. cbv zeta.
  rewrite <- !gt_exceeds, <- !geb_reaches.
  generalize (Py.gt (error_rate m) (critical (error_rate_percent (thresholds (config self))))).
  generalize (Py.gt (error_rate m) (warning (error_rate_percent (thresholds (config self))))).
  generalize (Py.gt (response_time_avg m) (critical (response_time_ms (thresholds (config self))))).
  generalize (Py.gt (response_time_avg m) (warning (response_time_ms (thresholds (config self))))).
  generalize (m_consecutive_failures m >=? critical (th_consecutive_failures (thresholds (config self)))).
  generalize (m_consecutive_failures m >=? warning (th_consecutive_failures (thresholds (config self)))).
  intros [] [] [] [] [] []; reflexivity.
Qed.

(** C8, as stated, fails: on an unhealthy snapshot whose latency, error rate
    and failure count are all below their thresholds the overall status is
    normal, yet the fifth metric, [health_status], is tagged critical. *)
Lemma log_metrics_health_tag :
  let self := init default_config [] in
  let m := quiet_snapshot false in
  cycle_status (thresholds (config self)) m = "normal" /\
  metric_tags (logger (log_metrics self m))
    = ["normal"; "normal"; "normal"; "normal"; "critical"] /\
  metric_tags (logger (log_metrics self m))
    <> List.repeat (cycle_status (thresholds (config self)) m) 5.
Proof. repeat split; try reflexivity. discriminate. Qed.

(** C8 (amended).  For every snapshot and threshold configuration,
    [log_metrics] hands the logger five metric records and one summary line,
    whatever the values.  The first four (average latency, p95 latency, error
    rate, consecutive failures) carry the overall status of the cycle:
    critical if average latency, error rate or the failure count crosses its
    critical threshold, else warning if one of them crosses its warning
    threshold, else normal.  The fifth, [health_status], has value 1.0 and
    tag normal on a healthy snapshot, value 0.0 and tag critical otherwise;
    health does not enter the overall status. *)
Theorem log_metrics_emits (self : ServiceMonitor) (m : ServiceMetrics) :
  let st := cycle_status (thresholds (config self)) m in
  exists line,
    logger (log_metrics self m) =
    logger self ++
    [Metric "response_time_avg" (Py.Float (response_time_avg m)) st;
     Metric "response_time_p95" (Py.Float (response_time_p95 m)) st;
     Metric "error_rate" (Py.Float (error_rate m)) st;
     Metric "consecutive_failures" (Py.Int (m_consecutive_failures m)) st;
     Metric "health_status" (Py.Float (if m_health_status m then 1.0 else 0.0)%Q)
       (if m_health_status m then "normal" else "critical");
     Message "INFO" line].
Proof.
  cbv zeta. unfold log_metrics, log_metric, log_info. cbv zeta.
  rewrite overall_status_cycle_status. cbn [logger set_logger].
  eexists. rewrite <- !app_assoc. reflexivity.
Qed.

(** ** Retention *)

(** C9.  For every state of the two history lists and every prune time,
    after [_cleanup_old_data] every retained sample and every retained
    snapshot has a timestamp strictly after the prune time minus one hour,
    and no retained entry has a timestamp equal to the prune time minus one
    hour. *)
Theorem cleanup_retention (self : ServiceMonitor) (now : Z) :
  let self' := _cleanup_old_data self now in
  Forall (fun r => now - timedelta_hours 1 < timestamp r) (request_history self') /\
  Forall (fun m => now - timedelta_hours 1 < m_timestamp m) (metrics_history self') /\
  (forall r, timestamp r = now - timedelta_hours 1 -> ~ In r (request_history self')) /\
  (forall m, m_timestamp m = now - timedelta_hours 1 -> ~ In m (metrics_history self')).
Proof.
  cbv zeta. unfold _cleanup_old_data. cbn [request_history metrics_history
    set_request_history set_metrics_history].
  repeat split.
  - apply List.Forall_forall. intros r Hin. apply List.filter_In in Hin.
    destruct Hin as [_ Hgt]. apply Z.gtb_lt in Hgt. exact Hgt.
  - apply List.Forall_forall. intros m Hin. apply List.filter_In in Hin.
    destruct Hin as [_ Hgt]. apply Z.gtb_lt in Hgt. exact Hgt.
  - intros r Heq Hin. apply List.filter_In in Hin.
    destruct Hin as [_ Hgt]. apply Z.gtb_lt in Hgt. lia.
  - intros m Heq Hin. apply List.filter_In in Hin.
    destruct Hin as [_ Hgt]. apply Z.gtb_lt in Hgt. lia.
Qed.

(** Entries strictly newer than the cutoff are all kept, in order. *)
Lemma cleanup_keeps_recent (self : ServiceMonitor) (now : Z) :
  Forall (fun m => now - timedelta_hours 1 < m_timestamp m) (metrics_history self) ->
  metrics_history (_cleanup_old_data self now) = metrics_history self.
Proof.
  unfold _cleanup_old_data. cbn [metrics_history set_request_history set_metrics_history].
  induction 1 as [| m l Hm _ IH]; simpl; [reflexivity |].
  apply Z.gtb_lt in Hm. now rewrite Hm, IH.
Qed.

Lemma cleanup_retention_witness :
  let hour := 3600000000 in
  let self :=
    set_metrics_history (init default_config [])
      [snapshot_at 0; snapshot_at 1000; snapshot_at (1000 + 1)] in
  ~ In (snapshot_at 1000) (metrics_history (_cleanup_old_data self (1000 + hour))) /\
  metrics_history (_cleanup_old_data self (1000 + hour)) = [snapshot_at (1000 + 1)].
Proof.
  cbv zeta. split; [| reflexivity].
  destruct (cleanup_retention
              (set_metrics_history (init default_config [])
                 [snapshot_at 0; snapshot_at 1000; snapshot_at (1000 + 1)])
              (1000 + 3600000000)) as (_ & _ & _ & Hboundary).
  apply Hboundary. reflexivity.
Defined.

(** ** The two history lists *)

(** Probing, aggregation, the alert gate and logging leave both alone. *)
Lemma check_health_histories (self : ServiceMonitor) (x : Exchange) :
  histories (snd (check_health self x)) = histories self.
Proof.
  unfold check_health. destruct (outcome x) as [r | e]; [| reflexivity].
  destruct (status r =? 200); [destruct (json r) |]; reflexivity.
Qed.

Lemma test_inference_histories (self : ServiceMonitor) (exists_ : bool) (x : Exchange) :
  histories (snd (test_inference self exists_ x)) = histories self.
Proof.
  unfold test_inference. destruct exists_; [| reflexivity]. simpl negb. cbv iota.
  destruct (outcome x) as [r | e]; [| reflexivity].
  destruct (status r =? 200); [| reflexivity].
  destruct (json r) as [result |]; [| reflexivity].
  destruct (forallb _ _); reflexivity.
Qed.

Lemma request_sample_histories (self : ServiceMonitor) (ep : string) (x : Exchange) :
  histories (snd (request_sample self ep x)) = histories self.
Proof. unfold request_sample. destruct (outcome x); reflexivity. Qed.

Lemma perform_request_histories (self : ServiceMonitor) (ep method : string)
    (data : option (list (string * string))) (x : Exchange) :
  histories (snd (perform_request self ep method data x)) = histories self.
Proof.
  unfold perform_request.
  destruct (String.eqb (upper method) "GET"); [apply request_sample_histories |].
  destruct (String.eqb (upper method) "POST" && truthy data);
    [apply request_sample_histories | reflexivity].
Qed.

Lemma collect_samples_histories (ep : string) (xs : nat -> Exchange) (n : nat) :
  forall (self : ServiceMonitor) (i : nat) (requests : list (option RequestMetrics)),
    histories (snd (collect_samples self ep xs i n requests)) = histories self.
Proof.
  induction n as [| n IH]; intros self i requests; simpl; [reflexivity |].
  destruct (perform_request self ep "GET" None (xs i)) as [req s1] eqn:E.
  rewrite IH. change s1 with (snd (req, s1)). rewrite <- E.
  apply perform_request_histories.
Qed.

Lemma calculate_metrics_histories (self : ServiceMonitor) (now : Z)
    (requests : list RequestMetrics) :
  histories (snd (calculate_metrics self now requests)) = histories self.
Proof.
  destruct (nonempty requests) eqn:Hne.
  - now rewrite (calculate_metrics_nonempty _ _ _ Hne).
  - now rewrite (len_zero _ Hne), calculate_metrics_empty.
Qed.

Lemma should_alert_histories (self : ServiceMonitor) (now : Z) (d s : string) :
  histories (snd (should_alert self now d s)) = histories self.
Proof.
  unfold should_alert. destruct (alerts_enabled _); [| reflexivity]. simpl negb. cbv iota zeta.
  destruct (last_alert_time self !! alert_key d s) as [last |]; [| reflexivity].
  destruct (timedelta_minutes _) as [cooldown | e]; [| reflexivity].
  destruct (now - last <? cooldown); reflexivity.
Qed.

Lemma emit_alerts_histories (clock : nat -> Z) (alerts : list Alert) :
  forall (self : ServiceMonitor) (i : nat),
    histories (snd (emit_alerts self clock i alerts)) = histories self.
Proof.
  induction alerts as [| a rest IH]; intros self i; simpl; [reflexivity |].
  destruct (should_alert self (clock i) (a_type a) (a_level a)) as [fire s1] eqn:E.
  assert (H1 : histories s1 = histories self).
  { change s1 with (snd (fire, s1)). rewrite <- E. apply should_alert_histories. }
  destruct fire as [fire | e]; [| exact H1].
  rewrite IH. destruct fire; exact H1.
Qed.

Lemma log_metrics_histories (self : ServiceMonitor) (m : ServiceMetrics) :
  histories (log_metrics self m) = histories self.
Proof. reflexivity. Qed.

Lemma inference_step_histories (self : ServiceMonitor) (inp : CycleInputs) :
  histories (snd (inference_step self inp)) = histories self.
Proof.
  unfold inference_step.
  destruct (negb (inference_enabled _)); [reflexivity |]. cbv zeta.
  destruct (_ =? 0); [reflexivity |].
  destruct (_ =? 0); [| reflexivity].
  match goal with
  | |- context [test_inference ?s ?e ?x] =>
      pose proof (test_inference_histories s e x) as H;
      destruct (test_inference s e x) as [[[ok t] payload] s1]
  end.
  simpl in H. destruct ok; exact H.
Qed.

Lemma cleanup_histories (self : ServiceMonitor) (now : Z) :
  histories (_cleanup_old_data self now) = prune now (histories self).
Proof. reflexivity. Qed.

(** What one cycle does to the histories: nothing when an exception leaves
    it before aggregation is done; otherwise the snapshot of the cycle is
    appended to [metrics_history], and both lists are pruned unless an
    exception leaves the cycle in the alert loop or in the inference step. *)
Lemma monitoring_cycle_histories (self : ServiceMonitor) (inp : CycleInputs) :
  let h' := histories (snd (monitoring_cycle self inp)) in
  h' = histories self \/
  exists m, h' = record_snapshot m (histories self) \/
            h' = prune (cleanup_at inp) (record_snapshot m (histories self)).
Proof.
  cbv zeta. unfold monitoring_cycle. cbv zeta.
  match goal with
  | |- context [check_health ?s ?x] =>
      pose proof (check_health_histories s x) as H1;
      destruct (check_health s x) as [[health_ok rt] s1]
  end.
  cbn [snd] in H1. change (histories (set_logger self _)) with (histories self) in H1.
  match goal with
  | |- context [collect_samples ?s ?ep ?xs ?i ?n ?rq] =>
      pose proof (collect_samples_histories ep xs n s i rq) as H2;
      destruct (collect_samples s ep xs i n rq) as [requests s2]
  end.
  cbn [snd] in H2. change (histories (set_health_status s1 _)) with (histories s1) in H2.
  destruct (all_samples requests) as [rs | e]; [| left; simpl; congruence].
  pose proof (calculate_metrics_histories s2 (aggregated_at inp) rs) as H3.
  destruct (calculate_metrics s2 (aggregated_at inp) rs) as [[m | e] s3];
    [| left; simpl in *; congruence].
  cbn [snd] in H3. right. exists m.
  match goal with
  | |- context [emit_alerts ?s ?c ?i ?l] =>
      pose proof (emit_alerts_histories c l s i) as H5;
      destruct (emit_alerts s c i l) as [[u5 | e5] s5]
  end.
  - match goal with
    | |- context [inference_step ?s ?i] =>
        pose proof (inference_step_histories s i) as H4;
        destruct (inference_step s i) as [[u | e] s4]
    end.
    + right. cbn [snd] in *.
      rewrite cleanup_histories, H4, log_metrics_histories, H5.
      change (histories (set_metrics_history s3 (metrics_history s3 ++ [m])))
        with (record_snapshot m (histories s3)).
      congruence.
    + left. cbn [snd] in *.
      rewrite H4, log_metrics_histories, H5.
      change (histories (set_metrics_history s3 (metrics_history s3 ++ [m])))
        with (record_snapshot m (histories s3)).
      congruence.
  - left. cbn [snd] in *. rewrite H5.
    change (histories (set_metrics_history s3 (metrics_history s3 ++ [m])))
      with (record_snapshot m (histories s3)).
    congruence.
Qed.

Lemma monitoring_cycle_request_history_nil (self : ServiceMonitor) (inp : CycleInputs) :
  request_history self = [] ->
  request_history (snd (monitoring_cycle self inp)) = [].
Proof.
  intros Hnil.
  change (fst (histories (snd (monitoring_cycle self inp))) = []).
  destruct (monitoring_cycle_histories self inp) as [H | (m & [H | H])];
    rewrite H; simpl; now rewrite Hnil.
Qed.

Lemma monitoring_loop_request_history_nil (run : list CycleInputs) :
  forall self : ServiceMonitor,
    request_history self = [] -> request_history (monitoring_loop self run) = [].
Proof.
  induction run as [| inp rest IH]; intros self Hnil; simpl; [exact Hnil |].
  pose proof (monitoring_cycle_request_history_nil self inp Hnil) as H.
  destruct (monitoring_cycle self inp) as [[u | e] s1]; simpl in H.
  - apply IH, H.
  - exact H.
Qed.

(** C10.  From a freshly constructed monitor, after any number of
    monitoring cycles with any outcomes of the probes and any clock
    readings, [request_history] is empty, and pruning it at any time leaves
    it empty. *)
Theorem request_history_stays_empty (cfg : MonitoringConfig) (lg : Logger)
    (run : list CycleInputs) (now : Z) :
  request_history (start_monitoring (init cfg lg) run) = [] /\
  request_history (_cleanup_old_data (start_monitoring (init cfg lg) run) now) = [].
Proof.
  assert (H : request_history (start_monitoring (init cfg lg) run) = []).
  { unfold start_monitoring. cbv zeta. apply monitoring_loop_request_history_nil.
    reflexivity. }
  split; [exact H |].
  unfold _cleanup_old_data. cbn [request_history set_metrics_history set_request_history].
  now rewrite H.
Qed.

(** ** The prober *)

Lemma perform_request_makes_request (self : ServiceMonitor) (ep method : string)
    (data : option (list (string * string))) (x : Exchange) :
  perform_request self ep method data x =
  if makes_request method data then request_sample self ep x else (None, self).
Proof.
  unfold perform_request, makes_request.
  destruct (String.eqb (upper method) "GET"); [reflexivity |].
  destruct (String.eqb (upper method) "POST" && truthy data); reflexivity.
Qed.

(** When a request is made a sample comes back, and a transport failure
    gives a failed sample with status code 0. *)
Lemma perform_request_sample (self : ServiceMonitor) (ep method : string)
    (data : option (list (string * string))) (x : Exchange) :
  makes_request method data = true ->
  exists r,
    fst (perform_request self ep method data x) = Some r /\
    endpoint r = ep /\
    match outcome x with
    | Responded resp => status_code r = status resp /\ success r = (status resp <? 400)
    | TransportError _ => status_code r = 0 /\ success r = false
    end.
Proof.
  intros H. rewrite perform_request_makes_request, H. unfold request_sample.
  destruct (outcome x); eexists; (split; [reflexivity |]); simpl; auto.
Qed.

(** C7 (the code at the failing inputs).  With method [PUT], or with method
    [POST] and no body, [perform_request] makes no request and falls off its
    end: the caller receives Python's [None], not a sample. *)
Theorem perform_request_falls_through (self : ServiceMonitor) (ep : string) (x : Exchange) :
  perform_request self ep "PUT" None x = (None, self) /\
  perform_request self ep "POST" None x = (None, self) /\
  perform_request self ep "POST" (Some []) x = (None, self).
Proof. repeat split. Qed.

(** * Further properties *)

(** ** Aggregation: counts and error rate *)

(** The snapshot counts add up: every sample is either a success or a
    failure, and neither count is negative. *)
Theorem calculate_metrics_counts (self : ServiceMonitor) (now : Z)
    (requests : list RequestMetrics) :
  exists m,
    fst (calculate_metrics self now requests) = Py.Ok m /\
    total_requests m = successful_requests m + failed_requests m /\
    0 <= successful_requests m /\ 0 <= failed_requests m.
Proof.
  destruct (nonempty requests) eqn:Hne.
  - rewrite (calculate_metrics_nonempty _ _ _ Hne). eexists.
    split; [reflexivity |].
    cbn [total_requests successful_requests failed_requests].
    split; [apply len_successes_failures |].
    split; [apply len_nonneg | apply failure_count_range].
  - rewrite (len_zero _ Hne), calculate_metrics_empty. eexists.
    split; [reflexivity |]. cbn. lia.
Qed.

(** The error rate of the snapshot of a batch is a percentage, between 0
    and 100.  For a batch of at most [2^53] samples it is 0 exactly when the
    batch is not empty and none of its samples failed, and 100 exactly when
    every sample of the batch failed (which includes the empty batch). *)
Theorem calculate_metrics_error_rate_range (self : ServiceMonitor) (now : Z)
    (requests : list RequestMetrics) :
  exists m,
    fst (calculate_metrics self now requests) = Py.Ok m /\
    (0 <= error_rate m <= 100)%Q /\
    (Py.len requests <= 2 ^ 53 ->
     ((error_rate m == 0)%Q <-> failure_count requests = 0 /\ requests <> []) /\
     ((error_rate m == 100)%Q <-> failure_count requests = Py.len requests)).
Proof.
  destruct (nonempty requests) eqn:Hne.
  - rewrite (calculate_metrics_nonempty _ _ _ Hne). eexists.
    split; [reflexivity |]. cbn [error_rate].
    pose proof (len_pos _ Hne) as Hpos.
    pose proof (failure_count_range requests) as Hrange.
    destruct (percent_bounds _ _ Hpos Hrange) as (Hb & Hzero & Hall & Hsome & Hnotall).
    split; [exact Hb |]. intros Hbig. split; split.
    + intros He. split; [| intros ->; discriminate Hne].
      destruct (Z.eq_dec (failure_count requests) 0) as [E | NE]; [exact E |].
      exfalso. assert (Hk : 0 < failure_count requests) by lia.
      specialize (Hsome Hbig Hk). rewrite He in Hsome. discriminate Hsome.
    + intros [E _]. apply Hzero, E.
    + intros He.
      destruct (Z.eq_dec (failure_count requests) (Py.len requests)) as [E | NE];
        [exact E |].
      exfalso. assert (Hk : failure_count requests < Py.len requests) by lia.
      specialize (Hnotall Hbig Hk). rewrite He in Hnotall. discriminate Hnotall.
    + apply Hall.
  - rewrite (len_zero _ Hne), calculate_metrics_empty. eexists.
    split; [reflexivity |]. cbn [error_rate].
    split; [split; discriminate |]. intros _. split; split.
    + intros He. discriminate He.
    + intros [_ H]. exfalso. apply H. reflexivity.
    + reflexivity.
    + reflexivity.
Qed.

Lemma calculate_metrics_error_rate_range_witness :
  exists m,
    fst (calculate_metrics (init default_config []) 0 [sample false; sample false])
      = Py.Ok m /\
    (error_rate m == 100)%Q /\
  exists m',
    fst (calculate_metrics (init default_config []) 0 [sample true; sample true])
      = Py.Ok m' /\
    (error_rate m' == 0)%Q.
Proof.
  destruct (calculate_metrics_error_rate_range (init default_config []) 0
              [sample false; sample false]) as (m & Hm & _ & Hiff).
  exists m. split; [exact Hm |].
  destruct Hiff as [_ Hall]; [discriminate |].
  split; [apply Hall; reflexivity |].
  destruct (calculate_metrics_error_rate_range (init default_config []) 0
              [sample true; sample true]) as (m' & Hm' & _ & Hiff').
  exists m'. split; [exact Hm' |].
  destruct Hiff' as [Hnone _]; [discriminate |].
  apply Hnone. split; [reflexivity | discriminate].
Defined.

(** ** Aggregation: the p95 latency as a rank statistic *)

Lemma sorted_strongly (l : list Q) : StronglySorted Qle (Py.sorted l).
Proof.
  apply Sorted_StronglySorted; [| apply sorted_sorted].
  intros x y z. apply Qle_trans.
Qed.

Lemma strongly_sorted_head (a : Q) (t : list Q) (k : nat) :
  StronglySorted Qle (a :: t) -> (k < List.length t)%nat -> (a <= nth k t 0)%Q.
Proof.
  intros Hs Hk. apply StronglySorted_inv in Hs as [_ Hall].
  rewrite List.Forall_forall in Hall. apply Hall, nth_In, Hk.
Qed.

(** In an ascending list at least [k + 1] values are at most the one at
    index [k], and at least [length - k] are at least it. *)
Lemma strongly_sorted_rank_below (s : list Q) :
  StronglySorted Qle s ->
  forall k, (k < List.length s)%nat ->
    Z.of_nat k + 1 <= count_at_most (nth k s 0%Q) s.
Proof.
  unfold count_at_most, Py.len.
  induction s as [| a t IH]; intros Hs k Hk; simpl in Hk; [lia |].
  destruct k as [| k]; simpl.
  - replace (Qle_bool a a) with true by (symmetry; apply Qle_bool_iff, Qle_refl).
    simpl. lia.
  - assert (Hk' : (k < List.length t)%nat) by lia.
    pose proof (strongly_sorted_head a t k Hs Hk') as Ha.
    apply Qle_bool_iff in Ha. rewrite Ha. simpl.
    apply StronglySorted_inv in Hs as [Ht _].
    specialize (IH Ht k Hk'). lia.
Qed.

Lemma strongly_sorted_rank_above (s : list Q) :
  StronglySorted Qle s ->
  forall k, (k < List.length s)%nat ->
    Z.of_nat (List.length s) - Z.of_nat k <= count_at_least (nth k s 0%Q) s.
Proof.
  unfold count_at_least, Py.len.
  induction s as [| a t IH]; intros Hs k Hk; simpl in Hk; [lia |].
  destruct k as [| k].
  - assert (Hall : forallb (fun x => Qle_bool (nth 0 (a :: t) 0%Q) x) (a :: t) = true).
    { apply forallb_forall. intros x Hin. apply Qle_bool_iff. simpl.
      destruct Hin as [<- | Hin]; [apply Qle_refl |].
      apply StronglySorted_inv in Hs as [_ Hall].
      rewrite List.Forall_forall in Hall. apply Hall, Hin. }
    rewrite (List.forallb_filter_id _ _ Hall). lia.
  - assert (Hk' : (k < List.length t)%nat) by lia.
    apply StronglySorted_inv in Hs as [Ht _].
    specialize (IH Ht k Hk'). cbn [nth List.filter List.length].
    destruct (Qle_bool (nth k t 0%Q) a); cbn [List.length]; lia.
Qed.

Lemma count_at_most_perm (bound : Q) (l l' : list Q) :
  Permutation l l' -> count_at_most bound l = count_at_most bound l'.
Proof.
  unfold count_at_most, Py.len.
  induction 1 as [| x l l' _ IH | x y l | l l' l'' _ IH1 _ IH2]; simpl.
  - reflexivity.
  - destruct (Qle_bool x bound); simpl; lia.
  - destruct (Qle_bool x bound), (Qle_bool y bound); reflexivity.
  - lia.
Qed.

Lemma count_at_least_perm (bound : Q) (l l' : list Q) :
  Permutation l l' -> count_at_least bound l = count_at_least bound l'.
Proof.
  unfold count_at_least, Py.len.
  induction 1 as [| x l l' _ IH | x y l | l l' l'' _ IH1 _ IH2]; simpl.
  - reflexivity.
  - destruct (Qle_bool bound x); simpl; lia.
  - destruct (Qle_bool bound x), (Qle_bool bound y); reflexivity.
  - lia.
Qed.

(** The snapshot of a batch with at least one successful sample, and the
    index its p95 latency is read at. *)
Lemma calculate_metrics_p95 (self : ServiceMonitor) (now : Z)
    (requests : list RequestMetrics) :
  latencies requests <> [] ->
  exists m,
    fst (calculate_metrics self now requests) = Py.Ok m /\
    response_time_p95 m =
      nth (Z.to_nat (95 * Py.len (latencies requests) / 100))
          (Py.sorted (latencies requests)) 0%Q /\
    response_time_avg m = Py.mean (latencies requests).
Proof.
  intros Hcons. pose proof (latencies_cons_nonempty _ Hcons) as Hlat.
  assert (Hne : nonempty requests = true).
  { destruct requests; [exfalso; apply Hcons; reflexivity | reflexivity]. }
  rewrite (calculate_metrics_nonempty _ _ _ Hne). eexists.
  split; [reflexivity |]. cbn [response_time_p95 response_time_avg].
  now rewrite Hlat.
Qed.

Lemma p95_index_lt (l : list Q) :
  nonempty l = true ->
  (Z.to_nat (95 * Py.len l / 100) < List.length (Py.sorted l))%nat.
Proof.
  intros Hne. pose proof (len_pos l Hne) as Hpos. rewrite sorted_length.
  assert (95 * Py.len l / 100 < Py.len l) by (apply Z.div_lt_upper_bound; lia).
  assert (0 <= 95 * Py.len l / 100) by (apply Z.div_pos; lia).
  unfold Py.len in *. lia.
Qed.

(** With at least one successful sample, the p95 latency is the latency of
    one of them, more than 95 percent of the successful latencies are at most
    it, and at least 5 percent are at least it. *)
Theorem calculate_metrics_p95_rank (self : ServiceMonitor) (now : Z)
    (requests : list RequestMetrics) :
  latencies requests <> [] ->
  exists m,
    fst (calculate_metrics self now requests) = Py.Ok m /\
    In (response_time_p95 m) (latencies requests) /\
    95 * Py.len (latencies requests)
      < 100 * count_at_most (response_time_p95 m) (latencies requests) /\
    5 * Py.len (latencies requests)
      <= 100 * count_at_least (response_time_p95 m) (latencies requests).
Proof.
  intros Hcons. destruct (calculate_metrics_p95 self now requests Hcons)
    as (m & Hm & Hp95 & _).
  exists m. split; [exact Hm |]. rewrite Hp95.
  pose proof (latencies_cons_nonempty _ Hcons) as Hlat.
  pose proof (p95_index_lt _ Hlat) as Hidx.
  pose proof (len_pos _ Hlat) as Hpos.
  set (n := Py.len (latencies requests)) in *.
  assert (Hk0 : 0 <= 95 * n / 100) by (apply Z.div_pos; lia).
  pose proof (Z.mul_succ_div_gt (95 * n) 100 ltac:(lia)) as Hgt.
  pose proof (Z.mul_div_le (95 * n) 100 ltac:(lia)) as Hle.
  split; [| split].
  - apply (Permutation_in _ (Permutation_sym (sorted_perm _))), nth_In, Hidx.
  - rewrite (count_at_most_perm _ _ _ (sorted_perm (latencies requests))).
    pose proof (strongly_sorted_rank_below _ (sorted_strongly (latencies requests))
                  _ Hidx) as Hrank.
    rewrite Z2Nat.id in Hrank by lia. lia.
  - rewrite (count_at_least_perm _ _ _ (sorted_perm (latencies requests))).
    pose proof (strongly_sorted_rank_above _ (sorted_strongly (latencies requests))
                  _ Hidx) as Hrank.
    rewrite Z2Nat.id, sorted_length in Hrank by lia.
    fold (Py.len (latencies requests)) in Hrank. fold n in Hrank. lia.
Qed.

Lemma calculate_metrics_p95_rank_witness :
  exists m,
    fst (calculate_metrics (init default_config []) 0 batch_100_200_9000) = Py.Ok m /\
    In (response_time_p95 m) [100; 200; 9000]%Q.
Proof.
  destruct (calculate_metrics_p95_rank (init default_config []) 0 batch_100_200_9000)
    as (m & Hm & Hin & _); [discriminate |].
  exists m. split; [exact Hm | exact Hin].
Defined.

Lemma strongly_sorted_nth_le (s : list Q) :
  StronglySorted Qle s ->
  forall i j, (i <= j)%nat -> (j < List.length s)%nat -> (nth i s 0 <= nth j s 0)%Q.
Proof.
  induction s as [| a t IH]; intros Hs i j Hij Hj; simpl in Hj; [lia |].
  destruct j as [| j].
  - replace i with O by lia. apply Qle_refl.
  - destruct i as [| i]; simpl.
    + apply (strongly_sorted_head a t j Hs). lia.
    + apply StronglySorted_inv in Hs as [Ht _]. apply IH; [exact Ht | lia | lia].
Qed.

Lemma p95_index_small (n : Z) : 1 <= n <= 20 -> 95 * n / 100 = n - 1.
Proof.
  intros Hn. symmetry. apply (Z.div_unique_pos _ _ _ (100 - 5 * n)); lia.
Qed.

(** With between 1 and 20 successful samples the p95 latency is their
    maximum: no successful latency of the batch is above it. *)
Theorem calculate_metrics_p95_small_batch (self : ServiceMonitor) (now : Z)
    (requests : list RequestMetrics) :
  latencies requests <> [] ->
  Py.len (latencies requests) <= 20 ->
  exists m,
    fst (calculate_metrics self now requests) = Py.Ok m /\
    In (response_time_p95 m) (latencies requests) /\
    Forall (fun x => (x <= response_time_p95 m)%Q) (latencies requests).
Proof.
  intros Hcons Hsmall.
  destruct (calculate_metrics_p95 self now requests Hcons) as (m & Hm & Hp95 & _).
  exists m. split; [exact Hm |]. rewrite Hp95.
  pose proof (latencies_cons_nonempty _ Hcons) as Hlat.
  pose proof (p95_index_lt _ Hlat) as Hidx.
  pose proof (len_pos _ Hlat) as Hpos.
  split.
  - apply (Permutation_in _ (Permutation_sym (sorted_perm _))), nth_In, Hidx.
  - apply List.Forall_forall. intros x Hin.
    apply (Permutation_in _ (sorted_perm _)) in Hin.
    destruct (In_nth _ _ 0%Q Hin) as (i & Hi & <-).
    apply strongly_sorted_nth_le; [apply sorted_strongly | | exact Hidx].
    rewrite p95_index_small by lia. rewrite sorted_length in Hi.
    unfold Py.len. lia.
Qed.

Lemma calculate_metrics_p95_small_batch_witness :
  exists m,
    fst (calculate_metrics (init default_config []) 0 batch_100_200_9000) = Py.Ok m /\
    Forall (fun x => (x <= response_time_p95 m)%Q) [100; 200; 9000]%Q.
Proof.
  destruct (calculate_metrics_p95_small_batch (init default_config []) 0
              batch_100_200_9000) as (m & Hm & _ & Hall);
    [discriminate | vm_compute; discriminate |].
  exists m. split; [exact Hm | exact Hall].
Defined.

(** ** Aggregation: the average latency *)

Lemma sum_bounds (lo hi : Q) (l : list Q) :
  Forall (fun x => (lo <= x <= hi)%Q) l ->
  (lo * inject_Z (Py.len l) <= Py.sum l <= hi * inject_Z (Py.len l))%Q.
Proof.
  induction 1 as [| x l [Hlo Hhi] _ [IHlo IHhi]].
  - unfold Py.len, Py.sum. simpl. rewrite !Qmult_0_r. split; apply Qle_refl.
  - assert (Hlen : (inject_Z (Py.len (x :: l)) == 1 + inject_Z (Py.len l))%Q).
    { unfold Py.len. cbn [List.length]. rewrite Nat2Z.inj_succ, <- Z.add_1_l.
      rewrite inject_Z_plus. reflexivity. }
    cbn [Py.sum fold_right]. fold (Py.sum l). rewrite Hlen. split.
    + assert (E : (lo * (1 + inject_Z (Py.len l)) == lo + lo * inject_Z (Py.len l))%Q)
        by ring.
      rewrite E. apply Qplus_le_compat; assumption.
    + assert (E : (hi * (1 + inject_Z (Py.len l)) == hi + hi * inject_Z (Py.len l))%Q)
        by ring.
      rewrite E. apply Qplus_le_compat; assumption.
Qed.

(** The exact mean of numbers between two bounds lies between them. *)
Lemma exact_mean_bounds (lo hi : Q) (l : list Q) :
  nonempty l = true ->
  Forall (fun x => (lo <= x <= hi)%Q) l ->
  (lo <= Py.sum l / inject_Z (Py.len l) <= hi)%Q.
Proof.
  intros Hne Hall. destruct (sum_bounds lo hi l Hall) as [Hlo Hhi].
  assert (Hpos : (0 < inject_Z (Py.len l))%Q).
  { rewrite <- (Zlt_Qlt 0). apply len_pos, Hne. }
  split.
  - apply Qle_shift_div_l; assumption.
  - apply Qle_shift_div_r; assumption.
Qed.

(** A non-empty list of floats has a least and a greatest element. *)
Lemma float_extremes (l : list Py.float) :
  l <> [] ->
  exists a b : Py.float, Forall (fun x : Py.float => (a <= x <= b)%Q) l /\ In a l /\ In b l.
Proof.
  induction l as [| x l IH]; [congruence |]. intros _.
  destruct l as [| y t].
  - exists x, x. split; [| simpl; auto].
    constructor; [split; apply Qle_refl | constructor].
  - destruct IH as (a & b & Hall & Ha & Hb); [discriminate |].
    set (a' := if Qlt_le_dec x a then x else a).
    set (b' := if Qlt_le_dec b x then x else b).
    assert (Ha' : (a' <= a)%Q /\ (a' <= x)%Q).
    { unfold a'. destruct (Qlt_le_dec x a) as [H | H]; split;
        try apply Qle_refl; try exact H. apply Qlt_le_weak, H. }
    assert (Hb' : (b <= b')%Q /\ (x <= b')%Q).
    { unfold b'. destruct (Qlt_le_dec b x) as [H | H]; split;
        try apply Qle_refl; try exact H. apply Qlt_le_weak, H. }
    exists a', b'. split; [| split].
    + constructor; [tauto |].
      eapply List.Forall_impl; [| exact Hall]. intros z [Hz1 Hz2]. cbv beta. split.
      * apply Qle_trans with a; [apply (proj1 Ha') | exact Hz1].
      * apply Qle_trans with b; [exact Hz2 | apply (proj1 Hb')].
    + unfold a'. destruct (Qlt_le_dec x a); [left; reflexivity | right; exact Ha].
    + unfold b'. destruct (Qlt_le_dec b x); [left; reflexivity | right; exact Hb].
Qed.

(** Rounding keeps the mean of floats between any two bounds of theirs. *)
Lemma mean_bounds (lo hi : Q) (l : list Py.float) :
  l <> [] ->
  Forall (fun x => (lo <= x <= hi)%Q) (List.map Py.val l) ->
  (lo <= Py.mean (List.map Py.val l) <= hi)%Q.
Proof.
  intros Hne Hall.
  destruct (float_extremes l Hne) as (a & b & Hab & Ha & Hb).
  rewrite List.Forall_forall in Hall.
  pose proof (Hall a (in_map Py.val l a Ha)) as [Hloa _].
  pose proof (Hall b (in_map Py.val l b Hb)) as [_ Hbhi].
  assert (Hmean : (a <= Py.sum (List.map Py.val l)
                        / inject_Z (Py.len (List.map Py.val l)) <= b)%Q).
  { apply exact_mean_bounds.
    - destruct l; [congruence | reflexivity].
    - apply List.Forall_map. exact Hab. }
  destruct (round64_between a b _ Hmean) as [H1 H2]. unfold Py.mean. split.
  - eapply Qle_trans; [exact Hloa | exact H1].
  - eapply Qle_trans; [exact H2 | exact Hbhi].
Qed.

(** The latencies are the values of a list of floats. *)
Lemma latencies_floats (requests : list RequestMetrics) :
  latencies requests
  = List.map Py.val (List.map response_time (List.filter success requests)).
Proof. unfold latencies. now rewrite List.map_map. Qed.

(** With at least one successful sample, bounds that hold for the latency
    of every successful sample hold for the average and for the p95 latency
    of the snapshot. *)
Theorem calculate_metrics_latency_bounds (self : ServiceMonitor) (now : Z)
    (requests : list RequestMetrics) (lo hi : Q) :
  latencies requests <> [] ->
  Forall (fun x => (lo <= x <= hi)%Q) (latencies requests) ->
  exists m,
    fst (calculate_metrics self now requests) = Py.Ok m /\
    (lo <= response_time_avg m <= hi)%Q /\
    (lo <= response_time_p95 m <= hi)%Q.
Proof.
  intros Hcons Hall.
  destruct (calculate_metrics_p95 self now requests Hcons) as (m & Hm & Hp95 & Havg).
  exists m. split; [exact Hm |].
  pose proof (latencies_cons_nonempty _ Hcons) as Hlat.
  split.
  - rewrite Havg, latencies_floats. apply mean_bounds.
    + intros E. apply Hcons. rewrite latencies_floats, E. reflexivity.
    + rewrite <- latencies_floats. exact Hall.
  - rewrite List.Forall_forall in Hall. apply Hall. rewrite Hp95.
    apply (Permutation_in _ (Permutation_sym (sorted_perm _))), nth_In.
    apply p95_index_lt, Hlat.
Qed.

Lemma calculate_metrics_latency_bounds_witness :
  exists m,
    fst (calculate_metrics (init default_config []) 0 batch_100_200_9000) = Py.Ok m /\
    (100 <= response_time_avg m <= 9000)%Q.
Proof.
  destruct (calculate_metrics_latency_bounds (init default_config []) 0
              batch_100_200_9000 100 9000) as (m & Hm & Havg & _).
  - discriminate.
  - repeat constructor; discriminate.
  - exists m. split; [exact Hm | exact Havg].
Defined.

(** ** Aggregation: the consecutive-failure counter *)

(** From a non-negative counter the new counter is non-negative; after a
    non-empty batch it is 0 exactly when no sample failed, and it is above
    the prior value whenever a sample failed. *)
Theorem calculate_metrics_counter_sign (self : ServiceMonitor) (now : Z)
    (requests : list RequestMetrics) :
  0 <= consecutive_failures self ->
  let new := consecutive_failures (snd (calculate_metrics self now requests)) in
  0 <= new /\
  (requests <> [] -> (new = 0 <-> failure_count requests = 0)) /\
  (0 < failure_count requests -> consecutive_failures self < new).
Proof.
  intros Hprior. cbv zeta.
  pose proof (failure_count_range requests) as [Hlo _].
  destruct (nonempty requests) eqn:Hne.
  - rewrite (calculate_metrics_nonempty _ _ _ Hne).
    cbn [snd consecutive_failures set_consecutive_failures]. unfold counter_rule.
    destruct (failure_count requests >? 0) eqn:Hfc.
    + apply Z.gtb_lt in Hfc. repeat split; intros; lia.
    + assert (failure_count requests = 0).
      { destruct (Z.gtb_spec (failure_count requests) 0); [discriminate | lia]. }
      repeat split; intros; lia.
  - rewrite (len_zero _ Hne), calculate_metrics_empty. cbn [snd].
    split; [exact Hprior |]. split; [congruence |].
    unfold failure_count, Py.len. simpl. lia.
Qed.

Lemma calculate_metrics_counter_sign_witness :
  let s1 := snd (calculate_metrics (init default_config []) 0
                   [sample false; sample true; sample false]) in
  let s2 := snd (calculate_metrics s1 0 [sample true; sample false]) in
  0 <= consecutive_failures s2 /\ consecutive_failures s1 < consecutive_failures s2.
Proof.
  cbv zeta.
  destruct (calculate_metrics_counter_sign
              (snd (calculate_metrics (init default_config []) 0
                      [sample false; sample true; sample false]))
              0 [sample true; sample false]) as (Hnonneg & _ & Hgrow).
  - vm_compute. discriminate.
  - split; [exact Hnonneg | apply Hgrow; reflexivity].
Defined.

(** ** Threshold evaluation: order, silence, and the overall status *)

Lemma dimension_alerts_types (oc ow : bool) (c w : Alert) (d : string) :
  a_type c = d -> a_type w = d ->
  List.map a_type (dimension_alerts oc ow c w) `sublist_of` [d].
Proof.
  intros <- Hw. destruct oc, ow; simpl; rewrite ?Hw;
    first [reflexivity | apply sublist_nil_l].
Qed.

(** The alerts come in the fixed order of the dimensions, at most one per
    dimension, hence at most five. *)
Theorem check_thresholds_order (self : ServiceMonitor) (metrics : ServiceMetrics) :
  List.map a_type (check_thresholds self metrics) `sublist_of` dimensions /\
  NoDup (List.map a_type (check_thresholds self metrics)) /\
  (List.length (check_thresholds self metrics) <= 5)%nat.
Proof.
  assert (Hsub : List.map a_type (check_thresholds self metrics) `sublist_of` dimensions).
  { rewrite check_thresholds_dimensions. cbv zeta. rewrite !List.map_app.
    change dimensions with (["response_time"] ++ ["p95_latency"] ++ ["error_rate"]
                            ++ ["consecutive_failures"] ++ ["health_status"]).
    repeat apply sublist_app; try (apply dimension_alerts_types; reflexivity).
    destruct (m_health_status metrics); [apply sublist_nil_l | reflexivity]. }
  split; [exact Hsub |]. split.
  - apply (sublist_NoDup _ dimensions); [| exact Hsub]. unfold dimensions.
    apply (bool_decide_unpack _). vm_compute. exact I.
  - rewrite <- (List.length_map a_type). apply (sublist_length _ _ Hsub).
Qed.

Lemma dimension_alerts_nil (oc ow : bool) (c w : Alert) :
  dimension_alerts oc ow c w = [] <-> oc = false /\ ow = false.
Proof. destruct oc, ow; simpl; intuition discriminate. Qed.

Lemma gt_false (x y : Q) : Py.gt x y = false <-> (x <= y)%Q.
Proof. unfold Py.gt. rewrite negb_false_iff. apply Qle_bool_iff. Qed.

Lemma geb_false (x y : Z) : (x >=? y) = false <-> x < y.
Proof. rewrite Z.geb_leb. apply Z.leb_gt. Qed.

(** No alert is raised exactly when the service is healthy, average latency,
    p95 latency and error rate are at most both of their thresholds, and the
    consecutive-failure count is below both of its thresholds. *)
Theorem check_thresholds_silent (self : ServiceMonitor) (metrics : ServiceMetrics) :
  let th := thresholds (config self) in
  check_thresholds self metrics = [] <->
  m_health_status metrics = true /\
  (response_time_avg metrics <= critical (response_time_ms th))%Q /\
  (response_time_avg metrics <= warning (response_time_ms th))%Q /\
  (response_time_p95 metrics <= critical (p95_latency_ms th))%Q /\
  (response_time_p95 metrics <= warning (p95_latency_ms th))%Q /\
  (error_rate metrics <= critical (error_rate_percent th))%Q /\
  (error_rate metrics <= warning (error_rate_percent th))%Q /\
  m_consecutive_failures metrics < critical (th_consecutive_failures th) /\
  m_consecutive_failures metrics < warning (th_consecutive_failures th).
Proof.
  cbv zeta. rewrite check_thresholds_dimensions. cbv zeta.
  rewrite <- !gt_false, <- !geb_false.
  rewrite !app_nil, !dimension_alerts_nil.
  destruct (m_health_status metrics); intuition discriminate.
Qed.

Lemma filter_dimension_alerts (f : Alert -> bool) (oc ow : bool) (c w : Alert) :
  f w = f c ->
  List.filter f (dimension_alerts oc ow c w) =
  if f c then dimension_alerts oc ow c w else [].
Proof. intros Hw. destruct oc, ow; simpl; rewrite ?Hw; destruct (f c); reflexivity. Qed.

(** The status that [log_metrics] tags the metrics with is the worst
    severity among the average-latency, error-rate and consecutive-failure
    alerts that [check_thresholds] raises for the same snapshot; alerts on
    p95 latency and on health do not enter it. *)
Theorem overall_status_worst_alert (self : ServiceMonitor) (metrics : ServiceMetrics) :
  overall_status self metrics
  = worst_level (status_alerts (check_thresholds self metrics)).
Proof.
  rewrite check_thresholds_dimensions. cbv zeta. unfold status_alerts.
  rewrite !List.filter_app.
  rewrite !filter_dimension_alerts by reflexivity.
  cbn [a_type String.eqb Ascii.eqb Bool.eqb orb].
  replace (List.filter _ (if m_health_status metrics then [] else _)) with (@nil Alert)
    by (destruct (m_health_status metrics); reflexivity).
  unfold overall_status, worst_level. cbv zeta.
  generalize (Py.gt (error_rate metrics) (critical (error_rate_percent (thresholds (config self))))).
  generalize (Py.gt (error_rate metrics) (warning (error_rate_percent (thresholds (config self))))).
  generalize (Py.gt (response_time_avg metrics) (critical (response_time_ms (thresholds (config self))))).
  generalize (Py.gt (response_time_avg metrics) (warning (response_time_ms (thresholds (config self))))).
  generalize (m_consecutive_failures metrics >=? critical (th_consecutive_failures (thresholds (config self)))).
  generalize (m_consecutive_failures metrics >=? warning (th_consecutive_failures (thresholds (config self)))).
  intros [] [] [] [] [] []; reflexivity.
Qed.

(** ** The alert gate over a cycle's candidates *)

Lemma should_alert_fired (self : ServiceMonitor) (now : Z) (d l : string) :
  fst (should_alert self now d l) = Py.Ok true ->
  snd (should_alert self now d l)
  = set_last_alert_time self (<[alert_key d l := now]> (last_alert_time self)).
Proof.
  unfold should_alert. destruct (alerts_enabled _); [| discriminate]. simpl negb. cbv iota zeta.
  destruct (last_alert_time self !! alert_key d l) as [last |]; [| reflexivity].
  destruct (timedelta_minutes _) as [cooldown | e]; [| discriminate].
  destruct (now - last <? cooldown); [discriminate | reflexivity].
Qed.

(** Only a call that fires changes the monitor. *)
Lemma should_alert_suppressed (self : ServiceMonitor) (now : Z) (d l : string) :
  fst (should_alert self now d l) <> Py.Ok true ->
  snd (should_alert self now d l) = self.
Proof.
  unfold should_alert. destruct (alerts_enabled _); [| reflexivity]. simpl negb. cbv iota zeta.
  destruct (last_alert_time self !! alert_key d l) as [last |]; [| simpl; congruence].
  destruct (timedelta_minutes _) as [cooldown | e]; [| reflexivity].
  destruct (now - last <? cooldown); [reflexivity | simpl; congruence].
Qed.

(** Once the gate has fired for a key at time [t], the next call for that
    key at time [t'] evaluates the cooldown: when [cooldown_minutes] is a
    number of minutes that [timedelta] accepts, the call fires exactly when
    at least the cooldown has passed since [t]; otherwise it raises
    [OverflowError], whatever [t'] is. *)
Theorem should_alert_refire (self : ServiceMonitor) (t t' : Z) (d l : string) :
  fst (should_alert self t d l) = Py.Ok true ->
  let minutes := cooldown_minutes (alerts (config self)) in
  fst (should_alert (snd (should_alert self t d l)) t' d l)
  = if (-1439999998560 <=? minutes) && (minutes <=? 1439999999999)
    then Py.Ok (negb (t' - t <? minutes * 60 * 1000000))
    else Py.Raise Py.OverflowError.
Proof.
  intros Hfire. cbv zeta. rewrite (should_alert_fired _ _ _ _ Hfire).
  assert (He : alerts_enabled (alerts (config self)) = true).
  { unfold should_alert in Hfire. destruct (alerts_enabled _); [reflexivity | discriminate]. }
  unfold should_alert. cbn [config set_last_alert_time last_alert_time].
  rewrite He. simpl negb. cbv iota zeta. rewrite lookup_insert_eq.
  destruct ((-1439999998560 <=? cooldown_minutes (alerts (config self)))
            && (cooldown_minutes (alerts (config self)) <=? 1439999999999)) eqn:Hr.
  - apply andb_true_iff in Hr as [H1 H2]. apply Z.leb_le in H1, H2.
    rewrite timedelta_minutes_ok by lia.
    destruct (t' - t <? _); reflexivity.
  - rewrite timedelta_minutes_overflow; [reflexivity |].
    intros [H1 H2]. apply Z.leb_le in H1, H2. rewrite H1, H2 in Hr. discriminate Hr.
Qed.

Lemma should_alert_refire_witness :
  let s1 := snd (should_alert (init default_config []) 1000 "error_rate" "warning") in
  let h1 := snd (should_alert (init huge_cooldown_config []) 1000 "error_rate" "warning") in
  fst (should_alert s1 2000 "error_rate" "warning") = Py.Ok false /\
  fst (should_alert s1 (1000 + 300000000) "error_rate" "warning") = Py.Ok true /\
  fst (should_alert h1 2000 "error_rate" "warning") = Py.Raise Py.OverflowError.
Proof.
  cbv zeta. split; [| split].
  - rewrite (should_alert_refire (init default_config []) 1000 2000); reflexivity.
  - rewrite (should_alert_refire (init default_config []) 1000 (1000 + 300000000));
      reflexivity.
  - rewrite (should_alert_refire (init huge_cooldown_config []) 1000 2000); reflexivity.
Defined.

(** With alerting disabled the loop over the candidate alerts leaves the
    monitor as it was. *)
Lemma emit_alerts_off (clock : nat -> Z) (candidates : list Alert) :
  forall (self : ServiceMonitor) (i : nat),
    alerts_enabled (alerts (config self)) = false ->
    emit_alerts self clock i candidates = (Py.Ok tt, self).
Proof.
  induction candidates as [| a rest IH]; intros self i Hoff; simpl; [reflexivity |].
  rewrite (should_alert_disabled _ _ _ _ Hoff). apply IH, Hoff.
Qed.

(** When every candidate's key was last fired less than the cooldown before
    any reading of the clock, the loop leaves the monitor as it was.  It
    ends normally when [cooldown_minutes] is a number of minutes that
    [timedelta] accepts, and otherwise raises [OverflowError] at the first
    candidate. *)
Theorem emit_alerts_cooling (clock : nat -> Z) (candidates : list Alert) :
  forall (self : ServiceMonitor) (i : nat),
    alerts_enabled (alerts (config self)) = true ->
    Forall (fun a => exists last,
                last_alert_time self !! key_of a = Some last /\
                forall k, clock k - last < cooldown_of self) candidates ->
    snd (emit_alerts self clock i candidates) = self /\
    (cooldown_in_range self -> fst (emit_alerts self clock i candidates) = Py.Ok tt) /\
    (~ cooldown_in_range self -> candidates <> [] ->
     fst (emit_alerts self clock i candidates) = Py.Raise Py.OverflowError).
Proof.
  induction candidates as [| a rest IH]; intros self i Hon Hall; simpl.
  - split; [reflexivity |]. split; [reflexivity | congruence].
  - inversion Hall as [| ? ? (last & Hlast & Hcool) Hrest]; subst.
    destruct (Z_le_dec (-1439999998560) (cooldown_minutes (alerts (config self))))
      as [H1 | H1];
      [destruct (Z_le_dec (cooldown_minutes (alerts (config self))) 1439999999999)
         as [H2 | H2] |].
    + assert (Hr : cooldown_in_range self) by (split; assumption).
      rewrite (should_alert_cooling _ _ last _ _ Hon Hlast Hr (Hcool i)).
      destruct (IH self (S i) Hon Hrest) as (Hs & Hok & _).
      split; [exact Hs |]. split; [exact Hok |]. intros Hn. contradiction.
    + assert (Hr : ~ cooldown_in_range self) by (intros [_ H]; contradiction).
      rewrite (should_alert_overflow _ _ last _ _ Hon Hlast Hr).
      split; [reflexivity |]. split; [intros H; contradiction | reflexivity].
    + assert (Hr : ~ cooldown_in_range self) by (intros [H _]; contradiction).
      rewrite (should_alert_overflow _ _ last _ _ Hon Hlast Hr).
      split; [reflexivity |]. split; [intros H; contradiction | reflexivity].
Qed.

Lemma emit_alerts_cooling_witness :
  emit_alerts fired_health_at_0 (fun _ => 1000) 0 unhealthy_alerts
  = (Py.Ok tt, fired_health_at_0) /\
  unhealthy_alerts <> [].
Proof.
  split; [| discriminate].
  destruct (emit_alerts_cooling (fun _ => 1000) unhealthy_alerts fired_health_at_0 0)
    as (Hs & Hok & _).
  - reflexivity.
  - repeat constructor. exists 0. split; [apply lookup_insert_eq | reflexivity].
  - rewrite (surjective_pairing (emit_alerts _ _ _ _)), Hs, Hok; [reflexivity |].
    split; vm_compute; discriminate.
Defined.

Lemma alerts_logged_app (lg lg' : Logger) :
  alerts_logged (lg ++ lg') = alerts_logged lg ++ alerts_logged lg'.
Proof. apply List.flat_map_app. Qed.

Lemma alerts_logged_log_alert (lg : Logger) (a : Alert) :
  alerts_logged (log_alert lg (a_type a) (a_message a) (a_level a)
                   (a_value a) (a_threshold a))
  = alerts_logged lg ++ [logged_as a].
Proof.
  unfold log_alert, log_metric. rewrite !alerts_logged_app. simpl.
  now rewrite app_nil_r.
Qed.

(** On candidates with pairwise different keys, none of which has fired
    before, the loop hands every candidate to the logger, in order. *)
Lemma emit_alerts_fresh (clock : nat -> Z) (candidates : list Alert) :
  forall (self : ServiceMonitor) (i : nat),
    alerts_enabled (alerts (config self)) = true ->
    NoDup (List.map key_of candidates) ->
    Forall (fun a => last_alert_time self !! key_of a = None) candidates ->
    fst (emit_alerts self clock i candidates) = Py.Ok tt /\
    alerts_logged (logger (snd (emit_alerts self clock i candidates)))
    = alerts_logged (logger self) ++ List.map logged_as candidates.
Proof.
  induction candidates as [| a rest IH]; intros self i Hon Hdup Hfresh; simpl.
  - split; [reflexivity | now rewrite app_nil_r].
  - inversion Hfresh as [| ? ? Ha Hrest]; subst.
    simpl in Hdup. apply NoDup_cons in Hdup as [Hnotin Hdup].
    rewrite (should_alert_fresh _ _ _ _ Hon Ha).
    match goal with
    | |- context [emit_alerts ?s clock (S i) rest] =>
        destruct (IH s (S i)) as [Hok Hlog]
    end; [exact Hon | exact Hdup | |].
    + cbn [last_alert_time set_logger set_last_alert_time].
      rewrite List.Forall_forall in Hrest. apply List.Forall_forall. intros b Hb.
      rewrite lookup_insert_ne; [apply Hrest, Hb |].
      intros Heq. apply Hnotin. apply list_elem_of_In.
      fold (key_of a) in Heq. rewrite Heq. apply List.in_map, Hb.
    + split; [exact Hok |]. rewrite Hlog.
      cbn [logger set_logger]. rewrite alerts_logged_log_alert.
      cbn [logger set_last_alert_time]. now rewrite <- app_assoc.
Qed.

Lemma dimension_alerts_keys (oc ow : bool) (c w : Alert) :
  List.map key_of (dimension_alerts oc ow c w) `sublist_of` [key_of c; key_of w].
Proof.
  destruct oc; [| destruct ow]; simpl.
  - apply sublist_skip, sublist_nil_l.
  - apply sublist_cons. reflexivity.
  - apply sublist_nil_l.
Qed.

Lemma check_thresholds_keys (self : ServiceMonitor) (metrics : ServiceMetrics) :
  List.map key_of (check_thresholds self metrics) `sublist_of` threshold_keys.
Proof.
  rewrite check_thresholds_dimensions. cbv zeta. rewrite !List.map_app.
  change threshold_keys with
    (["response_time_critical"; "response_time_warning"]
     ++ ["p95_latency_critical"; "p95_latency_warning"]
     ++ ["error_rate_critical"; "error_rate_warning"]
     ++ ["consecutive_failures_critical"; "consecutive_failures_warning"]
     ++ ["health_status_critical"]).
  repeat apply sublist_app; try apply dimension_alerts_keys.
  destruct (m_health_status metrics); [apply sublist_nil_l | reflexivity].
Qed.

(** The first time alerts are evaluated on a monitor with alerting enabled
    and no timer recorded, every candidate of [check_thresholds] is handed to
    the logger, in order: within one evaluation no candidate suppresses
    another. *)
Theorem emit_alerts_first_occurrence (self : ServiceMonitor) (clock : nat -> Z)
    (metrics : ServiceMetrics) :
  alerts_enabled (alerts (config self)) = true ->
  last_alert_time self = ∅ ->
  fst (emit_alerts self clock 0 (check_thresholds self metrics)) = Py.Ok tt /\
  alerts_logged (logger (snd (emit_alerts self clock 0 (check_thresholds self metrics))))
  = alerts_logged (logger self) ++ List.map logged_as (check_thresholds self metrics).
Proof.
  intros Hon Hempty. apply emit_alerts_fresh; [exact Hon | |].
  - apply (sublist_NoDup _ threshold_keys); [| apply check_thresholds_keys].
    apply (bool_decide_unpack _). vm_compute. exact I.
  - apply List.Forall_forall. intros a _. rewrite Hempty. apply lookup_empty.
Qed.

Lemma emit_alerts_first_occurrence_witness :
  alerts_logged
    (logger (snd (emit_alerts (init default_config []) (fun _ => 0) 0 unhealthy_alerts)))
  = [("health_status", "CRITICAL")].
Proof.
  unfold unhealthy_alerts.
  destruct (emit_alerts_first_occurrence (init default_config []) (fun _ => 0)
              (quiet_snapshot false)) as [_ Hlog]; [reflexivity | reflexivity |].
  rewrite Hlog. reflexivity.
Defined.

(** ** Retention over several prune steps *)

Lemma filter_filter_and {A} (f g : A -> bool) (l : list A) :
  List.filter f (List.filter g l) = List.filter (fun x => f x && g x) l.
Proof.
  induction l as [| x xs IH]; simpl; [reflexivity |].
  destruct (g x); simpl; destruct (f x); simpl; now rewrite ?IH.
Qed.

Lemma newer_than_both (t a b : Z) :
  (t >? b - timedelta_hours 1) && (t >? a - timedelta_hours 1)
  = (t >? Z.max a b - timedelta_hours 1).
Proof.
  destruct (Z.gtb_spec t (b - timedelta_hours 1)),
    (Z.gtb_spec t (a - timedelta_hours 1)),
    (Z.gtb_spec t (Z.max a b - timedelta_hours 1)); simpl; try reflexivity; lia.
Qed.

(** Pruning at one time and then at another is pruning once at the later of
    the two; in particular pruning twice at the same time is pruning once. *)
Theorem cleanup_twice (self : ServiceMonitor) (now1 now2 : Z) :
  _cleanup_old_data (_cleanup_old_data self now1) now2
  = _cleanup_old_data self (Z.max now1 now2).
Proof.
  unfold _cleanup_old_data, set_request_history, set_metrics_history.
  cbn [request_history metrics_history config logger consecutive_failures
       last_alert_time health_status].
  rewrite !filter_filter_and.
  f_equal; apply List.filter_ext; intros x; apply newer_than_both.
Qed.

(** ** One monitoring cycle, step by step *)

Lemma quiet_app (e1 e2 : Logger) : quiet e1 -> quiet e2 -> quiet (e1 ++ e2).
Proof. unfold quiet. intros H1 H2. now rewrite alerts_logged_app, H1, H2. Qed.

Lemma set_logger_same (self : ServiceMonitor) :
  self = set_logger self (logger self ++ []).
Proof. destruct self. unfold set_logger. simpl. now rewrite app_nil_r. Qed.

Lemma check_health_steps (self : ServiceMonitor) (x : Exchange) :
  exists extra,
    quiet extra /\
    check_health self x
    = ((probe_healthy x, elapsed_ms x), set_logger self (logger self ++ extra)).
Proof.
  unfold check_health, probe_healthy.
  destruct (outcome x) as [r | e].
  - destruct (status r =? 200); [destruct (json r) |]; simpl.
    + exists []. split; [reflexivity |]. now rewrite <- set_logger_same.
    + eexists. split; [| reflexivity]. reflexivity.
    + eexists. split; [| reflexivity]. reflexivity.
  - eexists. split; [| reflexivity]. reflexivity.
Qed.

Lemma request_sample_steps (self : ServiceMonitor) (ep : string) (x : Exchange) :
  exists extra,
    quiet extra /\
    request_sample self ep x
    = (Some (sample_of ep x), set_logger self (logger self ++ extra)).
Proof.
  unfold request_sample, sample_of. destruct (outcome x) as [r | e].
  - exists []. split; [reflexivity |]. now rewrite <- set_logger_same.
  - eexists. split; [| reflexivity]. reflexivity.
Qed.

Lemma collect_samples_steps (ep : string) (xs : nat -> Exchange) (n : nat) :
  forall (self : ServiceMonitor) (i : nat) (requests : list (option RequestMetrics)),
  exists extra,
    quiet extra /\
    collect_samples self ep xs i n requests
    = (requests ++ List.map (fun k => Some (sample_of ep (xs k))) (seq i n),
       set_logger self (logger self ++ extra)).
Proof.
  induction n as [| n IH]; intros self i requests.
  - exists []. split; [reflexivity |]. simpl.
    now rewrite app_nil_r, <- set_logger_same.
  - cbn [collect_samples]. change (perform_request self ep "GET" None (xs i))
      with (request_sample self ep (xs i)).
    destruct (request_sample_steps self ep (xs i)) as (e1 & Hq1 & ->).
    destruct (IH (set_logger self (logger self ++ e1)) (S i)
                (requests ++ [Some (sample_of ep (xs i))])) as (e2 & Hq2 & ->).
    exists (e1 ++ e2). split; [apply quiet_app; assumption |].
    cbn [seq List.map logger set_logger]. unfold set_logger. cbn.
    now rewrite <- !app_assoc.
Qed.

Lemma all_samples_some (l : list RequestMetrics) :
  all_samples (List.map Some l) = Py.Ok l.
Proof. induction l as [| r l IH]; simpl; [reflexivity | now rewrite IH]. Qed.

Lemma test_inference_steps (self : ServiceMonitor) (exists_ : bool) (x : Exchange) :
  exists extra,
    quiet extra /\
    snd (test_inference self exists_ x) = set_logger self (logger self ++ extra).
Proof.
  unfold test_inference. destruct exists_; simpl negb; cbv iota;
    [| eexists; split; [| reflexivity]; reflexivity].
  destruct (outcome x) as [r | e]; [| eexists; split; [| reflexivity]; reflexivity].
  destruct (status r =? 200); [| eexists; split; [| reflexivity]; reflexivity].
  destruct (json r) as [result |]; [| eexists; split; [| reflexivity]; reflexivity].
  destruct (forallb _ _); eexists; (split; [| reflexivity]); reflexivity.
Qed.

Lemma inference_step_steps (self : ServiceMonitor) (inp : CycleInputs) :
  exists extra,
    quiet extra /\
    inference_step self inp
    = (if inference_raises self then Py.Raise Py.ZeroDivisionError else Py.Ok tt,
       set_logger self (logger self ++ extra)).
Proof.
  unfold inference_step, inference_raises.
  destruct (inference_enabled _); simpl negb; cbv iota; simpl andb;
    [| exists []; split; [reflexivity | now rewrite <- set_logger_same]].
  cbv zeta. destruct (_ =? 0);
    [exists []; split; [reflexivity | now rewrite <- set_logger_same] |].
  destruct (_ =? 0);
    [| exists []; split; [reflexivity | now rewrite <- set_logger_same]].
  match goal with
  | |- context [test_inference ?s ?e ?x] =>
      destruct (test_inference_steps s e x) as (e1 & Hq1 & H1);
      destruct (test_inference s e x) as [[[ok t] payload] s1]
  end.
  cbn [snd] in H1. subst s1.
  destruct ok; eexists (_ :: e1 ++ [_]);
    (split; [| unfold set_logger, log_metric, log_info; cbn;
               rewrite <- !app_assoc; reflexivity]).
  - unfold quiet. cbn. rewrite alerts_logged_app, Hq1. reflexivity.
  - unfold quiet. cbn. rewrite alerts_logged_app, Hq1. reflexivity.
Qed.

(** The loop over the candidates touches the logger and the timers only. *)
Lemma emit_alerts_footprint (clock : nat -> Z) (candidates : list Alert) :
  forall (self : ServiceMonitor) (i : nat),
    snd (emit_alerts self clock i candidates)
    = set_last_alert_time
        (set_logger self (logger (snd (emit_alerts self clock i candidates))))
        (last_alert_time (snd (emit_alerts self clock i candidates))).
Proof.
  induction candidates as [| a rest IH]; intros self i.
  - destruct self. reflexivity.
  - cbn [emit_alerts].
    destruct (should_alert self (clock i) (a_type a) (a_level a)) as [r s1] eqn:E.
    assert (Hs1 : s1 = self \/
                  s1 = set_last_alert_time self
                         (<[alert_key (a_type a) (a_level a) := clock i]>
                            (last_alert_time self))).
    { destruct r as [[|] | e].
      - right. change s1 with (snd (@Py.Ok bool true, s1)). rewrite <- E.
        apply should_alert_fired. now rewrite E.
      - left. change s1 with (snd (@Py.Ok bool false, s1)). rewrite <- E.
        apply should_alert_suppressed. now rewrite E.
      - left. change s1 with (snd (@Py.Raise bool e, s1)). rewrite <- E.
        apply should_alert_suppressed. now rewrite E. }
    destruct r as [fire | e].
    + match goal with
      | |- snd (emit_alerts ?s _ _ _) = _ => rewrite (IH s (S i)) at 1
      end.
      destruct Hs1 as [-> | ->]; destruct fire; reflexivity.
    + destruct Hs1 as [-> | ->]; destruct self; reflexivity.
Qed.

Lemma emit_alerts_config (clock : nat -> Z) (candidates : list Alert)
    (self : ServiceMonitor) (i : nat) :
  config (snd (emit_alerts self clock i candidates)) = config self.
Proof. now rewrite emit_alerts_footprint. Qed.

Lemma cooldown_accepted_in_range (self : ServiceMonitor) :
  cooldown_accepted self = true <-> cooldown_in_range self.
Proof.
  unfold cooldown_accepted, cooldown_in_range.
  rewrite andb_true_iff, !Z.leb_le. reflexivity.
Qed.

Lemma existsb_ext_in {A} (f g : A -> bool) (l : list A) :
  (forall x, In x l -> f x = g x) -> existsb f l = existsb g l.
Proof.
  induction l as [| x l IH]; intros H; simpl; [reflexivity |].
  rewrite (H x) by (left; reflexivity). rewrite IH; [reflexivity |].
  intros y Hy. apply H. right. exact Hy.
Qed.

(** With alerting disabled, or with a cooldown that [timedelta] accepts,
    the loop over the candidates ends normally. *)
Lemma emit_alerts_returns (clock : nat -> Z) (candidates : list Alert) :
  forall (self : ServiceMonitor) (i : nat),
    alerts_enabled (alerts (config self)) && negb (cooldown_accepted self) = false ->
    fst (emit_alerts self clock i candidates) = Py.Ok tt.
Proof.
  induction candidates as [| a rest IH]; intros self i Hc; [reflexivity |].
  cbn [emit_alerts].
  assert (Hstep : exists fire s1,
             should_alert self (clock i) (a_type a) (a_level a) = (Py.Ok fire, s1)
             /\ config s1 = config self).
  { unfold should_alert.
    destruct (alerts_enabled (alerts (config self))) eqn:He; simpl negb; cbv iota zeta;
      [| eexists _, _; split; reflexivity].
    destruct (last_alert_time self !! _); [| eexists _, _; split; reflexivity].
    simpl in Hc. apply negb_false_iff, cooldown_accepted_in_range in Hc.
    rewrite (timedelta_minutes_ok _ Hc).
    destruct (_ <? _); eexists _, _; split; reflexivity. }
  destruct Hstep as (fire & s1 & -> & Hcfg).
  apply IH. unfold cooldown_accepted in *.
  destruct fire; cbn [config set_logger]; rewrite Hcfg; exact Hc.
Qed.

(** With alerting enabled and a cooldown that [timedelta] rejects, the loop
    over candidates with pairwise different keys raises exactly when one of
    them has fired before. *)
Lemma emit_alerts_overflow (clock : nat -> Z) (candidates : list Alert) :
  forall (self : ServiceMonitor) (i : nat),
    alerts_enabled (alerts (config self)) = true ->
    ~ cooldown_in_range self ->
    NoDup (List.map key_of candidates) ->
    fst (emit_alerts self clock i candidates)
    = if existsb (timer_running self) candidates
      then Py.Raise Py.OverflowError else Py.Ok tt.
Proof.
  induction candidates as [| a rest IH]; intros self i Hon Hr Hdup; [reflexivity |].
  cbn [emit_alerts existsb]. unfold timer_running at 1.
  simpl in Hdup. apply NoDup_cons in Hdup as [Hnotin Hdup].
  destruct (last_alert_time self !! key_of a) as [last |] eqn:Hl.
  - rewrite (should_alert_overflow _ _ last _ _ Hon Hl Hr). reflexivity.
  - rewrite (should_alert_fresh _ _ _ _ Hon Hl). cbn [orb].
    rewrite IH; [| exact Hon | exact Hr | exact Hdup].
    match goal with
    | |- (if existsb (timer_running ?s) rest then _ else _) = _ =>
        rewrite (existsb_ext_in (timer_running s) (timer_running self)); [reflexivity |]
    end.
    intros b Hb. unfold timer_running.
    cbn [last_alert_time set_logger set_last_alert_time].
    rewrite lookup_insert_ne; [reflexivity |].
    intros Heq. apply Hnotin. apply list_elem_of_In.
    fold (key_of a) in Heq. rewrite Heq. apply List.in_map, Hb.
Qed.

(** The outcome of the loop over candidates with pairwise different keys. *)
Lemma emit_alerts_outcome (clock : nat -> Z) (candidates : list Alert)
    (self : ServiceMonitor) (i : nat) :
  NoDup (List.map key_of candidates) ->
  fst (emit_alerts self clock i candidates)
  = if loop_overflows self candidates then Py.Raise Py.OverflowError else Py.Ok tt.
Proof.
  intros Hdup. unfold loop_overflows.
  destruct (alerts_enabled (alerts (config self)) && negb (cooldown_accepted self)) eqn:Hc.
  - apply andb_true_iff in Hc as [Hon Hr]. apply negb_true_iff in Hr.
    cbn [andb]. apply emit_alerts_overflow; [exact Hon | | exact Hdup].
    intros H. apply cooldown_accepted_in_range in H. congruence.
  - cbn [andb]. apply emit_alerts_returns, Hc.
Qed.

Lemma threshold_keys_nodup : NoDup threshold_keys.
Proof. apply (bool_decide_unpack _). vm_compute. exact I. Qed.

Lemma check_thresholds_nodup (self : ServiceMonitor) (metrics : ServiceMetrics) :
  NoDup (List.map key_of (check_thresholds self metrics)).
Proof.
  apply (sublist_NoDup _ threshold_keys); [| apply check_thresholds_keys].
  apply threshold_keys_nodup.
Qed.

Lemma calculate_metrics_config (self : ServiceMonitor) (now : Z)
    (requests : list RequestMetrics) :
  config (snd (calculate_metrics self now requests)) = config self.
Proof.
  destruct (nonempty requests) eqn:Hne.
  - now rewrite (calculate_metrics_nonempty _ _ _ Hne).
  - now rewrite (len_zero _ Hne), calculate_metrics_empty.
Qed.

Lemma cycle_batch_nonempty (self : ServiceMonitor) (inp : CycleInputs) :
  nonempty (cycle_batch self inp) = true.
Proof. reflexivity. Qed.

Lemma all_samples_map {A} (f : A -> RequestMetrics) (l : list A) :
  all_samples (List.map (fun k => Some (f k)) l) = Py.Ok (List.map f l).
Proof. induction l as [| k l IH]; simpl; [reflexivity | now rewrite IH]. Qed.

Lemma log_metrics_steps (self : ServiceMonitor) (m : ServiceMetrics) :
  exists extra,
    quiet extra /\ log_metrics self m = set_logger self (logger self ++ extra).
Proof.
  eexists. split; [| unfold log_metrics, log_metric, log_info; cbv zeta;
                     rewrite <- !app_assoc; reflexivity].
  reflexivity.
Qed.

(** One cycle as the composition of its steps.  [extra1] is what probing
    logs, [m] the snapshot, [extra2] what [log_metrics] and the inference
    step log; neither contains an alert.  An exception of the loop over the
    candidates leaves the cycle at once. *)
Lemma monitoring_cycle_steps (self : ServiceMonitor) (inp : CycleInputs) :
  exists extra1 m extra2,
    quiet extra1 /\ quiet extra2 /\
    let s_pre :=
      set_health_status (set_logger self (logger self ++ extra1))
        (probe_healthy (health_exchange inp)) in
    let s_agg := snd (calculate_metrics s_pre (aggregated_at inp) (cycle_batch self inp)) in
    let s_rec := set_metrics_history s_agg (metrics_history s_agg ++ [m]) in
    let em := emit_alerts s_rec (alert_clock inp) 0 (check_thresholds s_rec m) in
    fst (calculate_metrics s_pre (aggregated_at inp) (cycle_batch self inp)) = Py.Ok m /\
    monitoring_cycle self inp =
      match fst em with
      | Py.Raise e => (Py.Raise e, snd em)
      | Py.Ok _ =>
          if inference_raises self
          then (Py.Raise Py.ZeroDivisionError,
                set_logger (snd em) (logger (snd em) ++ extra2))
          else (Py.Ok tt,
                _cleanup_old_data (set_logger (snd em) (logger (snd em) ++ extra2))
                  (cleanup_at inp))
      end.
Proof.
  unfold monitoring_cycle. cbv zeta.
  match goal with
  | |- context [check_health ?s ?x] =>
      destruct (check_health_steps s x) as (e1 & Hq1 & ->)
  end.
  cbv beta iota.
  match goal with
  | |- context [collect_samples ?s ?ep ?xs ?i ?n ?rq] =>
      destruct (collect_samples_steps ep xs n s i rq) as (e2 & Hq2 & ->)
  end.
  cbv beta iota.
  match goal with
  | |- context [all_samples ?l] =>
      replace (all_samples l) with (Py.Ok (cycle_batch self inp))
        by (cbn [app all_samples]; rewrite all_samples_map; reflexivity)
  end.
  set (M0 := Message "INFO" [Lit "Начало цикла мониторинга: "; Strftime (started_at inp)]).
  exists ([M0] ++ e1 ++ e2).
  match goal with
  | |- context [calculate_metrics ?s (aggregated_at inp) (cycle_batch self inp)] =>
      lazymatch s with
      | set_logger _ _ =>
          replace s with
            (set_health_status (set_logger self (logger self ++ [M0] ++ e1 ++ e2))
               (probe_healthy (health_exchange inp)))
            by (unfold set_health_status, set_logger, log_info; cbn;
                rewrite <- !app_assoc; reflexivity)
      end
  end.
  set (s_pre := set_health_status (set_logger self (logger self ++ [M0] ++ e1 ++ e2))
                  (probe_healthy (health_exchange inp))).
  pose proof (calculate_metrics_config s_pre (aggregated_at inp) (cycle_batch self inp))
    as Hcfg.
  destruct (calculate_metrics_total s_pre (aggregated_at inp) (cycle_batch self inp))
    as (m & Hm).
  destruct (calculate_metrics s_pre (aggregated_at inp) (cycle_batch self inp))
    as [r s_agg].
  cbn [fst snd] in Hm, Hcfg |- *. subst r. exists m.
  pose proof (emit_alerts_config (alert_clock inp)
                (check_thresholds (set_metrics_history s_agg (metrics_history s_agg ++ [m])) m)
                (set_metrics_history s_agg (metrics_history s_agg ++ [m])) 0) as Hcfg_em.
  destruct (emit_alerts (set_metrics_history s_agg (metrics_history s_agg ++ [m]))
              (alert_clock inp) 0
              (check_thresholds (set_metrics_history s_agg (metrics_history s_agg ++ [m])) m))
    as [[u | e] s_em]; cbn [fst snd] in Hcfg_em |- *.
  - destruct (log_metrics_steps s_em m) as (e3 & Hq3 & ->).
    destruct (inference_step_steps (set_logger s_em (logger s_em ++ e3)) inp)
      as (e4 & Hq4 & ->).
    exists (e3 ++ e4).
    assert (Hraise : inference_raises (set_logger s_em (logger s_em ++ e3))
                     = inference_raises self).
    { unfold inference_raises. cbn [config set_logger].
      rewrite Hcfg_em. cbn [config set_metrics_history]. now rewrite Hcfg. }
    rewrite Hraise.
    split; [apply (quiet_app [M0]); [reflexivity | apply quiet_app; assumption] |].
    split; [apply quiet_app; assumption |].
    split; [reflexivity |].
    replace (set_logger (set_logger s_em (logger s_em ++ e3))
               (logger (set_logger s_em (logger s_em ++ e3)) ++ e4))
      with (set_logger s_em (logger s_em ++ e3 ++ e4))
      by (unfold set_logger; cbn; rewrite <- !app_assoc; reflexivity).
    destruct (inference_raises self); reflexivity.
  - exists [].
    split; [apply (quiet_app [M0]); [reflexivity | apply quiet_app; assumption] |].
    split; [reflexivity |]. split; reflexivity.
Qed.

(** The snapshot does not depend on what has been logged. *)
Lemma calculate_metrics_set_logger (self : ServiceMonitor) (lg : Logger) (now : Z)
    (requests : list RequestMetrics) :
  fst (calculate_metrics (set_logger self lg) now requests)
  = fst (calculate_metrics self now requests).
Proof.
  destruct (nonempty requests) eqn:Hne.
  - now rewrite !(calculate_metrics_nonempty _ _ _ Hne).
  - now rewrite (len_zero _ Hne), !calculate_metrics_empty.
Qed.

(** The monitor after one cycle, field by field, with the snapshot [m] of
    the cycle. *)
Lemma monitoring_cycle_fields (self : ServiceMonitor) (inp : CycleInputs) :
  let ok := probe_healthy (health_exchange inp) in
  let batch := cycle_batch self inp in
  let s' := snd (monitoring_cycle self inp) in
  exists m,
    fst (calculate_metrics (set_health_status self ok) (aggregated_at inp) batch)
      = Py.Ok m /\
    fst (monitoring_cycle self inp)
      = (if loop_overflows self (check_thresholds self m)
         then Py.Raise Py.OverflowError
         else if inference_raises self then Py.Raise Py.ZeroDivisionError
         else Py.Ok tt) /\
    config s' = config self /\
    health_status s' = ok /\
    consecutive_failures s'
      = counter_rule (consecutive_failures self) (failure_count batch) /\
    histories s'
      = match fst (monitoring_cycle self inp) with
        | Py.Ok _ => prune (cleanup_at inp) (record_snapshot m (histories self))
        | Py.Raise _ => record_snapshot m (histories self)
        end.
Proof.
  cbv zeta.
  destruct (monitoring_cycle_steps self inp)
    as (e1 & m & e2 & _ & _ & Hm & Hcycle).
  cbv zeta in Hm, Hcycle. exists m.
  change (set_health_status (set_logger self (logger self ++ e1))
            (probe_healthy (health_exchange inp)))
    with (set_logger (set_health_status self (probe_healthy (health_exchange inp)))
            (logger self ++ e1)) in Hm, Hcycle.
  rewrite calculate_metrics_set_logger in Hm.
  split; [exact Hm |].
  rewrite (calculate_metrics_nonempty _ _ _ (cycle_batch_nonempty self inp)) in Hcycle.
  cbn [snd] in Hcycle. rewrite Hcycle.
  match goal with
  | |- context [emit_alerts ?s ?c ?i ?l] =>
      pose proof (emit_alerts_footprint c l s i) as Hfoot;
      pose proof (emit_alerts_outcome c l s i (check_thresholds_nodup s m)) as Hout;
      destruct (emit_alerts s c i l) as [r s_em]
  end.
  cbn [fst snd] in Hfoot, Hout |- *.
  match type of Hout with
  | _ = if ?c then _ else _ =>
      change c with (loop_overflows self (check_thresholds self m)) in Hout
  end.
  subst r. destruct (loop_overflows self (check_thresholds self m)).
  - cbn [fst snd]. split; [reflexivity |]. rewrite Hfoot. repeat split.
  - destruct (inference_raises self); cbn [fst snd];
      (split; [reflexivity |]); rewrite Hfoot; repeat split.
Qed.

(** ** One monitoring cycle: outcome, snapshot, counter *)

(** The default configuration with a cooldown that [timedelta] rejects: the
    first slow cycle fires its alerts, the second one raises
    [OverflowError] in the alert loop, which ends the run; its snapshot is
    kept and nothing is pruned. *)
Example cycle_overflow :
  let s1 := snd (monitoring_cycle (init huge_cooldown_config [])
                   (slow_probe_cycle 1000000)) in
  fst (monitoring_cycle (init huge_cooldown_config []) (slow_probe_cycle 1000000))
  = Py.Ok tt /\
  fst (monitoring_cycle s1 (slow_probe_cycle 2000000)) = Py.Raise Py.OverflowError /\
  List.length (metrics_history (snd (monitoring_cycle s1 (slow_probe_cycle 2000000))))
  = 2%nat.
Proof. vm_compute. repeat split. Qed.


Lemma cycle_batch_len (self : ServiceMonitor) (inp : CycleInputs) :
  Py.len (cycle_batch self inp)
  = 1 + Z.max 0 (samples_per_check (monitoring (config self)) - 1).
Proof.
  unfold cycle_batch, Py.len, extra_samples. cbv zeta.
  cbn [List.length]. rewrite List.length_map, List.length_seq. lia.
Qed.

(** Every cycle appends one snapshot to [metrics_history], and then prunes
    the list unless an exception left the cycle (in the alert loop or in the
    inference step).  The snapshot is stamped with the aggregation time,
    counts one health probe plus [samples_per_check - 1] further samples
    (none if that is negative), and carries the health flag and the
    consecutive-failure counter the monitor holds after the cycle. *)
Theorem monitoring_cycle_snapshot (self : ServiceMonitor) (inp : CycleInputs) :
  let s' := snd (monitoring_cycle self inp) in
  exists m,
    fst (calculate_metrics
           (set_health_status self (probe_healthy (health_exchange inp)))
           (aggregated_at inp) (cycle_batch self inp)) = Py.Ok m /\
    metrics_history s' =
      match fst (monitoring_cycle self inp) with
      | Py.Ok _ =>
          List.filter (fun x => m_timestamp x >? cleanup_at inp - timedelta_hours 1)
            (metrics_history self ++ [m])
      | Py.Raise _ => metrics_history self ++ [m]
      end /\
    m_timestamp m = aggregated_at inp /\
    total_requests m = 1 + Z.max 0 (samples_per_check (monitoring (config self)) - 1) /\
    m_health_status m = probe_healthy (health_exchange inp) /\
    m_health_status m = health_status s' /\
    m_consecutive_failures m = consecutive_failures s'.
Proof.
  cbv zeta.
  destruct (monitoring_cycle_fields self inp)
    as (m & Hm & _ & _ & Hhealth & Hcf & Hhist).
  cbv zeta in *. exists m. split; [exact Hm |].
  rewrite (calculate_metrics_nonempty _ _ _ (cycle_batch_nonempty self inp)) in Hm.
  cbn [fst] in Hm.
  assert (Ht : m_timestamp m = aggregated_at inp)
    by (injection Hm as <-; reflexivity).
  assert (Htot : total_requests m = Py.len (cycle_batch self inp))
    by (injection Hm as <-; reflexivity).
  assert (Hh : m_health_status m = probe_healthy (health_exchange inp))
    by (injection Hm as <-; reflexivity).
  assert (Hc : m_consecutive_failures m
               = counter_rule (consecutive_failures self)
                   (failure_count (cycle_batch self inp)))
    by (injection Hm as <-; reflexivity).
  clear Hm. rewrite Ht, Htot, Hh, Hc, Hhealth, Hcf, cycle_batch_len.
  split; [| repeat split].
  change (metrics_history (snd (monitoring_cycle self inp)))
    with (snd (histories (snd (monitoring_cycle self inp)))).
  rewrite Hhist. destruct (fst (monitoring_cycle self inp)); reflexivity.
Qed.

Lemma failure_count_cons (r : RequestMetrics) (l : list RequestMetrics) :
  failure_count (r :: l) = (if success r then 0 else 1) + failure_count l.
Proof.
  unfold failure_count, Py.len, failed. simpl.
  destruct (success r); simpl; lia.
Qed.

Lemma failure_count_all_success (l : list RequestMetrics) :
  Forall (fun r => success r = true) l -> failure_count l = 0.
Proof.
  induction 1 as [| r l Hr _ IH]; [reflexivity |].
  now rewrite failure_count_cons, Hr, IH.
Qed.

(** A failed health probe makes the consecutive-failure counter grow and
    the monitor unhealthy; a cycle in which the health probe and every
    further sample succeed resets the counter to 0 and leaves the monitor
    healthy. *)
Theorem monitoring_cycle_counter (self : ServiceMonitor) (inp : CycleInputs) :
  let s' := snd (monitoring_cycle self inp) in
  let ep := ep_health (endpoints (service (config self))) in
  (probe_healthy (health_exchange inp) = false ->
     consecutive_failures self < consecutive_failures s' /\ health_status s' = false) /\
  (probe_healthy (health_exchange inp) = true ->
     (forall k, (k < extra_samples self)%nat ->
                success (sample_of ep (sample_exchanges inp k)) = true) ->
     consecutive_failures s' = 0 /\ health_status s' = true).
Proof.
  cbv zeta.
  destruct (monitoring_cycle_fields self inp) as (m & _ & _ & _ & Hhealth & Hcf & _).
  cbv zeta in *. rewrite Hhealth, Hcf. unfold counter_rule, cycle_batch. cbv zeta.
  rewrite failure_count_cons. cbn [success].
  split.
  - intros Hbad. rewrite Hbad. split; [| reflexivity].
    match goal with
    | |- context [failure_count ?l] => pose proof (failure_count_range l) as [Hlo _]
    end.
    replace (1 + failure_count _ >? 0) with true by (symmetry; apply Z.gtb_lt; lia).
    lia.
  - intros Hgood Hall. rewrite Hgood. split; [| reflexivity].
    rewrite failure_count_all_success; [reflexivity |].
    apply List.Forall_forall. intros r Hin. apply List.in_map_iff in Hin
      as (k & <- & Hk). apply Hall. apply List.in_seq in Hk. lia.
Qed.

Lemma monitoring_cycle_counter_witness :
  let s' := snd (monitoring_cycle (init default_config []) (slow_probe_cycle 1000000)) in
  consecutive_failures s' = 0 /\ health_status s' = true.
Proof.
  cbv zeta.
  destruct (monitoring_cycle_counter (init default_config []) (slow_probe_cycle 1000000))
    as (_ & Hclean).
  apply Hclean; [reflexivity |].
  intros k _. destruct k; reflexivity.
Defined.

(** ** Runs of several cycles *)

Lemma monitoring_cycle_config (self : ServiceMonitor) (inp : CycleInputs) :
  config (snd (monitoring_cycle self inp)) = config self.
Proof.
  destruct (monitoring_cycle_fields self inp) as (m & _ & _ & Hcfg & _). exact Hcfg.
Qed.

(** With alerting disabled one cycle logs no alert and records no timer. *)
Lemma monitoring_cycle_alerts_off (self : ServiceMonitor) (inp : CycleInputs) :
  alerts_enabled (alerts (config self)) = false ->
  alerts_logged (logger (snd (monitoring_cycle self inp))) = alerts_logged (logger self) /\
  last_alert_time (snd (monitoring_cycle self inp)) = last_alert_time self.
Proof.
  intros Hoff.
  destruct (monitoring_cycle_steps self inp)
    as (e1 & m & e2 & Hq1 & Hq2 & _ & Hcycle).
  cbv zeta in Hcycle.
  rewrite (calculate_metrics_nonempty _ _ _ (cycle_batch_nonempty self inp)) in Hcycle.
  cbn [snd] in Hcycle.
  rewrite emit_alerts_off in Hcycle by exact Hoff.
  cbn [fst snd] in Hcycle. rewrite Hcycle.
  destruct (inference_raises self);
    cbn [snd logger last_alert_time _cleanup_old_data set_logger set_metrics_history
         set_request_history set_consecutive_failures set_health_status];
    rewrite !alerts_logged_app, Hq1, Hq2, !app_nil_r; split; reflexivity.
Qed.

(** With alerting disabled no run of cycles ever hands an alert to the
    logger or records a timer. *)
Theorem start_monitoring_alerts_disabled (self : ServiceMonitor) (run : list CycleInputs) :
  alerts_enabled (alerts (config self)) = false ->
  alerts_logged (logger (start_monitoring self run)) = alerts_logged (logger self) /\
  last_alert_time (start_monitoring self run) = last_alert_time self.
Proof.
  intros Hoff. unfold start_monitoring. cbv zeta.
  match goal with
  | |- context [monitoring_loop ?s run] =>
      assert (Hgen : forall s0,
                 alerts_enabled (alerts (config s0)) = false ->
                 alerts_logged (logger (monitoring_loop s0 run)) = alerts_logged (logger s0) /\
                 last_alert_time (monitoring_loop s0 run) = last_alert_time s0);
      [| destruct (Hgen s Hoff) as [Hlog Htimers]; rewrite Hlog, Htimers;
         unfold log_success, log_info; cbn [logger last_alert_time set_logger];
         rewrite !alerts_logged_app, !app_nil_r; split; reflexivity]
  end.
  induction run as [| inp rest IH]; intros s0 H0; simpl; [split; reflexivity |].
  destruct (monitoring_cycle_alerts_off s0 inp H0) as [Hlog Htimers].
  pose proof (monitoring_cycle_config s0 inp) as Hcfg.
  destruct (monitoring_cycle s0 inp) as [[u | e] s1]; cbn [snd] in *.
  - destruct (IH s1) as [Hlog' Htimers']; [now rewrite Hcfg |].
    split; congruence.
  - unfold log_error. cbn [logger last_alert_time set_logger].
    rewrite alerts_logged_app, app_nil_r. split; assumption.
Qed.

Lemma start_monitoring_alerts_disabled_witness :
  alerts_logged
    (logger (start_monitoring (init alerts_off_config [])
               [slow_probe_cycle 1000000; slow_probe_cycle 2000000])) = [].
Proof.
  destruct (start_monitoring_alerts_disabled (init alerts_off_config [])
              [slow_probe_cycle 1000000; slow_probe_cycle 2000000]) as [Hlog _];
    [reflexivity | exact Hlog].
Defined.

Lemma counter_rule_nonneg (prior failures : Z) :
  0 <= prior -> 0 <= failures -> 0 <= counter_rule prior failures.
Proof. unfold counter_rule. destruct (failures >? 0); lia. Qed.

Lemma monitoring_loop_invariant (P : ServiceMonitor -> Prop) :
  (forall s inp, P s -> P (snd (monitoring_cycle s inp))) ->
  (forall s lg, P s -> P (set_logger s lg)) ->
  forall run s, P s -> P (monitoring_loop s run).
Proof.
  intros Hcycle Hlog. induction run as [| inp rest IH]; intros s Hs; simpl; [exact Hs |].
  pose proof (Hcycle s inp Hs) as H1.
  destruct (monitoring_cycle s inp) as [[u | e] s1]; cbn [snd] in H1.
  - apply IH, H1.
  - apply Hlog, H1.
Qed.

(** From a fresh monitor the consecutive-failure counter is never negative,
    whatever happens in the cycles of a run. *)
Theorem start_monitoring_counter_nonneg (cfg : MonitoringConfig) (lg : Logger)
    (run : list CycleInputs) :
  0 <= consecutive_failures (start_monitoring (init cfg lg) run).
Proof.
  unfold start_monitoring. cbv zeta.
  apply (monitoring_loop_invariant (fun s => 0 <= consecutive_failures s)).
  - intros s inp Hs.
    destruct (monitoring_cycle_fields s inp) as (m & _ & _ & _ & _ & Hcf & _).
    cbv zeta in Hcf. rewrite Hcf. apply counter_rule_nonneg; [exact Hs |].
    apply failure_count_range.
  - intros s lg' Hs. exact Hs.
  - cbn. lia.
Qed.

Lemma monitoring_cycle_metrics_history_length (self : ServiceMonitor) (inp : CycleInputs) :
  (List.length (metrics_history (snd (monitoring_cycle self inp)))
   <= List.length (metrics_history self) + 1)%nat.
Proof.
  destruct (monitoring_cycle_fields self inp) as (m & _ & _ & _ & _ & _ & Hhist).
  cbv zeta in Hhist.
  change (metrics_history (snd (monitoring_cycle self inp)))
    with (snd (histories (snd (monitoring_cycle self inp)))).
  rewrite Hhist.
  destruct (fst (monitoring_cycle self inp)); cbn [snd prune record_snapshot histories].
  - etransitivity; [apply List.filter_length_le |]. rewrite List.length_app. simpl. lia.
  - rewrite List.length_app. simpl. lia.
Qed.

(** From a fresh monitor [metrics_history] never holds more snapshots than
    cycles have been run. *)
Theorem start_monitoring_metrics_history_length (cfg : MonitoringConfig) (lg : Logger)
    (run : list CycleInputs) :
  (List.length (metrics_history (start_monitoring (init cfg lg) run))
   <= List.length run)%nat.
Proof.
  unfold start_monitoring. cbv zeta.
  match goal with
  | |- context [monitoring_loop ?s run] =>
      change (List.length run) with (List.length (metrics_history s) + List.length run)%nat;
      generalize s
  end.
  induction run as [| inp rest IH]; intros s; simpl; [lia |].
  pose proof (monitoring_cycle_metrics_history_length s inp) as H1.
  destruct (monitoring_cycle s inp) as [[u | e] s1]; cbn [snd] in H1.
  - specialize (IH s1). lia.
  - cbn [metrics_history set_logger]. lia.
Qed.

(** When the inference test is enabled with an interval of 0 minutes the
    first cycle ends the run: later cycles are never started, and the one
    snapshot taken is kept unpruned. *)
Theorem start_monitoring_stops (self : ServiceMonitor) (inp : CycleInputs)
    (rest : list CycleInputs) :
  inference_raises self = true ->
  start_monitoring self (inp :: rest) = start_monitoring self [inp] /\
  List.length (metrics_history (start_monitoring self (inp :: rest)))
  = S (List.length (metrics_history self)).
Proof.
  intros Hraise. unfold start_monitoring. cbv zeta. cbn [monitoring_loop].
  match goal with
  | |- context [monitoring_cycle ?s inp] =>
      destruct (monitoring_cycle_fields s inp) as (m & _ & Hout & _ & _ & _ & Hhist);
      cbv zeta in Hout, Hhist;
      change (inference_raises s) with (inference_raises self) in Hout;
      rewrite Hraise in Hout;
      destruct (monitoring_cycle s inp) as [r s1]
  end.
  cbn [fst snd] in Hout, Hhist.
  assert (Hr : exists e, r = Py.Raise e).
  { rewrite Hout. destruct (loop_overflows _ _); eexists; reflexivity. }
  destruct Hr as (e & ->). split; [reflexivity |].
  cbn [metrics_history set_logger].
  change (metrics_history s1) with (snd (histories s1)). rewrite Hhist.
  cbn [snd record_snapshot histories metrics_history set_logger].
  rewrite List.length_app. simpl. lia.
Qed.

Lemma start_monitoring_stops_witness :
  List.length
    (metrics_history
       (start_monitoring (init zero_interval_config [])
          [slow_probe_cycle 1000000; slow_probe_cycle 2000000; slow_probe_cycle 3000000]))
  = 1%nat.
Proof.
  destruct (start_monitoring_stops (init zero_interval_config [])
              (slow_probe_cycle 1000000)
              [slow_probe_cycle 2000000; slow_probe_cycle 3000000]) as [_ Hlen];
    [reflexivity | exact Hlen].
Defined.

(** ** The prober: health check and inference test *)

Lemma perform_request_sample_witness :
  (exists r, fst (perform_request (init default_config []) "/health" "get" None refused)
             = Some r /\ status_code r = 0 /\ success r = false) /\
  (exists r, fst (perform_request (init default_config []) "/health" "GET" None
                    (answered 404))
             = Some r /\ status_code r = 404 /\ success r = false).
Proof.
  split.
  - destruct (perform_request_sample (init default_config []) "/health" "get" None refused)
      as (r & Hr & _ & Hcode & Hok); [reflexivity |].
    exists r. auto.
  - destruct (perform_request_sample (init default_config []) "/health" "GET" None
                (answered 404)) as (r & Hr & _ & Hcode & Hok); [reflexivity |].
    exists r. auto.
Defined.

Lemma skipn_length_app {A} (l extra : list A) :
  skipn (List.length l) (l ++ extra) = extra.
Proof. induction l as [| x l IH]; simpl; [reflexivity | exact IH]. Qed.

(** The health check reports healthy exactly for status 200 with a body that
    parses, always reports the measured latency, logs nothing when healthy,
    and logs exactly one record, a warning for another status and an error
    otherwise, when not. *)
Theorem check_health_result (self : ServiceMonitor) (x : Exchange) :
  let r := check_health self x in
  snd (fst r) = elapsed_ms x /\
  (fst (fst r) = true <->
     exists resp body, outcome x = Responded resp /\ status resp = 200
                       /\ json resp = Some body) /\
  (fst (fst r) = true -> snd r = self) /\
  (fst (fst r) = false ->
     exists text,
       logged_since self (snd r)
       = [Message (match outcome x with
                   | Responded resp => if status resp =? 200 then "ERROR" else "WARNING"
                   | TransportError _ => "ERROR"
                   end) text]).
Proof.
  cbv zeta. unfold check_health, logged_since.
  destruct (outcome x) as [resp | e].
  - destruct (status resp =? 200) eqn:Hs; [destruct (json resp) as [body |] eqn:Hj |];
      cbn [fst snd logger set_logger log_error log_warning].
    + split; [reflexivity |]. split; [| split; [reflexivity | discriminate]].
      split; [| reflexivity]. intros _. exists resp, body.
      apply Z.eqb_eq in Hs. auto.
    + split; [reflexivity |]. split; [| split; [discriminate |]].
      * split; [discriminate |]. intros (resp' & body & Hr & _ & Hb).
        injection Hr as <-. congruence.
      * intros _. eexists. apply skipn_length_app.
    + split; [reflexivity |]. split; [| split; [discriminate |]].
      * split; [discriminate |]. intros (resp' & body & Hr & H200 & _).
        injection Hr as <-. apply Z.eqb_neq in Hs. contradiction.
      * intros _. eexists. apply skipn_length_app.
  - cbn [fst snd logger set_logger log_error].
    split; [reflexivity |]. split; [| split; [discriminate |]].
    + split; [discriminate |]. intros (resp' & body & Hr & _). discriminate.
    + intros _. eexists. apply skipn_length_app.
Qed.

Lemma check_health_result_witness :
  fst (fst (check_health (init default_config []) (answered 200))) = true /\
  snd (check_health (init default_config []) (answered 200)) = init default_config [] /\
  exists text,
    logged_since (init default_config [])
      (snd (check_health (init default_config []) (answered 503)))
    = [Message "WARNING" text].
Proof.
  destruct (check_health_result (init default_config []) (answered 200))
    as (_ & Hiff & Hquiet & _).
  destruct (check_health_result (init default_config []) (answered 503))
    as (_ & _ & _ & Hlog).
  assert (Hok : fst (fst (check_health (init default_config []) (answered 200))) = true).
  { apply Hiff. eexists _, _. repeat split. }
  split; [exact Hok |]. split; [apply Hquiet, Hok |].
  apply Hlog. reflexivity.
Defined.




(** ** Configuration loading *)

Lemma construct_raises_type_error (c : Config.dataclass)
    (kwargs : list (string * Config.value)) (e : Config.error) :
  Config.construct c kwargs = Config.Raise e -> e = Config.TypeError.
Proof.
  unfold Config.construct. destruct (forallb _ _); [| congruence].
  destruct (Config.fill _ _); congruence.
Qed.

Lemma section_raises_type_error (c : Config.dataclass) (v : Config.value)
    (e : Config.error) :
  Config.bind (Config.kwargs_of v) (Config.construct c) = Config.Raise e ->
  e = Config.TypeError.
Proof.
  destruct v; simpl; try congruence. apply construct_raises_type_error.
Qed.

Lemma construct_ok_known (c : Config.dataclass) (kwargs : list (string * Config.value))
    (obj : Config.value) :
  Config.construct c kwargs = Config.Ok obj ->
  forall k v, In (k, v) kwargs -> In k (Config.field_names c).
Proof.
  unfold Config.construct. destruct (forallb _ _) eqn:Hall; [| discriminate].
  intros _ k v Hin. rewrite List.forallb_forall in Hall.
  specialize (Hall _ Hin). unfold Config.known in Hall. cbn [fst] in Hall.
  apply List.existsb_exists in Hall as (k' & Hk' & Heq).
  apply String.eqb_eq in Heq. now subst.
Qed.

Lemma fill_required (fields : list (string * option Config.value))
    (kwargs attrs : list (string * Config.value)) :
  Config.fill fields kwargs = Some attrs ->
  forall f, In (f, None) fields -> exists v, Config.lookup f kwargs = Some v.
Proof.
  revert attrs. induction fields as [| [f0 d0] rest IH]; intros attrs Hfill f Hin;
    [contradiction |].
  simpl in Hfill.
  destruct (Config.lookup f0 kwargs) as [v0 |] eqn:Hl0.
  - destruct (Config.fill rest kwargs) as [vs |] eqn:Hrest; [| discriminate].
    destruct Hin as [Heq | Hin]; [injection Heq as <- _; eauto | eapply IH; eauto].
  - destruct d0 as [v0 |]; [| discriminate].
    destruct (Config.fill rest kwargs) as [vs |] eqn:Hrest; [| discriminate].
    destruct Hin as [Heq | Hin]; [discriminate | eapply IH; eauto].
Qed.

Lemma construct_ok_required (c : Config.dataclass) (kwargs : list (string * Config.value))
    (obj : Config.value) :
  Config.construct c kwargs = Config.Ok obj ->
  forall f, In (f, None) (Config.cls_fields c) ->
            exists v, Config.lookup f kwargs = Some v.
Proof.
  unfold Config.construct. destruct (forallb _ _); [| discriminate].
  destruct (Config.fill _ _) as [attrs |] eqn:Hfill; [| discriminate].
  intros _. eapply fill_required, Hfill.
Qed.

(** [_create_config] returns a configuration only for data whose
    [monitoring] section is a mapping that has every one of the keys
    [service], [monitoring], [thresholds], [alerts], [logging],
    [inference_test] and no other key: the section is passed to the class
    the name [MonitoringConfig] is bound to, which is the aggregate. *)
Theorem create_config_monitoring_section (data cfg : Config.value) :
  Config._create_config data = Config.Ok cfg ->
  exists d m,
    data = Config.VDict d /\
    Config.lookup "monitoring" d = Some (Config.VDict m) /\
    (forall k v, In (k, v) m -> In k (Config.field_names Config.MonitoringConfig)) /\
    (forall f, In f (Config.field_names Config.MonitoringConfig) ->
               exists v, Config.lookup f m = Some v).
Proof.
  destruct data as [| | | | | | d |]; try discriminate.
  unfold Config._create_config.
  destruct (Config.bind (Config.kwargs_of (Config.get d "service")) _)
    as [service | e]; [| discriminate].
  cbn [Config.bind].
  destruct (Config.bind (Config.kwargs_of (Config.get d "monitoring")) _)
    as [monitoring | e] eqn:Hmon; [| discriminate].
  intros _. unfold Config.get in Hmon.
  destruct (Config.lookup "monitoring" d) as [v |] eqn:Hl; [| discriminate].
  destruct v as [| | | | | | m |]; try discriminate.
  cbn [Config.bind Config.kwargs_of] in Hmon.
  exists d, m. split; [reflexivity |]. split; [exact Hl |]. split.
  - apply (construct_ok_known _ _ _ Hmon).
  - intros f Hf. apply (construct_ok_required _ _ _ Hmon).
    unfold Config.field_names in Hf. apply List.in_map_iff in Hf as ([f' o] & <- & Hin).
    cbn [fst]. simpl in Hin.
    repeat (destruct Hin as [Hin | Hin]; [injection Hin as <- <-; simpl; tauto |]).
    contradiction.
Qed.

Lemma create_config_monitoring_section_witness :
  exists d m,
    Config.nested_file = Config.VDict d /\
    Config.lookup "monitoring" d = Some (Config.VDict m) /\
    List.map fst m = Config.field_names Config.MonitoringConfig.
Proof.
  assert (H : exists cfg, Config._create_config Config.nested_file = Config.Ok cfg)
    by (eexists; reflexivity).
  destruct H as (cfg & Hcfg).
  destruct (create_config_monitoring_section _ _ Hcfg) as (d & m & Hd & Hm & _).
  exists d, m. split; [exact Hd |]. split; [exact Hm |].
  injection Hd as <-. injection Hm as <-. reflexivity.
Defined.

(** Data without a [monitoring] section, and data whose [monitoring]
    section sets one of [check_interval_seconds], [samples_per_check],
    [request_timeout_seconds] or [inference_test_interval_minutes], is
    rejected with a [TypeError]. *)
Theorem create_config_rejects_settings (d : list (string * Config.value)) :
  Config.lookup "monitoring" d = None \/
  (exists m k v,
      Config.lookup "monitoring" d = Some (Config.VDict m) /\
      In (k, v) m /\
      In k (Config.field_names Config.MonitoringConfig_settings)) ->
  Config._create_config (Config.VDict d) = Config.Raise Config.TypeError.
Proof.
  intros Hcase. unfold Config._create_config.
  destruct (Config.bind (Config.kwargs_of (Config.get d "service")) _)
    as [service | e] eqn:Hsvc.
  - cbn [Config.bind].
    assert (Hmon : Config.bind (Config.kwargs_of (Config.get d "monitoring"))
                     (Config.construct Config.MonitoringConfig)
                   = Config.Raise Config.TypeError).
    { unfold Config.get. destruct Hcase as [-> | (m & k & v & -> & Hin & Hk)];
        [reflexivity |].
      cbn [Config.bind Config.kwargs_of]. unfold Config.construct.
      replace (forallb _ m) with false; [reflexivity |].
      symmetry. apply not_true_iff_false. intros Hall.
      rewrite List.forallb_forall in Hall. specialize (Hall _ Hin).
      cbn [fst] in Hall. simpl in Hk.
      repeat (destruct Hk as [<- | Hk]; [discriminate |]). contradiction. }
    now rewrite Hmon.
  - cbn [Config.bind]. now rewrite (section_raises_type_error _ _ _ Hsvc).
Qed.

Lemma create_config_rejects_settings_witness :
  Config.load (Some Config.usual_file) = Config.Raise Config.TypeError /\
  Config.load (Some (Config.VDict [])) = Config.Raise Config.TypeError.
Proof.
  split.
  - apply create_config_rejects_settings. right.
    eexists _, "samples_per_check", _. split; [reflexivity |].
    split; [right; left; reflexivity | simpl; tauto].
  - apply create_config_rejects_settings. left. reflexivity.
Defined.

(** ** Witnesses and the alert record of the logger *)

Lemma check_thresholds_silent_witness :
  check_thresholds (init default_config []) (quiet_snapshot true) = [].
Proof.
  apply check_thresholds_silent.
  split; [reflexivity |].
  repeat (split; [unfold Qle; simpl; lia |]).
  split; reflexivity.
Defined.

Lemma dimension_alerts_levels (oc ow : bool) (c w : Alert) (P : Alert -> Prop) :
  P c -> P w -> Forall P (dimension_alerts oc ow c w).
Proof. intros Hc Hw. destruct oc, ow; simpl; repeat constructor; assumption. Qed.

(** Every candidate of [check_thresholds] is of severity warning or
    critical, so the logger records it with the severity in upper case,
    followed by the metric [alert_<dimension>] with value 1.0 tagged with the
    severity: the value 0.0 of [MonitoringLogger.alert] is never used. *)
Theorem check_thresholds_alert_records (self : ServiceMonitor) (metrics : ServiceMetrics)
    (lg : Logger) :
  Forall (fun a =>
            (a_level a = "warning" \/ a_level a = "critical") /\
            log_alert lg (a_type a) (a_message a) (a_level a) (a_value a) (a_threshold a)
            = lg ++ [AlertRecord (a_type a) (a_message a) (upper (a_level a))
                       (a_value a) (a_threshold a);
                     Metric ("alert_" +:+ a_type a) (Py.Float 1.0%Q) (a_level a)])
         (check_thresholds self metrics).
Proof.
  rewrite check_thresholds_dimensions. cbv zeta.
  repeat (apply List.Forall_app; split);
    try (apply dimension_alerts_levels;
         (split; [auto | unfold log_alert, log_metric; cbn; now rewrite <- app_assoc])).
  destruct (m_health_status metrics); [constructor |].
  constructor; [| constructor].
  split; [auto | unfold log_alert, log_metric; cbn; now rewrite <- app_assoc].
Qed.
